(** * CommonScripts: the configuration-mutation code of the Linux provisioning scripts

    A shallow embedding of the parts of [Linux/debian_init.py],
    [Linux/install_debian.py] and [Linux/install_alpine.py] that edit system
    files and swap areas: the managed-block rewrite of [enable_bbr] and
    [configure_ip_priority], [ConfigManager], the port loop of [config_sshd],
    the swap switch of [increase_swap] and the backup and rollback handlers,
    [config_shell], and [enable_bbr] and [increase_swap] as the two older
    scripts have them.

    Python [str] values are lists of Unicode code points; paths and shell words
    are Rocq strings; the file system is a finite map from paths to texts. *)

From Stdlib Require Import ZArith NArith Lia.
From stdpp Require Import base list gmap strings pretty.

Local Open Scope N_scope.

(** ** Python text *)

Module Text.

Abbreviation text := (list N).

(** An ASCII literal as a list of code points. *)
Definition lit (s : string) : text :=
  map (fun a => Ascii.N_of_ascii a) (String.list_ascii_of_string s).

Global Arguments lit : simpl never.

Definition NL : N := 10.
Definition CR : N := 13.

(** [str.isspace] for one character. *)
Definition isspace (c : N) : bool :=
  ((9 <=? c) && (c <=? 13)) || ((28 <=? c) && (c <=? 32))
  || (c =? 0x85) || (c =? 0xa0) || (c =? 0x1680)
  || ((0x2000 <=? c) && (c <=? 0x200a))
  || (c =? 0x2028) || (c =? 0x2029) || (c =? 0x202f) || (c =? 0x205f)
  || (c =? 0x3000).

Fixpoint lstrip (s : text) : text :=
  match s with
  | [] => []
  | c :: s' => if isspace c then lstrip s' else s
  end.

Fixpoint rstrip (s : text) : text :=
  match s with
  | [] => []
  | c :: s' =>
      match rstrip s' with
      | [] => if isspace c then [] else [c]
      | r => c :: r
      end
  end.

(** [s.strip()] *)
Definition strip (s : text) : text := rstrip (lstrip s).

(** [s.startswith(p)] *)
Fixpoint startswith (p s : text) : bool :=
  match p, s with
  | [], _ => true
  | _ :: _, [] => false
  | a :: p', b :: s' => (a =? b) && startswith p' s'
  end.

(** [p in s] *)
Fixpoint contains (p s : text) : bool :=
  startswith p s ||
  match s with
  | [] => false
  | _ :: s' => contains p s'
  end.

(** [s.split('\n')] *)
Fixpoint split_nl (s : text) : list text :=
  match s with
  | [] => [[]]
  | c :: s' =>
      if c =? NL then [] :: split_nl s'
      else match split_nl s' with
           | l :: ls => (c :: l) :: ls
           | [] => [[c]]
           end
  end.

(** ['\n'.join(ls)] *)
Fixpoint join_nl (ls : list text) : text :=
  match ls with
  | [] => []
  | [l] => l
  | l :: ls' => l ++ NL :: join_nl ls'
  end.

(** What [f.read()] returns for a file opened in text mode with the default
    [newline=None]: every [\r\n] and every lone [\r] of the stored text
    arrives as [\n].  Writing in text mode on Linux stores the text as it is. *)
Fixpoint universal_newlines (s : text) : text :=
  match s with
  | [] => []
  | c :: s' =>
      if c =? CR then
        match s' with
        | d :: s'' => if d =? NL then NL :: universal_newlines s''
                      else NL :: universal_newlines s'
        | [] => [NL]
        end
      else c :: universal_newlines s'
  end.

Definition is_empty (s : text) : bool :=
  match s with [] => true | _ => false end.

End Text.

(** ** The managed blocks of [enable_bbr] and [configure_ip_priority] *)

Module ManagedBlock.
Import Text.

(** *** [enable_bbr], steps 3 and 4 *)

(* 网络加速 *)
Definition bbr_marker_zh : text := lit "# BBR" ++ [0x7f51; 0x7edc; 0x52a0; 0x901f].

(** ['# BBR Configuration' in line or '# BBR网络加速' in line] *)
Definition bbr_is_marker (line : text) : bool :=
  contains (lit "# BBR Configuration") line || contains bbr_marker_zh line.

Definition bbr_is_directive (line : text) : bool :=
  startswith (lit "net.core.default_qdisc") line
  || startswith (lit "net.ipv4.tcp_congestion_control") line.

(** The [for line in lines] loop; the result is [cleaned_lines], the first
    argument is [skip_bbr_section]. *)
Fixpoint bbr_scan (skip : bool) (lines : list text) : list text :=
  match lines with
  | [] => []
  | raw :: rest =>
      let line := strip raw in
      if bbr_is_marker line then bbr_scan true rest
      else if skip && bbr_is_directive line then bbr_scan skip rest
      else if skip && (is_empty line || startswith (lit "#") line) then
        (if is_empty line then [] else [line]) ++ bbr_scan false rest
      else line :: bbr_scan false rest
  end.

Definition bbr_marker_line : text := lit "# BBR Configuration - Auto Generated".
Definition bbr_qdisc_line : text := lit "net.core.default_qdisc=fq".
Definition bbr_cc_line : text := lit "net.ipv4.tcp_congestion_control=bbr".

Definition bbr_config : text :=
  NL :: bbr_marker_line ++ NL :: bbr_qdisc_line ++ NL :: bbr_cc_line.

(** The text handed to the three [f.write] calls, one after the other. *)
Definition bbr_writes (content : text) : list text :=
  [join_nl (bbr_scan false (split_nl content)); bbr_config; [NL]].

Definition bbr_rewrite (content : text) : text := concat (bbr_writes content).

(** *** [configure_ip_priority], steps 3 to 5 *)

(* IP优先级配置 *)
Definition ip_marker_zh : text :=
  lit "# IP" ++ [0x4f18; 0x5148; 0x7ea7; 0x914d; 0x7f6e].

Definition ip_is_marker (line : text) : bool :=
  contains (lit "# IP Priority Configuration") line || contains ip_marker_zh line.

(** The [for line in lines] loop: [raw] is [original_line]. *)
Fixpoint ip_scan (skip : bool) (lines : list text) : list text :=
  match lines with
  | [] => []
  | raw :: rest =>
      let line := strip raw in
      if ip_is_marker line then ip_scan true rest
      else if skip && (startswith (lit "precedence") line
                       || startswith (lit "label") line
                       || is_empty line || startswith (lit "#") line) then
        if skip && negb (is_empty line) && negb (startswith (lit "#") line)
           && negb (startswith (lit "precedence") line)
           && negb (startswith (lit "label") line)
        then raw :: ip_scan false rest
        else ip_scan skip rest
      else raw :: ip_scan false rest
  end.

Inductive priority := Ipv4 | Ipv6.

(* 优先配置 *)
Definition ip_note_zh (v : string) : text :=
  lit "# " ++ lit v ++ [0x4f18; 0x5148; 0x914d; 0x7f6e].

Definition ip_block_lines (p : priority) : list text :=
  match p with
  | Ipv4 =>
      [ lit "# IP Priority Configuration - IPv4 Preferred";
        ip_note_zh "IPv4";
        lit "precedence ::ffff:0:0/96  100";
        lit "precedence ::/0          50";
        lit "precedence 2002::/16     30";
        lit "precedence ::/96         20";
        lit "precedence ::1/128       40" ]
  | Ipv6 =>
      [ lit "# IP Priority Configuration - IPv6 Preferred";
        ip_note_zh "IPv6";
        lit "precedence ::/0          100";
        lit "precedence ::ffff:0:0/96 50";
        lit "precedence 2002::/16     30";
        lit "precedence ::/96         20";
        lit "precedence ::1/128       40" ]
  end.

(** [priority_config]: a newline, then the lines of the block joined by
    newlines. *)
Definition priority_config (p : priority) : text :=
  NL :: join_nl (ip_block_lines p).

Definition ip_writes (p : priority) (content : text) : list text :=
  [join_nl (ip_scan false (split_nl content)); priority_config p; [NL]].

Definition ip_rewrite (p : priority) (content : text) : text :=
  concat (ip_writes p content).

(** *** The common shape of the two rewrites *)

Definition bbr_block : list text := [bbr_marker_line; bbr_qdisc_line; bbr_cc_line].

(** What is written for a scan loop [scan] and the lines [block]. *)
Definition rewrite_with (scan : bool -> list text -> list text) (block : list text)
    (c : text) : text :=
  concat [join_nl (scan false (split_nl c)); NL :: join_nl block; [NL]].

(** The cleaned lines, as [split] finds them again in the written file. *)
Definition kept (scan : bool -> list text -> list text) (c : text) : list text :=
  match scan false (split_nl c) with
  | [] => [[]]
  | ls => ls
  end.

End ManagedBlock.

(** ** The host: files, swap areas, and what the scripts do to them *)

Module Host.
Import Text.

Inductive swap_type := Partition | SwapFile.

(** A file is a text, space set aside by [fallocate], or a directory. *)
Inductive file :=
| Regular (body : text)
| Allocated (size : text)
| Directory.

Record sys := Sys {
  files : gmap text file;
  swaps : list (text * swap_type)   (* the active areas, as [swapon --show] lists them *)
}.

(** Shell command lines, as structured values.  A path that is interpolated in
    a command line stands for one shell word. *)
Inductive command :=
| Cp (src dst : text)
| Mv (src dst : text)
| Touch (p : text)
| Rm (ps : list text)                              (* rm -f p1 p2 ... *)
| RmGlob (dir : text)                              (* rm -rf dir/* *)
| Sed (pat : text) (dotstar : bool) (repl p : text) (* sed -i 's/^pat/repl/' p; [dotstar]: 's/^pat.*/repl/' *)
| Echo (line p : text)                             (* echo 'line' >> p *)
| Fallocate (size p : text)
| Chmod (mode p : text)
| Mkswap (p : text)
| Swapon (p : text)
| Swapoff (p : text)
| SwaponShow                                       (* swapon --show=NAME,TYPE --noheadings *)
| AndThen (c1 c2 : command)                        (* c1 && c2 *)
| Semi (c1 c2 : command)                           (* c1 ; c2 *)
| Query (cmdline : text)                           (* reads the host only: sshd -t, sysctl name, ... *)
| Utility (cmdline : text).                        (* anything else: apt-get, ssh-keygen, systemctl restart, ... *)

(** What the script does to the outside, one operation at a time. *)
Inductive op :=
| Sh (c : command)                   (* run(...) *)
| ReadText (p : text)                (* open(p, "r") and f.read() *)
| OpenW (p : text)                   (* open(p, "w") *)
| OpenA (p : text)                   (* open(p, "a") *)
| Write (p data : text)              (* f.write(data), at the end of the file *)
| Overwrite (p data : text)          (* f.seek(0); f.write(data); f.truncate() *)
| OsReplace (src dst : text)         (* os.replace(src, dst) *)
| Makedirs (p : text)
| OsChmod (p : text)
| Clock                              (* time.time() or datetime.now() *)
| RandInt (lo hi : Z)                (* random.randint(lo, hi) *)
| ConnectEx (port : Z)               (* s.connect_ex(('localhost', port)) *)
| Sleep.

Record datetime := DateTime {
  year : N; month : N; day : N; hour : N; minute : N; second : N
}.

(** What the world answers to the [n]-th operation of a run. *)
Record environment := Env {
  status : nat -> Z;           (* 0 lets the operation go through; anything else makes it fail *)
  answer : nat -> text;        (* standard output of a [Query] or [Utility] *)
  effect : nat -> sys -> sys;  (* what a [Utility] does to the host *)
  partial : nat -> nat;        (* how much of the data of a failing [Write] reached the file *)
  epoch : nat -> Z;            (* int(time.time()) *)
  localtime : nat -> datetime; (* datetime.now() *)
  entropy : nat -> Z;          (* the random source *)
  errno : nat -> Z             (* result of a connect_ex: 0 when the connection is made *)
}.

Definition exists_ (s : sys) (p : text) : bool := bool_decide (is_Some (files s !! p)).

Definition rename_area (src dst : text) (a : text * swap_type) : text * swap_type :=
  if bool_decide (a.1 = src) then (dst, a.2) else a.

Definition active (s : sys) (p : text) : bool := bool_decide (p ∈ (swaps s).*1).

Definition sed_line (pat : text) (dotstar : bool) (repl l : text) : text :=
  if startswith pat l then (if dotstar then repl else repl ++ drop (length pat) l) else l.

Definition sed_subst (pat : text) (dotstar : bool) (repl t : text) : text :=
  join_nl (map (sed_line pat dotstar repl) (split_nl t)).

Definition swap_type_name (t : swap_type) : text :=
  match t with Partition => lit "partition" | SwapFile => lit "file" end.

(** The listing of [swapon --show=NAME,TYPE --noheadings]. *)
Definition swapon_listing (l : list (text * swap_type)) : text :=
  concat (map (fun a => a.1 ++ lit " " ++ swap_type_name a.2 ++ [NL]) l).

(** Whether the shell pattern [dir/*] covers [p] or a directory above it. *)
Definition under_glob (dir p : text) : bool :=
  startswith (dir ++ lit "/") p
  && match drop (length dir + 1) p with
     | [] => false
     | c :: _ => negb (c =? 46)
     end.

(** A command that is let through: exit status, standard output, new host. *)
Fixpoint exec (E : environment) (n : nat) (c : command) (s : sys) : Z * text * sys :=
  match c with
  | Cp src dst =>
      match files s !! src with
      | Some f => (0%Z, [], Sys (<[dst := f]> (files s)) (swaps s))
      | None => (1%Z, [], s)
      end
  | Mv src dst =>
      match files s !! src with
      | Some f =>
          if bool_decide (src = dst) then (1%Z, [], s)
          else (0%Z, [], Sys (<[dst := f]> (delete src (files s)))
                             (map (rename_area src dst) (swaps s)))
      | None => (1%Z, [], s)
      end
  | Touch p =>
      match files s !! p with
      | Some _ => (0%Z, [], s)
      | None => (0%Z, [], Sys (<[p := Regular []]> (files s)) (swaps s))
      end
  | Rm ps => (0%Z, [], Sys (foldr delete (files s) ps) (swaps s))
  | RmGlob dir =>
      (0%Z, [], Sys (filter (fun kv => under_glob dir kv.1 = false) (files s)) (swaps s))
  | Sed pat dotstar repl p =>
      match files s !! p with
      | Some (Regular t) =>
          (0%Z, [], Sys (<[p := Regular (sed_subst pat dotstar repl t)]> (files s)) (swaps s))
      | _ => (4%Z, [], s)
      end
  | Echo line p =>
      match files s !! p with
      | Some (Regular t) =>
          (0%Z, [], Sys (<[p := Regular (t ++ line ++ [NL])]> (files s)) (swaps s))
      | Some _ => (1%Z, [], s)
      | None => (0%Z, [], Sys (<[p := Regular (line ++ [NL])]> (files s)) (swaps s))
      end
  | Fallocate size p =>
      (0%Z, [], Sys (<[p := Allocated size]> (files s)) (swaps s))
  | Chmod _ p | Mkswap p =>
      if exists_ s p then (0%Z, [], s) else (1%Z, [], s)
  | Swapon p =>
      if exists_ s p && negb (active s p)
      then (0%Z, [], Sys (files s) (swaps s ++ [(p, SwapFile)]))
      else (255%Z, [], s)
  | Swapoff p =>
      if active s p
      then (0%Z, [], Sys (files s) (filter (fun a => a.1 ≠ p) (swaps s)))
      else (255%Z, [], s)
  | SwaponShow => (0%Z, swapon_listing (swaps s), s)
  | AndThen c1 c2 =>
      let '(st, out, s') := exec E n c1 s in
      if (st =? 0)%Z then
        let '(st2, out2, s'') := exec E n c2 s' in (st2, out ++ out2, s'')
      else (st, out, s')
  | Semi c1 c2 =>
      let '(_, out, s') := exec E n c1 s in
      let '(st2, out2, s'') := exec E n c2 s' in (st2, out ++ out2, s'')
  | Query _ => (0%Z, answer E n, s)
  | Utility _ => (0%Z, answer E n, effect E n s)
  end.

(** [subprocess.run(c, shell=True)]: the environment may make any command
    fail; a failing command that the model interprets leaves the host as it
    was, a failing [Utility] may still have changed it. *)
Definition shell (E : environment) (n : nat) (c : command) (s : sys) : Z * text * sys :=
  if (status E n =? 0)%Z then exec E n c s
  else match c with
       | Utility _ => (status E n, answer E n, effect E n s)
       | Query _ => (status E n, answer E n, s)
       | _ => (status E n, [], s)
       end.

End Host.

(** ** Running a script: state, exceptions, [try] and [except] *)

Module Run.
Import Text Host.

Inductive exn :=
| CalledProcessError (returncode : Z)   (* raised by [run(..., check=True)] *)
| OSError                               (* a file operation of Python failed *)
| Exception_ (msg : string).            (* [raise Exception(...)] and the other built-in errors *)

Inductive result (A : Type) :=
| Return (a : A)
| Raise (e : exn)
| Spin.                                 (* a loop that is still running when the fuel is spent *)
Arguments Return {A} a.
Arguments Raise {A} e.
Arguments Spin {A}.

Record host := Host {
  cur : sys;                (* the host now *)
  ops : list op;            (* the operations carried out, oldest first *)
  seen : list sys;          (* the host after each of them, oldest first *)
  vars : gmap string text   (* local variables that an [except] clause looks at *)
}.

Definition boot (s : sys) : host := Host s [] [] ∅.

(** The states an observer of the run that starts in [s] can see. *)
Definition instants (s : sys) (h : host) : list sys := s :: seen h.

Definition M (A : Type) : Type := host -> result A * host.

Definition ret {A} (a : A) : M A := fun h => (Return a, h).
Definition raise {A} (e : exn) : M A := fun h => (Raise e, h).
Definition bind {A B} (m : M A) (k : A -> M B) : M B :=
  fun h =>
    match m h with
    | (Return a, h') => k a h'
    | (Raise e, h') => (Raise e, h')
    | (Spin, h') => (Spin, h')
    end.

Notation "x <- m ;; k" := (bind m (fun x => k))
  (at level 62, m at next level, right associativity).
Notation "m ;;; k" := (bind m (fun _ => k))
  (at level 62, right associativity).

(** [try: body except ...]: [handler e] is [None] when no clause matches [e]. *)
Definition try_except {A} (body : M A) (handler : exn -> option (M A)) : M A :=
  fun h =>
    match body h with
    | (Raise e, h') =>
        match handler e with
        | Some k => k h'
        | None => (Raise e, h')
        end
    | r => r
    end.

(** [except Exception] *)
Definition any_exception {A} (k : M A) : exn -> option (M A) := fun _ => Some k.

Definition tick (h : host) : nat := length (ops h).

Definition record (o : op) (s' : sys) (h : host) : host :=
  Host s' (ops h ++ [o]) (seen h ++ [s']) (vars h).

Definition set_var (x : string) (v : text) : M unit :=
  fun h => (Return tt, Host (cur h) (ops h) (seen h) (<[x := v]> (vars h))).

(** The value of a local variable, [None] while it is unbound. *)
Definition get_var (x : string) : M (option text) :=
  fun h => (Return (vars h !! x), h).

Record completed := Completed { returncode : Z; stdout : text }.

Section Primitives.
Variable E : environment.

(** [run(command, check=check)] *)
Definition run (c : command) (check : bool) : M completed :=
  fun h =>
    let '(st, out, s') := shell E (tick h) c (cur h) in
    let h' := record (Sh c) s' h in
    if check && negb (st =? 0)%Z then (Raise (CalledProcessError st), h')
    else (Return (Completed st out), h').

(** [os.path.exists(p)] *)
Definition path_exists (p : text) : M bool :=
  fun h => (Return (exists_ (cur h) p), h).

(** [open(p, "r")] followed by [f.read()] *)
Definition read_text (p : text) : M text :=
  fun h =>
    let h' := record (ReadText p) (cur h) h in
    if negb (status E (tick h) =? 0)%Z then (Raise OSError, h')
    else match files (cur h) !! p with
         | Some (Regular t) => (Return (universal_newlines t), h')
         | _ => (Raise OSError, h')
         end.

(** [open(p, "w")]: the file is created or emptied. *)
Definition open_w (p : text) : M unit :=
  fun h =>
    if negb (status E (tick h) =? 0)%Z then (Raise OSError, record (OpenW p) (cur h) h)
    else (Return tt,
          record (OpenW p) (Sys (<[p := Regular []]> (files (cur h))) (swaps (cur h))) h).

(** [open(p, "a")]: the file is created when it is missing. *)
Definition open_a (p : text) : M unit :=
  fun h =>
    if negb (status E (tick h) =? 0)%Z then (Raise OSError, record (OpenA p) (cur h) h)
    else match files (cur h) !! p with
         | Some _ => (Return tt, record (OpenA p) (cur h) h)
         | None =>
             (Return tt,
              record (OpenA p) (Sys (<[p := Regular []]> (files (cur h))) (swaps (cur h))) h)
         end.

Definition append_to (p data : text) (s : sys) : sys :=
  match files s !! p with
  | Some (Regular t) => Sys (<[p := Regular (t ++ data)]> (files s)) (swaps s)
  | _ => Sys (<[p := Regular data]> (files s)) (swaps s)
  end.

(** [f.write(data)] on a file opened with "w" or "a".  When it fails, a
    part of [data] may have reached the file. *)
Definition write (p data : text) : M unit :=
  fun h =>
    if negb (status E (tick h) =? 0)%Z
    then (Raise OSError,
          record (Write p data) (append_to p (take (partial E (tick h)) data) (cur h)) h)
    else (Return tt, record (Write p data) (append_to p data (cur h)) h).

(** [f.seek(0); f.write(data); f.truncate()] on a file opened with "r+". *)
Definition overwrite (p data : text) : M unit :=
  fun h =>
    if negb (status E (tick h) =? 0)%Z
    then (Raise OSError, record (Overwrite p data) (cur h) h)
    else (Return tt,
          record (Overwrite p data)
                 (Sys (<[p := Regular data]> (files (cur h))) (swaps (cur h))) h).

(** [os.replace(src, dst)]: one rename. *)
Definition os_replace (src dst : text) : M unit :=
  fun h =>
    let fail := (Raise OSError, record (OsReplace src dst) (cur h) h) in
    if negb (status E (tick h) =? 0)%Z then fail
    else match files (cur h) !! src with
         | Some f =>
             (Return tt,
              record (OsReplace src dst)
                     (Sys (<[dst := f]> (delete src (files (cur h))))
                          (map (rename_area src dst) (swaps (cur h)))) h)
         | None => fail
         end.

(** [os.makedirs(p, mode=0o700)] *)
Definition makedirs (p : text) : M unit :=
  fun h =>
    if negb (status E (tick h) =? 0)%Z then (Raise OSError, record (Makedirs p) (cur h) h)
    else match files (cur h) !! p with
         | Some _ => (Raise OSError, record (Makedirs p) (cur h) h)
         | None =>
             (Return tt,
              record (Makedirs p) (Sys (<[p := Directory]> (files (cur h))) (swaps (cur h))) h)
         end.

(** [os.chmod(p, 0o600)] *)
Definition os_chmod (p : text) : M unit :=
  fun h =>
    if negb (status E (tick h) =? 0)%Z || negb (exists_ (cur h) p)
    then (Raise OSError, record (OsChmod p) (cur h) h)
    else (Return tt, record (OsChmod p) (cur h) h).

(** [int(time.time())] *)
Definition time_time : M Z :=
  fun h => (Return (epoch E (tick h)), record Clock (cur h) h).

(** [datetime.now()] *)
Definition datetime_now : M datetime :=
  fun h => (Return (localtime E (tick h)), record Clock (cur h) h).

(** [time.sleep(1)] *)
Definition sleep : M unit :=
  fun h => (Return tt, record Sleep (cur h) h).

(** [random.randint(lo, hi)]: some integer of the closed range. *)
Definition randint (lo hi : Z) : M Z :=
  fun h =>
    (Return (lo + (entropy E (tick h)) `mod` (hi - lo + 1))%Z,
     record (RandInt lo hi) (cur h) h).

(** [s.connect_ex(('localhost', port))] on a fresh TCP socket. *)
Definition connect_ex (port : Z) : M Z :=
  fun h =>
    if negb (status E (tick h) =? 0)%Z
    then (Raise OSError, record (ConnectEx port) (cur h) h)
    else (Return (errno E (tick h)), record (ConnectEx port) (cur h) h).

End Primitives.

End Run.

(** ** The scripts *)

Module Script.
Import Text Host Run ManagedBlock.

(** [str(n)] for an integer. *)
Definition str_int (z : Z) : text := lit (pretty z).

Definition dec (n : N) : text := lit (pretty n).

Definition pad2 (n : N) : text := if n <? 10 then lit "0" ++ dec n else dec n.

(** [d.strftime("%Y%m%d%H%M%S")] *)
Definition strftime (d : datetime) : text :=
  dec (year d) ++ pad2 (month d) ++ pad2 (day d)
  ++ pad2 (hour d) ++ pad2 (minute d) ++ pad2 (second d).

(** [s.split()] *)
Fixpoint split_ws (s : text) : list text :=
  match s with
  | [] => []
  | c :: s' =>
      if isspace c then split_ws s'
      else match s' with
           | [] => [[c]]
           | d :: _ =>
               if isspace d then [c] :: split_ws s'
               else match split_ws s' with
                    | w :: ws => (c :: w) :: ws
                    | [] => [[c]]
                    end
           end
  end.

(** [s.replace(old, new)] for a non-empty [old]; [skip] counts the characters
    of a match that are still to be passed over. *)
Fixpoint replace_go (old new : text) (skip : nat) (s : text) : text :=
  match s with
  | [] => []
  | c :: s' =>
      match skip with
      | S k => replace_go old new k s'
      | O =>
          if startswith old s then new ++ replace_go old new (length old - 1) s'
          else c :: replace_go old new 0 s'
      end
  end.

Definition replace (old new s : text) : text := replace_go old new 0 s.

Section Scripts.
Variable E : environment.

(** *** [ConfigManager] *)

Definition create_backup (file_path : text) : M (option text) :=
  present <- path_exists file_path ;;
  if negb present then ret None
  else
    now <- datetime_now E ;;
    let timestamp := strftime now in
    let backup_path := file_path ++ lit ".bak." ++ timestamp in
    try_except
      (run E (Cp file_path backup_path) true ;;; ret (Some backup_path))
      (any_exception (ret None)).

Definition restore_backup (backup_path original_path : text) : M bool :=
  present <- path_exists backup_path ;;
  if negb present then ret false
  else
    try_except
      (run E (Mv backup_path original_path) true ;;; ret true)
      (any_exception (ret false)).

Definition atomic_write (file_path content : text) : M bool :=
  let tmp_file := file_path ++ lit ".tmp" in
  try_except
    (open_w E tmp_file ;;;
     write E tmp_file content ;;;
     os_replace E tmp_file file_path ;;;
     ret true)
    (any_exception (ret false)).

(** *** [increase_swap] of debian_init.py *)

Definition swap_file : text := lit "/swapfile".
Definition fstab : text := lit "/etc/fstab".

(** [for cmd in cmds: result = run(cmd, check=False)], raising at the first
    command that fails. *)
Fixpoint run_each (msg : string) (cmds : list command) : M unit :=
  match cmds with
  | [] => ret tt
  | cmd :: rest =>
      result <- run E cmd false ;;
      if negb (returncode result =? 0)%Z then raise (Exception_ msg)
      else run_each msg rest
  end.

Definition create_swapfile (swap_size : text) : M unit :=
  run_each "create swapfile"
    [ Fallocate swap_size swap_file;
      Chmod (lit "600") swap_file;
      Mkswap swap_file;
      Swapon swap_file;
      Echo (swap_file ++ lit " none swap sw 0 0") fstab ].

(** The update of /etc/fstab, on a file opened with "r+". *)
Definition update_fstab (existing_file : text) : M unit :=
  content <- read_text E fstab ;;
  let new_entry := existing_file ++ lit " none swap sw 0 0" in
  if negb (contains existing_file content) then
    write E fstab (NL :: new_entry ++ [NL])
  else if negb (contains new_entry content) then
    overwrite E fstab (replace existing_file new_entry content)
  else ret tt.

(** The branch [elif swap_type == "file"]. *)
Definition resize_swap_file (swap_size existing_file : text) : M unit :=
  let tmp_file := lit "/swapfile.tmp" in
  set_var "tmp_file" tmp_file ;;;
  run E (AndThen (Fallocate swap_size tmp_file) (Chmod (lit "600") tmp_file)) true ;;;
  run E (Mkswap tmp_file) true ;;;
  run E (Swapoff existing_file) true ;;;
  run E (Swapon tmp_file) true ;;;
  run E (Mv tmp_file existing_file) true ;;;
  update_fstab existing_file.

Fixpoint semi_all (c : command) (cs : list command) : command :=
  match cs with
  | [] => c
  | c' :: cs' => Semi c (semi_all c' cs')
  end.

Definition truthy (v : option text) : list text :=
  match v with
  | Some (c :: t) => [c :: t]
  | _ => []
  end.

(** The [except Exception] clause. *)
Definition swap_cleanup : M bool :=
  existing_file <- get_var "existing_file" ;;
  tmp_file <- get_var "tmp_file" ;;
  let cleanup_commands := map Swapoff (truthy existing_file ++ [swap_file]) in
  let files_to_remove := swap_file :: truthy existing_file ++ truthy tmp_file in
  match cleanup_commands with
  | c :: cs => run E (semi_all c cs) false ;;; ret tt
  | [] => ret tt
  end ;;;
  run E (Rm files_to_remove) false ;;;
  ret false.

Definition increase_swap (swap_size : text) : M bool :=
  try_except
    (result <- run E SwaponShow false ;;
     if negb (returncode result =? 0)%Z || is_empty (strip (stdout result)) then
       create_swapfile swap_size ;;; ret true
     else
       let swap_info := split_ws (stdout result) in
       match swap_info !! 1%nat, swap_info !! 0%nat with
       | Some swap_type, Some existing_file =>
           set_var "existing_file" existing_file ;;;
           (if bool_decide (swap_type = lit "partition") then create_swapfile swap_size
            else if bool_decide (swap_type = lit "file") then
              resize_swap_file swap_size existing_file
            else ret tt) ;;;
           check_result <- run E (Query (lit "swapon --show=" ++ existing_file
                                         ++ lit " --noheadings")) false ;;
           if negb (returncode check_result =? 0)%Z
           then raise (Exception_ "swap check")
           else ret true
       | _, _ => raise (Exception_ "IndexError")
       end)
    (any_exception swap_cleanup).

(** *** The port loops of [config_sshd] *)

(** [is_port_available(port)] *)
Definition is_port_available (port : Z) : M bool :=
  r <- connect_ex E port ;; ret (negb (r =? 0)%Z).

(** [while not is_port_available(port): port = random.randint(60000, 65535)] *)
Fixpoint while_port_taken (fuel : nat) (port : Z) : M Z :=
  match fuel with
  | O => fun h => (Spin, h)
  | S fuel' =>
      free <- is_port_available port ;;
      if negb free then
        port' <- randint E 60000 65535 ;; while_port_taken fuel' port'
      else ret port
  end.

Definition pick_port (fuel : nat) : M Z :=
  port <- randint E 60000 65535 ;; while_port_taken fuel port.

(** [netstat -ltn | grep -q :{port}] *)
Definition netstat (port : Z) : command :=
  Query (lit "netstat -ltn | grep -q :" ++ str_int port).

(** install_alpine.py: [while True: port = random.randint(60000, 65500)],
    left when [grep] finds nothing. *)
Fixpoint alpine_pick_port (fuel : nat) : M Z :=
  match fuel with
  | O => fun h => (Spin, h)
  | S fuel' =>
      port <- randint E 60000 65500 ;;
      r <- run E (netstat port) false ;;
      if negb (returncode r =? 0)%Z then ret port
      else alpine_pick_port fuel'
  end.


(** *** [config_sshd] of debian_init.py *)

Definition sshd_config : text := lit "/etc/ssh/sshd_config".

Definition config_commands (port : Z) : list command :=
  [ Sed (lit "#Port") true (lit "Port " ++ str_int port) sshd_config;
    Sed (lit "#PermitRootLogin") true (lit "PermitRootLogin prohibit-password") sshd_config;
    Sed (lit "PasswordAuthentication yes") false (lit "PasswordAuthentication no") sshd_config;
    Sed (lit "#PasswordAuthentication yes") false (lit "PasswordAuthentication no") sshd_config;
    Sed (lit "#PubkeyAuthentication yes") false (lit "PubkeyAuthentication yes") sshd_config;
    Sed (lit "#ClientAliveInterval 0") false (lit "ClientAliveInterval 30") sshd_config;
    Sed (lit "#ClientAliveCountMax 3") false (lit "ClientAliveCountMax 6") sshd_config;
    Echo (lit "AllowUsers root") sshd_config;
    RmGlob (lit "/etc/ssh/sshd_config.d") ].

(** [for cmd in config_commands: run(cmd, check=True)] *)
Fixpoint run_all_checked (cmds : list command) : M unit :=
  match cmds with
  | [] => ret tt
  | cmd :: rest => run E cmd true ;;; run_all_checked rest
  end.

Definition sshd_restart : command := Utility (lit "systemctl restart sshd").

(** The [try] block up to the name of the backup file: steps 1 and 2 and
    the time stamp. *)
Definition config_sshd_prepare (fuel : nat) : M (Z * text) :=
  installed <- path_exists sshd_config ;;
  (if negb installed then
     run E (Utility (lit "apt-get update -qq && apt-get install -qq  -y openssh-server")) true
     ;;; ret tt
   else ret tt) ;;;
  port <- pick_port fuel ;;
  now <- time_time E ;;
  let backup_file := sshd_config ++ lit ".bak." ++ str_int now in
  set_var "backup_file" backup_file ;;;
  ret (port, backup_file).

(** The [try] block after the backup copy: the edits of step 3 and steps 4
    to 6; [home] is what [~] expands to. *)
Definition config_sshd_mutate (home : text) (port : Z) : M bool :=
  let ssh_dir := home ++ lit "/.ssh" in
  let key_path := ssh_dir ++ lit "/id_ed25519" in
  run_all_checked (config_commands port) ;;;
  have_dir <- path_exists ssh_dir ;;
  (if negb have_dir then makedirs E ssh_dir else ret tt) ;;;
  run E (Utility (lit "ssh-keygen -t ed25519 -f " ++ key_path ++ lit " -N ''")) true ;;;
  have_key <- path_exists key_path ;;
  have_pub <- path_exists (key_path ++ lit ".pub") ;;
  if negb (have_key && have_pub) then raise (Exception_ "ssh key")
  else
    let authorized_keys := ssh_dir ++ lit "/authorized_keys" in
    pub <- read_text E (key_path ++ lit ".pub") ;;
    let pubkey := strip pub in
    have_auth <- path_exists authorized_keys ;;
    known <- (if have_auth then
                auth <- read_text E authorized_keys ;; ret (contains pubkey auth)
              else ret false) ;;
    (if negb known then
       open_a E authorized_keys ;;;
       write E authorized_keys (NL :: pubkey ++ [NL]) ;;;
       os_chmod E authorized_keys
     else ret tt) ;;;
    run E (Query (lit "sshd -t")) true ;;;
    run E sshd_restart true ;;;
    status <- run E (Query (lit "systemctl is-active sshd")) false ;;
    if negb (contains (lit "active") (stdout status)) then raise (Exception_ "sshd not active")
    else ret true.

(** The body of the [try] block. *)
Definition config_sshd_body (home : text) (fuel : nat) : M bool :=
  prepared <- config_sshd_prepare fuel ;;
  run E (Cp sshd_config prepared.2) true ;;;
  config_sshd_mutate home prepared.1.

(** The two [except] clauses. *)
Definition config_sshd_handler (e : exn) : option (M bool) :=
  match e with
  | CalledProcessError _ =>
      Some (backup_file <- get_var "backup_file" ;;
            match backup_file with
            | Some (c :: t) =>
                present <- path_exists (c :: t) ;;
                if present then
                  run E (Mv (c :: t) sshd_config) false ;;;
                  run E sshd_restart false ;;;
                  ret false
                else ret false
            | _ => ret false
            end)
  | _ => Some (ret false)
  end.

Definition config_sshd (home : text) (fuel : nat) : M bool :=
  set_var "backup_file" [] ;;;
  try_except (config_sshd_body home fuel) config_sshd_handler.

(** *** [enable_bbr] of debian_init.py *)

Definition sysctl_conf : text := lit "/etc/sysctl.conf".

Definition check_bbr_enabled : M bool :=
  try_except
    (congestion <- run E (Query (lit "sysctl net.ipv4.tcp_congestion_control")) false ;;
     qdisc <- run E (Query (lit "sysctl net.core.default_qdisc")) false ;;
     available_congestion <-
       run E (Query (lit "sysctl net.ipv4.tcp_available_congestion_control")) false ;;
     let bbr_available := contains (lit "bbr") (stdout available_congestion) in
     let bbr_enabled := contains (lit "bbr") (stdout congestion) in
     let fq_enabled := contains (lit "fq") (stdout qdisc) in
     ret (bbr_available && bbr_enabled && fq_enabled))
    (any_exception (ret false)).

(** [with open(p, "w") as f:] and the [f.write] calls under it. *)
Fixpoint write_all (p : text) (chunks : list text) : M unit :=
  match chunks with
  | [] => ret tt
  | data :: rest => write E p data ;;; write_all p rest
  end.

Definition write_file (p : text) (chunks : list text) : M unit :=
  open_w E p ;;; write_all p chunks.

(** Read the file, then open it with "w" and write what [w] makes of the
    content. *)
Definition rewrite_step (p : text) (w : text -> list text) : M unit :=
  content <- read_text E p ;; write_file p (w content).

(** Steps 3 and 4: read the file, drop the old block, write the new one. *)
Definition bbr_block_step : M unit := rewrite_step sysctl_conf bbr_writes.

Definition restore_if_present (backup_file target : text) : M unit :=
  match backup_file with
  | [] => ret tt
  | _ =>
      present <- path_exists backup_file ;;
      if present then run E (Mv backup_file target) false ;;; ret tt
      else ret tt
  end.

Definition enable_bbr_apply : M bool :=
  result1 <- run E (Utility (lit "sysctl -w net.core.default_qdisc=fq")) false ;;
  if negb (returncode result1 =? 0)%Z then raise (Exception_ "qdisc")
  else
    result2 <- run E (Utility (lit "sysctl -w net.ipv4.tcp_congestion_control=bbr")) false ;;
    if negb (returncode result2 =? 0)%Z then raise (Exception_ "congestion control")
    else
      run E (Utility (lit "sysctl -p /etc/sysctl.conf")) false ;;;
      sleep ;;;
      run E (Query (lit "sysctl net.ipv4.tcp_congestion_control")) false ;;;
      run E (Query (lit "sysctl net.core.default_qdisc")) false ;;;
      run E (Query (lit "sysctl net.ipv4.tcp_available_congestion_control")) false ;;;
      enabled <- check_bbr_enabled ;;
      if enabled then ret true else ret true.

(** Step 1: [False] when the kernel module cannot be loaded. *)
Definition enable_bbr_probe : M bool :=
  run E (Query (lit "uname -r")) false ;;;
  bbr_available <-
    run E (Query (lit "sysctl net.ipv4.tcp_available_congestion_control")) false ;;
  if negb (contains (lit "bbr") (stdout bbr_available)) then
    modprobe_result <- run E (Utility (lit "modprobe tcp_bbr")) false ;;
    ret (returncode modprobe_result =? 0)%Z
  else ret true.

(** Step 2, before the backup: a missing /etc/sysctl.conf is created. *)
Definition enable_bbr_create : M unit :=
  present <- path_exists sysctl_conf ;;
  if negb present then
    run E (Touch sysctl_conf) true ;;;
    write_file sysctl_conf
      [ lit "# /etc/sysctl.conf - Configuration file for setting system variables" ++ [NL];
        lit "# See /etc/sysctl.d/ for additional system variables." ++ [NL; NL] ]
  else ret tt.

(** Steps 3 to 6, after the backup. *)
Definition enable_bbr_mutate : M bool := bbr_block_step ;;; enable_bbr_apply.

(** The body of the [try] block. *)
Definition enable_bbr_body (backup_file : text) : M bool :=
  loaded <- enable_bbr_probe ;;
  if negb loaded then ret false
  else
    enable_bbr_create ;;;
    run E (Cp sysctl_conf backup_file) true ;;;
    enable_bbr_mutate.

Definition enable_bbr : M bool :=
  enabled <- check_bbr_enabled ;;
  if enabled then ret true
  else
    now <- time_time E ;;
    let backup_file := lit "/etc/sysctl.conf.bak." ++ str_int now in
    try_except (enable_bbr_body backup_file)
      (any_exception (restore_if_present backup_file sysctl_conf ;;; ret false)).

(** *** [configure_ip_priority] of debian_init.py *)

Definition gai_conf : text := lit "/etc/gai.conf".

(** Steps 3 to 5. *)
Definition ip_block_step (p : priority) : M unit := rewrite_step gai_conf (ip_writes p).

Definition ip_expected (p : priority) : text :=
  match p with
  | Ipv4 => lit "precedence ::ffff:0:0/96  100"
  | Ipv6 => lit "precedence ::/0          100"
  end.

Definition configure_ip_priority_body (p : priority) (backup_file : text) : M bool :=
  present <- path_exists gai_conf ;;
  (if negb present then
     run E (Touch gai_conf) true ;;;
     write_file gai_conf
       [ lit "# /etc/gai.conf - Configuration for getaddrinfo(3)" ++ [NL];
         lit "# See gai.conf(5) for more information" ++ [NL; NL] ]
   else ret tt) ;;;
  run E (Cp gai_conf backup_file) true ;;;
  ip_block_step p ;;;
  new_content <- read_text E gai_conf ;;
  if contains (ip_expected p) new_content then ret true else ret false.

Definition configure_ip_priority (priority : text) : M bool :=
  let known :=
    if bool_decide (priority = lit "ipv4") then Some Ipv4
    else if bool_decide (priority = lit "ipv6") then Some Ipv6
    else None in
  match known with
  | None => ret false
  | Some p =>
      now <- time_time E ;;
      let backup_file := lit "/etc/gai.conf.bak." ++ str_int now in
      try_except (configure_ip_priority_body p backup_file)
        (any_exception (restore_if_present backup_file gai_conf ;;; ret false))
  end.

End Scripts.
End Script.

(** ** What the statements below observe *)

Module Observe.
Import Text Host Run ManagedBlock Script.

(** The two managed blocks. *)
Inductive managed_block := BbrBlock | IpBlock (p : priority).

Definition block_target (b : managed_block) : text :=
  match b with BbrBlock => sysctl_conf | IpBlock _ => gai_conf end.

Definition block_writes (b : managed_block) : text -> list text :=
  match b with BbrBlock => bbr_writes | IpBlock p => ip_writes p end.

Definition block_rewrite (b : managed_block) (content : text) : text :=
  concat (block_writes b content).

Definition block_step (E : environment) (b : managed_block) : M unit :=
  match b with BbrBlock => bbr_block_step E | IpBlock p => ip_block_step E p end.

Definition block_scan (b : managed_block) : bool -> list text -> list text :=
  match b with BbrBlock => bbr_scan | IpBlock _ => ip_scan end.

Definition block_is_marker (b : managed_block) : text -> bool :=
  match b with BbrBlock => bbr_is_marker | IpBlock _ => ip_is_marker end.

Definition block_lines (b : managed_block) : list text :=
  match b with BbrBlock => bbr_block | IpBlock p => ip_block_lines p end.

(** The directive lines a block owns. *)
Definition directive_lines (b : managed_block) : list text :=
  match b with
  | BbrBlock => [bbr_qdisc_line; bbr_cc_line]
  | IpBlock p => drop 2 (ip_block_lines p)
  end.

(** How many lines of a file satisfy [P]. *)
Definition count_lines (P : text -> bool) (content : text) : nat :=
  length (filter P (split_nl content)).

(** Lines that the scan loop takes for a marker of the block. *)
Definition marker_lines (b : managed_block) (content : text) : nat :=
  count_lines (fun l => block_is_marker b (strip l)) content.

(** Lines that are the line [d], blanks around it aside. *)
Definition occurrences (d content : text) : nat :=
  count_lines (fun l => bool_decide (strip l = d)) content.

(** Lines that set [net.ipv4.tcp_congestion_control]. *)
Definition is_cc_line (l : text) : bool :=
  startswith (lit "net.ipv4.tcp_congestion_control") (strip l).

(** "After [n] applications the file has exactly one marker line and exactly
    one instance of each owned directive line." *)
Definition single_block (b : managed_block) (c : text) (n : nat) : Prop :=
  marker_lines b (Nat.iter n (block_rewrite b) c) = 1%nat
  ∧ forall d, d ∈ directive_lines b ->
              occurrences d (Nat.iter n (block_rewrite b) c) = 1%nat.

(** "Legacy directive lines are removed: one marked block, no second
    tcp_congestion_control line." *)
Definition legacy_removed (c : text) : Prop :=
  marker_lines BbrBlock (bbr_rewrite c) = 1%nat
  ∧ count_lines is_cc_line (bbr_rewrite c) = 1%nat.

(** What [enable_bbr] of install_alpine.py appends to /etc/sysctl.conf. *)
Definition alpine_bbr_lines : text :=
  NL :: lit "net.core.default_qdisc=fq" ++ NL :: lit "net.ipv4.tcp_congestion_control=bbr"
  ++ [NL].

(** Operations that change a file from Python. *)
Definition is_write (o : op) : bool :=
  match o with
  | OpenW _ | OpenA _ | Write _ _ | Overwrite _ _ | OsReplace _ _ => true
  | _ => false
  end.

(** The operations carried out between [h] and the later [h']. *)
Definition ops_since (h h' : host) : list op := drop (length (ops h)) (ops h').

(** The states seen between [h] and the later [h']. *)
Definition seen_since (h h' : host) : list sys := drop (length (seen h)) (seen h').

(** "Restore copies the payload back through the atomic writer": the backup
    is still there afterwards, and the path was replaced by [os.replace] from
    its [.tmp] sibling. *)
Definition restore_copies (E : environment) (backup path : text) (h : host) : Prop :=
  forall h1,
    restore_backup E backup path h = (Return true, h1) ->
    files (cur h1) !! path = files (cur h) !! backup
    ∧ files (cur h1) !! backup = files (cur h) !! backup
    ∧ OsReplace (path ++ lit ".tmp") path ∈ ops_since h h1.

(** Two backups of [path], with a change of the file in between. *)
Definition backup_twice (E : environment) (path new : text)
    : M (option text * option text) :=
  b1 <- create_backup E path ;;
  atomic_write E path new ;;;
  b2 <- create_backup E path ;;
  ret (b1, b2).

(** "Two backups have distinct names and the later one does not overwrite the
    earlier one." *)
Definition backups_never_collide (E : environment) (path new : text) (h : host) : Prop :=
  forall b1 b2 h',
    backup_twice E path new h = (Return (Some b1, Some b2), h') ->
    b1 ≠ b2 ∧ files (cur h') !! b1 = files (cur h) !! path.

(** The port loop of debian_init.py, started at operation [t]: the [j]-th
    draw, and the operations of the first [k] rounds. *)
Definition draw (E : environment) (t j : nat) : Z :=
  (60000 + entropy E (t + 2 * j) `mod` (65535 - 60000 + 1))%Z.

Definition rounds (E : environment) (t k : nat) : list op :=
  concat (map (fun j => [RandInt 60000 65535; ConnectEx (draw E t j)]) (seq 0 k)).

Definition after_rounds (E : environment) (h : host) (k : nat) : host :=
  Host (cur h) (ops h ++ rounds E (tick h) k)
       (seen h ++ replicate (2 * k) (cur h)) (vars h).

(** The host in the middle of round [r]: the port is drawn, not yet probed. *)
Definition drawn (E : environment) (h : host) (r : nat) : host :=
  record (RandInt 60000 65535) (cur h) (after_rounds E h r).

(** The probes of the rounds before round [k] all connect, the probe of
    round [k] is refused. *)
Definition first_free (E : environment) (t k : nat) : Prop :=
  (forall j, (j < k)%nat ->
     status E (t + 2 * j + 1) = 0%Z ∧ errno E (t + 2 * j + 1) = 0%Z)
  ∧ status E (t + 2 * k + 1) = 0%Z
  ∧ errno E (t + 2 * k + 1) ≠ 0%Z.

(** The same for the loop of install_alpine.py, which asks [netstat]. *)
Definition alpine_draw (E : environment) (t j : nat) : Z :=
  (60000 + entropy E (t + 2 * j) `mod` (65500 - 60000 + 1))%Z.

Definition alpine_rounds (E : environment) (t k : nat) : list op :=
  concat (map (fun j => [RandInt 60000 65500; Sh (netstat (alpine_draw E t j))]) (seq 0 k)).

Definition alpine_after_rounds (E : environment) (h : host) (k : nat) : host :=
  Host (cur h) (ops h ++ alpine_rounds E (tick h) k)
       (seen h ++ replicate (2 * k) (cur h)) (vars h).

(** [grep] finds the port in the listing of the rounds before round [k] and
    does not find it in round [k]. *)
Definition alpine_first_free (E : environment) (t k : nat) : Prop :=
  (forall j, (j < k)%nat -> status E (t + 2 * j + 1) = 0%Z)
  ∧ status E (t + 2 * k + 1) ≠ 0%Z.

(** The temporary swap file of [increase_swap]. *)
Definition tmp_swap : text := lit "/swapfile.tmp".

(** The commands of the switch, from the detection on. *)
Definition switch_commands (size existing : text) : list op :=
  [ Sh SwaponShow;
    Sh (AndThen (Fallocate size tmp_swap) (Chmod (lit "600") tmp_swap));
    Sh (Mkswap tmp_swap);
    Sh (Swapoff existing);
    Sh (Swapon tmp_swap);
    Sh (Mv tmp_swap existing) ].

(** "No observer of the run sees the host without an active swap area." *)
Definition swap_never_empty (E : environment) (size : text) (s : sys) : Prop :=
  forall r h',
    increase_swap E size (boot s) = (r, h') ->
    forall s', s' ∈ instants s h' -> swaps s' ≠ [].

(** A host with the swap file /swapfile of 1G in use and in /etc/fstab. *)
Definition one_swap_file : sys :=
  Sys {[ swap_file := Allocated (lit "1G");
         fstab := Regular (lit "/swapfile none swap sw 0 0" ++ [NL]) ]}
      [(swap_file, SwapFile)].

(** From [h] to [h1] the script has gone on without touching the swap
    areas. *)
Definition calm (h h1 : host) : Prop :=
  exists o ss,
    ops h1 = ops h ++ o ∧ seen h1 = seen h ++ ss
    ∧ Forall (fun s' => swaps s' = swaps (cur h)) ss
    ∧ swaps (cur h1) = swaps (cur h).

(** *** Backup, change, check *)

(** The name of a backup made at the epoch second [now]. *)
Definition backup_name (target : text) (now : Z) : text :=
  target ++ lit ".bak." ++ str_int now.

(** The two operations of debian_init.py that the statements on rollback are
    about. *)
Inductive transaction := SshdTx (home : text) (fuel : nat) | BbrTx.

Definition tx_target (tx : transaction) : text :=
  match tx with SshdTx _ _ => sshd_config | BbrTx => sysctl_conf end.

Definition tx_run (E : environment) (tx : transaction) : M bool :=
  match tx with SshdTx home fuel => config_sshd E home fuel | BbrTx => enable_bbr E end.

(** The part of the [try] block that comes after the backup copy. *)
Definition tx_mutate (E : environment) (tx : transaction) (port : Z) : M bool :=
  match tx with
  | SshdTx home _ => config_sshd_mutate E home port
  | BbrTx => enable_bbr_mutate E
  end.

(** Whether an [except] clause of the operation restores the backup for [e]. *)
Definition tx_catches (tx : transaction) (e : exn) : bool :=
  match tx, e with
  | SshdTx _ _, CalledProcessError _ => true
  | SshdTx _ _, _ => false
  | BbrTx, _ => true
  end.

(** What the [except] clause runs after the [mv]. *)
Definition tx_compensation (tx : transaction) : list op :=
  match tx with SshdTx _ _ => [Sh sshd_restart] | BbrTx => [] end.

(** The run from [h0] gets as far as the backup copy: [hp] is the host just
    before the [cp], [hc] the host just after it. *)
Definition tx_backed_up (E : environment) (tx : transaction)
    (h0 : host) (port now : Z) (hp hc : host) : Prop :=
  match tx with
  | SshdTx home fuel =>
      exists h00 r,
        set_var "backup_file" [] h0 = (Return tt, h00)
        ∧ config_sshd_prepare E fuel h00
          = (Return (port, backup_name sshd_config now), hp)
        ∧ run E (Cp sshd_config (backup_name sshd_config now)) true hp = (Return r, hc)
  | BbrTx =>
      exists ha hb hl r,
        check_bbr_enabled E h0 = (Return false, ha)
        ∧ time_time E ha = (Return now, hb)
        ∧ enable_bbr_probe E hb = (Return true, hl)
        ∧ enable_bbr_create E hl = (Return tt, hp)
        ∧ run E (Cp sysctl_conf (backup_name sysctl_conf now)) true hp = (Return r, hc)
  end.

(** No utility that the model leaves to the environment touches [p]. *)
Definition utilities_spare (E : environment) (p : text) : Prop :=
  forall n s, files (effect E n s) !! p = files s !! p.

(** The files that [config_sshd] writes under the home directory are not the
    backup file. *)
Definition tx_paths_apart (tx : transaction) (now : Z) : Prop :=
  match tx with
  | SshdTx home _ =>
      home ++ lit "/.ssh" ≠ backup_name sshd_config now
      ∧ (home ++ lit "/.ssh") ++ lit "/authorized_keys" ≠ backup_name sshd_config now
  | BbrTx => True
  end.

(** A command line that does not write to [p]. *)
Fixpoint spares (c : command) (p : text) : Prop :=
  match c with
  | Cp _ dst => dst ≠ p
  | Mv src dst => src ≠ p ∧ dst ≠ p
  | Touch q | Sed _ _ _ q | Echo _ q | Fallocate _ q => q ≠ p
  | Rm ps => p ∉ ps
  | RmGlob dir => under_glob dir p = false
  | AndThen c1 c2 | Semi c1 c2 => spares c1 p ∧ spares c2 p
  | _ => True
  end.

(** [P] only depends on the variables of the script and on the file [p]. *)
Definition framed (p : text) (P : host -> Prop) : Prop :=
  forall h o s', P h -> files s' !! p = files (cur h) !! p -> P (record o s' h).

(** However [m] ends, it keeps [P]. *)
Definition keeps {A} (P : host -> Prop) (m : M A) : Prop :=
  forall h r h', P h -> m h = (r, h') -> P h'.

(** The backup file [b] is there with the content [f], and the script knows
    its name. *)
Definition backed_up (b : text) (f : file) (named : bool) (h : host) : Prop :=
  files (cur h) !! b = Some f
  ∧ (if named then vars h !! "backup_file" = Some b else True).

(** No [sysctl] query ever reports bbr. *)
Definition bbr_never_reported (E : environment) : Prop :=
  forall n, contains (lit "bbr") (answer E n) = false.

(** "When the check at the end fails, the backup is restored and the
    operation reports failure." *)
Definition failed_validation_rolls_back (E : environment) (s : sys) : Prop :=
  bbr_never_reported E ->
  forall r h',
    enable_bbr E (boot s) = (r, h') ->
    r = Return false ∧ files (cur h') !! sysctl_conf = files s !! sysctl_conf.

(** An environment in which nothing fails and nothing is in the way. *)
Definition quiet : environment :=
  Env (fun _ => 0%Z) (fun _ => []) (fun _ s => s) (fun _ => 0%nat)
      (fun _ => 1700000000%Z) (fun _ => DateTime 2024 1 2 3 4 5)
      (fun _ => 0%Z) (fun _ => 111%Z).

(** The same environment, except that the twentieth operation fails; in the
    run of [config_sshd] on [sshd_host] that is [sshd -t]. *)
Definition sshd_t_fails : environment :=
  Env (fun n => if (n =? 19)%nat then 255%Z else 0%Z) (fun _ => []) (fun _ s => s)
      (fun _ => 0%nat) (fun _ => 1700000000%Z) (fun _ => DateTime 2024 1 2 3 4 5)
      (fun _ => 0%Z) (fun _ => 111%Z).

(** A host with the sshd_config of a fresh installation and a key pair. *)
Definition sshd_host : sys :=
  Sys {[ sshd_config := Regular (lit "#Port 22" ++ NL :: lit "#PasswordAuthentication yes"
                                 ++ [NL]);
         lit "/root/.ssh/id_ed25519" := Regular [];
         lit "/root/.ssh/id_ed25519.pub" := Regular (lit "ssh-ed25519 AAAA") ]} [].

(** A host with one text file. *)
Definition one_file (p body : text) : sys := Sys {[ p := Regular body ]} [].

(** "The second application leaves the bytes as they are and performs no
    write." *)
Definition second_application_silent
    (E : environment) (b : managed_block) (h0 : host) : Prop :=
  forall h1 h2,
    block_step E b h0 = (Return tt, h1) ->
    block_step E b h1 = (Return tt, h2) ->
    files (cur h2) !! block_target b = files (cur h1) !! block_target b
    ∧ filter is_write (ops_since h1 h2) = [].

End Observe.

(** ** More of debian_init.py *)

Module DebianInit.
Import Text Host Run ManagedBlock Script.

(** *** [config_shell] *)

Definition config_marker : text := lit "# === AUTO CONFIGURED BY SCRIPT ===" ++ [NL].

(** A text between double quotes. *)
Definition quoted (s : text) : text := 34 :: s ++ [34].

Definition config_lines : list text :=
  [ lit "export HISTTIMEFORMAT=" ++ quoted (lit "%F %T  ");
    lit "export HISTSIZE=10000";
    lit "export HISTIGNORE=" ++ quoted (lit "pwd:ls:exit");
    lit "export EDITOR=" ++ quoted (lit "nvim");
    lit "alias ll=" ++ quoted (lit "ls -lh --color=auto");
    lit "alias la=" ++ quoted (lit "ls -lha --color=auto");
    lit "alias cls=" ++ quoted (lit "clear");
    lit "alias grep=" ++ quoted (lit "grep --color=auto");
    lit "alias ..=" ++ quoted (lit "cd ..");
    lit "alias df=" ++ quoted (lit "df -h");
    lit "alias du=" ++ quoted (lit "du -h") ].

(** [config_content]; [nvim] tells whether [command -v nvim] found it. *)
Definition config_content (nvim : bool) : text :=
  NL :: config_marker ++ NL :: concat (map (fun l => l ++ [NL]) config_lines)
  ++ (if nvim then lit "alias vim=" ++ quoted (lit "nvim") ++ [NL] else []).

Section Scripts.
Variable E : environment.

(** The body of [for rc_file in config_files]. *)
Definition config_rc_file (rc_file content : text) : M unit :=
  present <- path_exists rc_file ;;
  if negb present then ret tt
  else
    now <- datetime_now E ;;
    let backup_file := rc_file ++ lit ".bak." ++ strftime now in
    run E (Cp rc_file backup_file) true ;;;
    old <- read_text E rc_file ;;
    if contains config_marker old then ret tt
    else
      let tmp_file := rc_file ++ lit ".tmp" in
      open_w E tmp_file ;;;
      old <- read_text E rc_file ;;
      write E tmp_file old ;;;
      write E tmp_file content ;;;
      os_replace E tmp_file rc_file.

Fixpoint config_rc_files (config_files : list text) (content : text) : M unit :=
  match config_files with
  | [] => ret tt
  | rc_file :: rest => config_rc_file rc_file content ;;; config_rc_files rest content
  end.

(** [home_dir] is what [~] expands to, [current_shell] the value of [SHELL]. *)
Definition config_shell (home_dir current_shell : text) : M bool :=
  try_except
    (run E (Utility (lit "timedatectl set-timezone Asia/Shanghai ")) true ;;;
     nvim <- run E (Query (lit "command -v nvim")) false ;;
     let content := config_content (returncode nvim =? 0)%Z in
     if contains (lit "zsh") current_shell then
       config_rc_files [home_dir ++ lit "/.zshrc"] content ;;; ret true
     else if contains (lit "bash") current_shell then
       config_rc_files [home_dir ++ lit "/.bashrc"] content ;;; ret true
     else ret false)
    (any_exception (ret false)).

End Scripts.
End DebianInit.

(** ** The older scripts *)

Module InstallDebian.
Import Text Host Run ManagedBlock Script.

Section Scripts.
Variable E : environment.

(** [check_bbr_enabled] of install_debian.py asks for two settings. *)
Definition check_bbr_enabled : M bool :=
  try_except
    (congestion <- run E (Query (lit "sysctl net.ipv4.tcp_congestion_control")) false ;;
     qdisc <- run E (Query (lit "sysctl net.core.default_qdisc")) false ;;
     ret (contains (lit "bbr") (stdout congestion) && contains (lit "fq") (stdout qdisc)))
    (any_exception (ret false)).

(** The three [f.write] calls on /etc/sysctl.conf, opened with "a". *)
Definition bbr_writes : list text :=
  [ NL :: lit "# BBR Configuration" ++ [NL];
    lit "net.core.default_qdisc=fq" ++ [NL];
    lit "net.ipv4.tcp_congestion_control=bbr" ++ [NL] ].

Definition enable_bbr : M bool :=
  enabled <- check_bbr_enabled ;;
  if enabled then ret true
  else
    now <- time_time E ;;
    let backup_file := lit "/etc/sysctl.conf.bak." ++ str_int now in
    try_except
      (run E (Cp sysctl_conf backup_file) true ;;;
       open_a E sysctl_conf ;;;
       write_all E sysctl_conf bbr_writes ;;;
       result <- run E (Utility (lit "sysctl -p")) false ;;
       if negb (returncode result =? 0)%Z then raise (Exception_ "sysctl -p")
       else
         enabled <- check_bbr_enabled ;;
         if enabled then ret true else ret false)
      (any_exception (run E (Mv backup_file sysctl_conf) false ;;; ret false)).

(** *** [increase_swap] of install_debian.py *)

(** The [except Exception] clause: the command line names [existing_file] and
    [tmp_file], bound or not. *)
Definition swap_cleanup : M bool :=
  existing_file <- get_var "existing_file" ;;
  tmp_file <- get_var "tmp_file" ;;
  match existing_file, tmp_file with
  | Some existing_file, Some tmp_file =>
      run E (Semi (Swapoff existing_file) (Rm [swap_file; tmp_file])) false ;;; ret false
  | _, _ => raise (Exception_ "UnboundLocalError")
  end.

Definition increase_swap (swap_size : text) : M bool :=
  try_except
    (result <- run E SwaponShow false ;;
     if negb (returncode result =? 0)%Z || is_empty (strip (stdout result)) then
       create_swapfile E swap_size ;;; ret true
     else
       let swap_info := split_ws (stdout result) in
       match swap_info !! 1%nat, swap_info !! 0%nat with
       | Some swap_type, Some existing_file =>
           set_var "existing_file" existing_file ;;;
           (if bool_decide (swap_type = lit "partition") then create_swapfile E swap_size
            else if bool_decide (swap_type = lit "file") then
              resize_swap_file E swap_size existing_file
            else ret tt) ;;;
           check_result <- run E (Query (lit "swapon --show=" ++ existing_file
                                         ++ lit " --noheadings")) false ;;
           if negb (returncode check_result =? 0)%Z
           then raise (Exception_ "swap check")
           else ret true
       | _, _ => raise (Exception_ "IndexError")
       end)
    (any_exception swap_cleanup).

End Scripts.
End InstallDebian.

Module InstallAlpine.
Import Text Host Run ManagedBlock Script Observe.

Section Scripts.
Variable E : environment.

(** [enable_bbr] of install_alpine.py: one [f.write] on /etc/sysctl.conf,
    opened with "a", then [sysctl -p]. *)
Definition enable_bbr : M bool :=
  try_except
    (open_a E sysctl_conf ;;;
     write E sysctl_conf alpine_bbr_lines ;;;
     run E (Utility (lit "sysctl -p")) true ;;;
     ret true)
    (any_exception (ret false)).

End Scripts.
End InstallAlpine.

(** ** What the further statements observe *)

Module Survey.
Import Text Host Run ManagedBlock Script Observe.

(** Lines that the scan loop of [configure_ip_priority] may drop: markers,
    and inside a block the precedence, label, comment and blank lines. *)
Definition ip_droppable (raw : text) : bool :=
  ip_is_marker (strip raw)
  || startswith (lit "precedence") (strip raw) || startswith (lit "label") (strip raw)
  || is_empty (strip raw) || startswith (lit "#") (strip raw).

(** Lines that the scan loop of [enable_bbr] may drop: markers, and inside a
    block the two directives and blank lines. *)
Definition bbr_droppable (line : text) : bool :=
  bbr_is_marker line || bbr_is_directive line || is_empty line.

(** What the [sed] commands of a list make of one line of the file. *)
Fixpoint sed_lines (cmds : list command) (l : text) : text :=
  match cmds with
  | [] => l
  | Sed pat dotstar repl _ :: rest => sed_lines rest (sed_line pat dotstar repl l)
  | _ :: rest => sed_lines rest l
  end.

(** The file that [config_shell] edits for a login shell: ~/.zshrc for a
    zsh, ~/.bashrc for a bash (other shells are turned away). *)
Definition rc_file (home_dir current_shell : text) : text :=
  if contains (lit "zsh") current_shell then home_dir ++ lit "/.zshrc"
  else home_dir ++ lit "/.bashrc".

(** An rc file that [config_shell] has nothing to add to: it is missing, or
    it is a text that has the marker in it. *)
Definition configured (f : option file) : Prop :=
  match f with
  | None => True
  | Some (Regular t) => contains DebianInit.config_marker (universal_newlines t) = true
  | Some _ => False
  end.

(** A [sed] command on the file [p] whose replacement is one line. *)
Definition sed_on (p : text) (c : command) : Prop :=
  match c with
  | Sed _ _ repl q => q = p ∧ NL ∉ repl
  | _ => False
  end.

(** [m] ends, with a value or with an exception. *)
Definition halts {A} (m : M A) : Prop := forall h, (m h).1 ≠ Spin.

(** [m] returns a value, whatever the host and the environment do. *)
Definition settles {A} (m : M A) : Prop := forall h, exists a h', m h = (Return a, h').

(** A host with a swap partition and an /etc/fstab. *)
Definition partition_host : sys :=
  Sys {[ fstab := Regular (lit "/dev/sda2 none swap sw 0 0" ++ [NL]) ]}
      [(lit "/dev/sda2", Partition)].

(** An environment in which nothing fails and every command prints [out]. *)
Definition prints (out : text) : environment :=
  Env (fun _ => 0%Z) (fun _ => out) (fun _ s => s) (fun _ => 0%nat)
      (fun _ => 1700000000%Z) (fun _ => DateTime 2024 1 2 3 4 5)
      (fun _ => 0%Z) (fun _ => 111%Z).

(** An environment in which nothing fails but the operation number [n]. *)
Definition fails_at (n : nat) : environment :=
  Env (fun i => if (i =? n)%nat then 1%Z else 0%Z) (fun _ => []) (fun _ s => s)
      (fun _ => 0%nat) (fun _ => 1700000000%Z) (fun _ => DateTime 2024 1 2 3 4 5)
      (fun _ => 0%Z) (fun _ => 111%Z).

End Survey.

(** * Properties *)

Import Text Host Run ManagedBlock Script Observe.

(** ** Text *)


Lemma lstrip_idem s : lstrip (lstrip s) = lstrip s.
Proof.
  induction s as [|c s IH]; simpl; [done|].
  destruct (isspace c) eqn:Hc; [done|]. simpl. by rewrite Hc.
Qed.

Lemma rstrip_idem s : rstrip (rstrip s) = rstrip s.
Proof.
  induction s as [|c s IH]; simpl; [done|].
  destruct (rstrip s) as [|d r] eqn:Hr.
  - destruct (isspace c) eqn:Hc; simpl; [done|]. by rewrite Hc.
  - simpl in *. by rewrite IH.
Qed.

(** Stripping on the right never makes a text start with a blank. *)
Lemma lstrip_rstrip_fixed s : lstrip s = s -> lstrip (rstrip s) = rstrip s.
Proof.
  destruct s as [|c s]; simpl; [done|].
  destruct (isspace c) eqn:Hc.
  - intros H. exfalso.
    assert (Hlen : forall t : text, (length (lstrip t) <= length t)%nat).
    { clear. induction t as [|a t IH]; simpl; [lia|]. destruct (isspace a); simpl; lia. }
    specialize (Hlen s). rewrite H in Hlen. simpl in Hlen. lia.
  - intros _. destruct (rstrip s); simpl; by rewrite Hc.
Qed.

Lemma strip_idem s : strip (strip s) = strip s.
Proof.
  unfold strip.
  rewrite (lstrip_rstrip_fixed (lstrip s)) by apply lstrip_idem.
  apply rstrip_idem.
Qed.

Lemma lstrip_elem c s : c ∈ lstrip s -> c ∈ s.
Proof.
  induction s as [|a s IH]; simpl; [done|].
  destruct (isspace a); [|done]. intros H. right. by apply IH.
Qed.

Lemma rstrip_elem c s : c ∈ rstrip s -> c ∈ s.
Proof.
  induction s as [|a s IH]; simpl; [done|].
  destruct (rstrip s) as [|d r].
  - destruct (isspace a); [by inversion 1|].
    intros H%list_elem_of_singleton. subst. by left.
  - intros [->|H]%elem_of_cons; [by left|]. right. by apply IH.
Qed.

Lemma strip_elem c s : c ∈ strip s -> c ∈ s.
Proof. intros H. by apply lstrip_elem, rstrip_elem. Qed.

Lemma split_nl_nonempty s : split_nl s ≠ [].
Proof.
  destruct s as [|c s]; simpl; [done|].
  destruct (c =? NL); [done|]. by destruct (split_nl s).
Qed.

Lemma split_nl_app a b : split_nl (a ++ NL :: b) = split_nl a ++ split_nl b.
Proof.
  induction a as [|c a IH]; simpl; [done|].
  destruct (c =? NL); [by rewrite IH|].
  rewrite IH. pose proof (split_nl_nonempty a).
  by destruct (split_nl a).
Qed.

Lemma split_nl_line l : NL ∉ l -> split_nl l = [l].
Proof.
  induction l as [|c l IH]; simpl; [done|].
  intros H. apply not_elem_of_cons in H as [Hc Hl].
  destruct (N.eqb_spec c NL); [congruence|]. by rewrite IH.
Qed.

Lemma split_nl_lines s l : l ∈ split_nl s -> NL ∉ l.
Proof.
  revert l. induction s as [|c s IH]; simpl; intros l.
  - intros ->%list_elem_of_singleton. by inversion 1.
  - destruct (N.eqb_spec c NL) as [->|Hc].
    + intros [->|H]%elem_of_cons; [by inversion 1|]. by apply IH.
    + pose proof (split_nl_nonempty s).
      destruct (split_nl s) as [|l0 ls]; [done|].
      intros [->|H']%elem_of_cons.
      * apply not_elem_of_cons. split; [done|]. apply IH. by left.
      * apply IH. by right.
Qed.

Lemma split_nl_chars s l c : l ∈ split_nl s -> c ∈ l -> c ∈ s.
Proof.
  revert l. induction s as [|a s IH]; simpl; intros l.
  - intros ->%list_elem_of_singleton. by inversion 1.
  - destruct (a =? NL).
    + intros [->|H]%elem_of_cons; [by inversion 1|]. intros Hc. right. by eapply IH.
    + pose proof (split_nl_nonempty s).
      destruct (split_nl s) as [|l0 ls]; [done|].
      intros [->|H']%elem_of_cons.
      * intros [->|Hc]%elem_of_cons; [by left|]. right. eapply IH; [by left|done].
      * intros Hc. right. eapply IH; [by right|done].
Qed.

Lemma split_join ls :
  ls ≠ [] -> Forall (fun l => NL ∉ l) ls -> split_nl (join_nl ls) = ls.
Proof.
  induction ls as [|l ls IH]; [done|]. intros _ H.
  apply Forall_cons in H as [Hl Hls].
  destruct ls as [|l' ls]; [by apply split_nl_line|].
  change (join_nl (l :: l' :: ls)) with (l ++ NL :: join_nl (l' :: ls)).
  rewrite split_nl_app, split_nl_line, IH by done. done.
Qed.

Lemma join_nl_chars ls c : c ∈ join_nl ls -> c = NL ∨ ∃ l, l ∈ ls ∧ c ∈ l.
Proof.
  induction ls as [|l ls IH]; [by inversion 1|].
  destruct ls as [|l' ls].
  - simpl. intros H. right. exists l. split; [by left|done].
  - change (join_nl (l :: l' :: ls)) with (l ++ NL :: join_nl (l' :: ls)).
    intros [H|[->|H]%elem_of_cons]%elem_of_app.
    + right. exists l. split; [by left|done].
    + by left.
    + destruct (IH H) as [->|(l0 & Hl0 & Hc)]; [by left|].
      right. exists l0. split; [by right|done].
Qed.

Lemma universal_newlines_id s : CR ∉ s -> universal_newlines s = s.
Proof.
  induction s as [|c s IH]; [done|].
  intros [Hc Hs]%not_elem_of_cons.
  change (universal_newlines (c :: s))
    with (if c =? CR then
            match s with
            | d :: s'' => if d =? NL then NL :: universal_newlines s''
                          else NL :: universal_newlines s
            | [] => [NL]
            end
          else c :: universal_newlines s).
  destruct (N.eqb_spec c CR); [congruence|]. by rewrite IH.
Qed.

Lemma universal_newlines_no_cr s : CR ∉ universal_newlines s.
Proof.
  assert (H : forall n (t : text), (length t < n)%nat -> CR ∉ universal_newlines t).
  { induction n as [|n IH]; [lia|]. intros [|c t] Hlen; [by inversion 1|].
    simpl in Hlen. simpl.
    destruct (N.eqb_spec c CR) as [->|Hc].
    - destruct t as [|d t]; [by intros [?|H]%elem_of_cons; [|inversion H]|].
      simpl in Hlen.
      destruct (d =? NL); apply not_elem_of_cons; (split; [done|]);
        apply IH; simpl; lia.
    - apply not_elem_of_cons. split; [done|]. apply IH. lia. }
  by apply (H (S (length s))); lia.
Qed.


(** ** The managed-block rewrite, for any scan loop that keeps
    unmarked lines and drops its own block *)

Section Rewriter.

Variable scan : bool -> list text -> list text.
Variable is_marker : text -> bool.
Variable keep : text -> text.
Variable block : list text.

Hypothesis scan_plain : forall l rest,
  is_marker (strip l) = false -> scan false (l :: rest) = keep l :: scan false rest.
Hypothesis scan_nil : scan false [] = [].
Hypothesis scan_out : forall s ls o,
  o ∈ scan s ls ->
  is_marker (strip o) = false ∧ keep o = o ∧ ∃ l, l ∈ ls ∧ ∀ c, c ∈ o -> c ∈ l.
Hypothesis keep_nil : keep [] = [].
Hypothesis marker_nil : is_marker (strip []) = false.
Hypothesis scan_block : scan false (block ++ [[]]) = [].
Hypothesis block_nonempty : block ≠ [].
Hypothesis block_lines : Forall (fun l => (NL ∉ l) ∧ (CR ∉ l)) block.

Local Abbreviation rewrite_with := (ManagedBlock.rewrite_with scan block).
Local Abbreviation kept := (ManagedBlock.kept scan).

Lemma rewrite_with_eq c :
  rewrite_with c = join_nl (scan false (split_nl c)) ++ NL :: (join_nl block ++ NL :: []).
Proof. reflexivity. Qed.

Lemma join_kept c : join_nl (kept c) = join_nl (scan false (split_nl c)).
Proof. unfold kept. by destruct (scan false (split_nl c)). Qed.

Lemma scan_lines_nl c o : o ∈ scan false (split_nl c) -> NL ∉ o.
Proof.
  intros (_ & _ & l & Hl & Hsub)%scan_out Hnl.
  by apply (split_nl_lines _ _ Hl), Hsub.
Qed.

Lemma kept_plain c :
  Forall (fun o => is_marker (strip o) = false ∧ keep o = o ∧ NL ∉ o) (kept c).
Proof.
  unfold kept. destruct (scan false (split_nl c)) as [|o ls] eqn:Hs.
  - repeat constructor; [done..|by inversion 1].
  - rewrite <- Hs. apply Forall_forall. intros x Hx.
    destruct (scan_out _ _ _ Hx) as (? & ? & _). split_and!; [done..|].
    by eapply scan_lines_nl.
Qed.

Lemma scan_plain_app ls rest :
  Forall (fun o => is_marker (strip o) = false ∧ keep o = o ∧ NL ∉ o) ls ->
  scan false (ls ++ rest) = ls ++ scan false rest.
Proof.
  induction 1 as [|o ls (Hm & Hk & _) _ IH]; [done|].
  simpl. rewrite scan_plain by done. by rewrite Hk, IH.
Qed.

Lemma split_block : split_nl (join_nl block ++ NL :: []) = block ++ [[]].
Proof.
  rewrite split_nl_app, split_join; [done|done|].
  eapply Forall_impl; [exact block_lines|]. by intros ? [? _].
Qed.

(** The lines of the file after a rewrite: the kept lines, the block, and
    the empty piece behind the last newline. *)
Lemma split_rewrite c : split_nl (rewrite_with c) = kept c ++ block ++ [[]].
Proof.
  rewrite rewrite_with_eq, <- join_kept, split_nl_app, split_block.
  rewrite split_join; [done| |].
  - unfold kept. by destruct (scan false (split_nl c)).
  - eapply Forall_impl; [apply kept_plain|]. by intros ? (_ & _ & ?).
Qed.

Lemma scan_rewrite c : scan false (split_nl (rewrite_with c)) = kept c.
Proof.
  rewrite split_rewrite, scan_plain_app by apply kept_plain.
  by rewrite scan_block, app_nil_r.
Qed.

Lemma rewrite_with_idem c : rewrite_with (rewrite_with c) = rewrite_with c.
Proof. by rewrite (rewrite_with_eq (rewrite_with c)), scan_rewrite, join_kept. Qed.

Lemma rewrite_with_iter c n : (1 <= n)%nat -> Nat.iter n rewrite_with c = rewrite_with c.
Proof.
  induction n as [|[|n] IH]; [lia|done|]. intros _.
  change (Nat.iter (S (S n)) rewrite_with c)
    with (rewrite_with (Nat.iter (S n) rewrite_with c)).
  rewrite IH by lia. apply rewrite_with_idem.
Qed.

Lemma rewrite_with_no_cr c : CR ∉ c -> CR ∉ rewrite_with c.
Proof.
  intros Hc. rewrite rewrite_with_eq.
  intros [H|[?|[H|H]%elem_of_app]%elem_of_cons]%elem_of_app; [| done | |].
  - apply join_nl_chars in H as [?|(o & Ho & Hin)]; [done|].
    apply scan_out in Ho as (_ & _ & l & Hl & Hsub).
    apply Hc. eapply split_nl_chars; [exact Hl|]. by apply Hsub.
  - apply join_nl_chars in H as [?|(o & Ho & Hin)]; [done|].
    by apply (proj1 (Forall_forall _ _) block_lines o Ho).
  - by apply list_elem_of_singleton in H.
Qed.

(** Counting the lines of the rewritten file that satisfy [P]. *)
Lemma count_rewrite (P : text -> bool) c :
  length (filter P (split_nl (rewrite_with c)))
  = (length (filter P (kept c)) + length (filter P block) + (if P [] then 1 else 0))%nat.
Proof.
  rewrite split_rewrite, !filter_app, !length_app.
  rewrite (filter_cons P []), filter_nil. destruct (decide (P [])) as [H|H].
  - apply Is_true_true in H. rewrite H. simpl. lia.
  - apply Is_true_false in H. rewrite H. simpl. lia.
Qed.

End Rewriter.

(** ** The two blocks of debian_init.py *)


Lemma bbr_rewrite_with c : bbr_rewrite c = rewrite_with bbr_scan bbr_block c.
Proof. reflexivity. Qed.

Lemma bbr_scan_cons s raw rest :
  bbr_scan s (raw :: rest) =
    if bbr_is_marker (strip raw) then bbr_scan true rest
    else if s && bbr_is_directive (strip raw) then bbr_scan s rest
    else if s && (is_empty (strip raw) || startswith (lit "#") (strip raw)) then
      (if is_empty (strip raw) then [] else [strip raw]) ++ bbr_scan false rest
    else strip raw :: bbr_scan false rest.
Proof. reflexivity. Qed.

Lemma ip_scan_cons s raw rest :
  ip_scan s (raw :: rest) =
    if ip_is_marker (strip raw) then ip_scan true rest
    else if s && (startswith (lit "precedence") (strip raw)
                  || startswith (lit "label") (strip raw)
                  || is_empty (strip raw) || startswith (lit "#") (strip raw)) then
      if s && negb (is_empty (strip raw)) && negb (startswith (lit "#") (strip raw))
         && negb (startswith (lit "precedence") (strip raw))
         && negb (startswith (lit "label") (strip raw))
      then raw :: ip_scan false rest
      else ip_scan s rest
    else raw :: ip_scan false rest.
Proof. reflexivity. Qed.

Lemma bbr_scan_plain l rest :
  bbr_is_marker (strip l) = false ->
  bbr_scan false (l :: rest) = strip l :: bbr_scan false rest.
Proof. intros H. by rewrite bbr_scan_cons, H. Qed.

Lemma bbr_scan_out s ls o :
  o ∈ bbr_scan s ls ->
  bbr_is_marker (strip o) = false ∧ strip o = o ∧ ∃ l, l ∈ ls ∧ ∀ c, c ∈ o -> c ∈ l.
Proof.
  revert s. induction ls as [|raw rest IH]; intros s; [by inversion 1|].
  rewrite bbr_scan_cons.
  assert (Hrec : forall s', o ∈ bbr_scan s' rest ->
    bbr_is_marker (strip o) = false ∧ strip o = o
    ∧ ∃ l, l ∈ raw :: rest ∧ ∀ c, c ∈ o -> c ∈ l).
  { intros s' H. destruct (IH _ H) as (? & ? & l & ? & ?).
    split_and!; [done..|]. exists l. split; [by right|done]. }
  assert (Hhere : bbr_is_marker (strip raw) = false ->
    bbr_is_marker (strip (strip raw)) = false ∧ strip (strip raw) = strip raw
    ∧ ∃ l, l ∈ raw :: rest ∧ ∀ c, c ∈ strip raw -> c ∈ l).
  { intros H. rewrite strip_idem. split_and!; [done..|].
    exists raw. split; [by left|]. intros c. apply strip_elem. }
  destruct (bbr_is_marker (strip raw)) eqn:Hm; [by apply Hrec|].
  destruct (s && bbr_is_directive (strip raw)); [by apply Hrec|].
  destruct (s && (is_empty (strip raw) || startswith (lit "#") (strip raw))).
  - destruct (is_empty (strip raw)); simpl; [by apply Hrec|].
    intros [->|H]%elem_of_cons; [by apply Hhere|by eapply Hrec].
  - intros [->|H]%elem_of_cons; [by apply Hhere|by eapply Hrec].
Qed.

Lemma bbr_block_lines : Forall (fun l => (NL ∉ l) ∧ (CR ∉ l)) bbr_block.
Proof. repeat constructor; by apply (bool_decide_unpack _). Qed.

Lemma bbr_idem c : bbr_rewrite (bbr_rewrite c) = bbr_rewrite c.
Proof.
  rewrite !bbr_rewrite_with.
  apply (rewrite_with_idem bbr_scan bbr_is_marker strip);
    [apply bbr_scan_plain|apply bbr_scan_out|done..|apply bbr_block_lines].
Qed.

Lemma ip_rewrite_with p c : ip_rewrite p c = rewrite_with ip_scan (ip_block_lines p) c.
Proof. reflexivity. Qed.

Lemma ip_scan_plain l rest :
  ip_is_marker (strip l) = false -> ip_scan false (l :: rest) = l :: ip_scan false rest.
Proof. intros H. by rewrite ip_scan_cons, H. Qed.

Lemma ip_scan_out s ls o :
  o ∈ ip_scan s ls ->
  ip_is_marker (strip o) = false ∧ o = o ∧ ∃ l, l ∈ ls ∧ ∀ c, c ∈ o -> c ∈ l.
Proof.
  revert s. induction ls as [|raw rest IH]; intros s; [by inversion 1|].
  rewrite ip_scan_cons.
  assert (Hrec : forall s', o ∈ ip_scan s' rest ->
    ip_is_marker (strip o) = false ∧ o = o
    ∧ ∃ l, l ∈ raw :: rest ∧ ∀ c, c ∈ o -> c ∈ l).
  { intros s' H. destruct (IH _ H) as (? & ? & l & ? & ?).
    split_and!; [done..|]. exists l. split; [by right|done]. }
  destruct (ip_is_marker (strip raw)) eqn:Hm; [by apply Hrec|].
  assert (Hhere : o = raw ->
    ip_is_marker (strip o) = false ∧ o = o
    ∧ ∃ l, l ∈ raw :: rest ∧ ∀ c, c ∈ o -> c ∈ l).
  { intros ->. split_and!; [done..|]. exists raw. split; [by left|done]. }
  match goal with |- context [if ?b then _ else raw :: _] => destruct b end.
  - match goal with |- context [if ?b then _ else _] => destruct b end.
    + intros [?|H]%elem_of_cons; [by apply Hhere|by eapply Hrec].
    + by apply Hrec.
  - intros [?|H]%elem_of_cons; [by apply Hhere|by eapply Hrec].
Qed.

Lemma ip_block_facts p :
  ip_scan false (ip_block_lines p ++ [[]]) = [] ∧ ip_block_lines p ≠ []
  ∧ Forall (fun l => (NL ∉ l) ∧ (CR ∉ l)) (ip_block_lines p).
Proof.
  destruct p; (split_and!; [done|done|]);
    repeat constructor; by apply (bool_decide_unpack _).
Qed.

Lemma ip_idem p c : ip_rewrite p (ip_rewrite p c) = ip_rewrite p c.
Proof.
  rewrite !ip_rewrite_with. destruct (ip_block_facts p) as (? & ? & ?).
  by apply (rewrite_with_idem ip_scan ip_is_marker (fun l => l));
    [apply ip_scan_plain|apply ip_scan_out|..].
Qed.


(** ** Running the primitives *)

Section RunFacts.

Variable E : environment.

Lemma tick_record o s h : tick (record o s h) = S (tick h).
Proof. unfold tick, record. simpl. rewrite length_app. simpl. lia. Qed.

Lemma append_to_insert p d t f sw :
  append_to p d (Sys (<[p := Regular t]> f) sw) = Sys (<[p := Regular (t ++ d)]> f) sw.
Proof.
  unfold append_to. simpl. rewrite lookup_insert_eq. by rewrite insert_insert_eq.
Qed.

(** A sequence of [f.write] calls that all go through. *)
Lemma write_all_ok p chunks : forall h t f,
  files (cur h) = <[p := Regular t]> f ->
  (forall i, (tick h <= i < tick h + length chunks)%nat -> status E i = 0%Z) ->
  exists h',
    write_all E p chunks h = (Return tt, h')
    ∧ cur h' = Sys (<[p := Regular (t ++ concat chunks)]> f) (swaps (cur h))
    ∧ ops h' = ops h ++ map (Write p) chunks
    ∧ vars h' = vars h.
Proof.
  induction chunks as [|d chunks IH]; intros h t f Hf Hst.
  - exists h. simpl. rewrite app_nil_r, app_nil_r. split_and!; try done.
    destruct h as [[fs sw] ? ? ?]. simpl in *. by subst.
  - simpl. unfold bind at 1. unfold write at 1.
    rewrite (Hst (tick h)) by (simpl; lia). simpl.
    set (h1 := record (Write p d) (append_to p d (cur h)) h).
    destruct (IH h1 (t ++ d) f) as (h' & Hrun & Hcur & Hops & Hvars).
    + subst h1. simpl. destruct (cur h) as [fs sw]. simpl in Hf. subst fs.
      by rewrite append_to_insert.
    + intros i Hi. apply Hst. subst h1. rewrite tick_record in Hi. simpl. lia.
    + exists h'. split_and!; [done| | |done].
      * rewrite Hcur. subst h1. simpl. destruct (cur h) as [fs sw]. simpl in Hf. subst fs.
        rewrite append_to_insert. simpl. by rewrite <- app_assoc.
      * rewrite Hops. subst h1. simpl. by rewrite <- app_assoc.
Qed.

(** When the calls return, the environment let every one of them through. *)
Lemma write_all_returned p chunks : forall h h',
  write_all E p chunks h = (Return tt, h') ->
  forall i, (tick h <= i < tick h + length chunks)%nat -> status E i = 0%Z.
Proof.
  induction chunks as [|d chunks IH]; intros h h' Hrun i Hi; [simpl in Hi; lia|].
  simpl in Hrun. unfold bind at 1 in Hrun. unfold write at 1 in Hrun.
  destruct (status E (tick h) =? 0)%Z eqn:Hs; simpl in Hrun; [|done].
  destruct (decide (i = tick h)) as [->|Hne]; [by apply Z.eqb_eq|].
  eapply IH; [exact Hrun|]. rewrite tick_record. simpl in Hi. lia.
Qed.

Lemma rewrite_step_returned p w h h' :
  rewrite_step E p w h = (Return tt, h') ->
  exists t,
    files (cur h) !! p = Some (Regular t)
    ∧ files (cur h') !! p = Some (Regular (concat (w (universal_newlines t))))
    ∧ ops h' = ops h ++ ReadText p :: OpenW p :: map (Write p) (w (universal_newlines t)).
Proof.
  unfold rewrite_step, bind at 1, read_text.
  destruct (status E (tick h) =? 0)%Z eqn:Hs0; simpl; [|done].
  destruct (files (cur h) !! p) as [[t| |]|] eqn:Hp; try done.
  unfold write_file, bind at 1, open_w.
  set (h1 := record (ReadText p) (cur h) h).
  destruct (status E (tick h1) =? 0)%Z eqn:Hs1; simpl; [|done].
  set (h2 := record (OpenW p) _ h1). intros Hrun.
  destruct (write_all_ok p (w (universal_newlines t)) h2 [] (files (cur h)))
    as (h'' & Hrun' & Hcur & Hops & _).
  { done. }
  { eapply write_all_returned. exact Hrun. }
  rewrite Hrun in Hrun'. injection Hrun' as <-.
  exists t. split_and!; [done| |].
  - rewrite Hcur. simpl. by rewrite lookup_insert_eq.
  - rewrite Hops. subst h2 h1. simpl. by rewrite <- !app_assoc.
Qed.

Lemma rewrite_step_ok p w h t :
  files (cur h) !! p = Some (Regular t) ->
  (forall i, (tick h <= i < tick h + 2 + length (w (universal_newlines t)))%nat ->
             status E i = 0%Z) ->
  exists h', rewrite_step E p w h = (Return tt, h').
Proof.
  intros Hp Hst.
  unfold rewrite_step, bind at 1, read_text.
  rewrite (Hst (tick h)) by lia. simpl. rewrite Hp.
  unfold write_file, bind at 1, open_w.
  set (h1 := record (ReadText p) (cur h) h).
  assert (Ht1 : tick h1 = S (tick h)).
  { apply tick_record. }
  rewrite (Hst (tick h1)) by lia. simpl.
  set (h2 := record (OpenW p) _ h1).
  assert (Ht2 : tick h2 = S (S (tick h))).
  { subst h2. by rewrite tick_record, Ht1. }
  destruct (write_all_ok p (w (universal_newlines t)) h2 [] (files (cur h)))
    as (h'' & Hrun' & _); [done| |by exists h''].
  intros i Hi. apply Hst. lia.
Qed.

End RunFacts.

(** ** Applying a managed block twice *)


Lemma block_rewrite_idem b c : block_rewrite b (block_rewrite b c) = block_rewrite b c.
Proof. destruct b; [apply bbr_idem|apply ip_idem]. Qed.

Lemma block_rewrite_no_cr b c : CR ∉ c -> CR ∉ block_rewrite b c.
Proof.
  intros Hc. destruct b as [|p].
  - change (CR ∉ rewrite_with bbr_scan bbr_block c).
    by apply (rewrite_with_no_cr bbr_scan bbr_is_marker strip);
      [apply bbr_scan_out|apply bbr_block_lines|].
  - change (CR ∉ rewrite_with ip_scan (ip_block_lines p) c).
    destruct (ip_block_facts p) as (? & ? & ?).
    by apply (rewrite_with_no_cr ip_scan ip_is_marker (fun l => l));
      [apply ip_scan_out|..].
Qed.

Lemma block_step_unfold E b :
  block_step E b = rewrite_step E (block_target b) (block_writes b).
Proof. by destruct b. Qed.

Lemma block_writes_length b c : length (block_writes b c) = 3%nat.
Proof. by destruct b. Qed.

Lemma ops_since_app h h' l : ops h' = ops h ++ l -> ops_since h h' = l.
Proof. unfold ops_since. intros ->. by rewrite drop_app_length. Qed.

(** C2 (as amended): a second application of the same managed block leaves
    the file with the bytes the first one gave it, and it does so by opening
    the file for writing again and writing the three pieces once more; the
    code has no test that would skip the write. *)
Theorem block_step_twice E b h0 h1 :
  block_step E b h0 = (Return tt, h1) ->
  (forall i, (tick h1 <= i < tick h1 + 5)%nat -> status E i = 0%Z) ->
  exists h2 body,
    block_step E b h1 = (Return tt, h2)
    ∧ files (cur h1) !! block_target b = Some (Regular body)
    ∧ files (cur h2) !! block_target b = Some (Regular body)
    ∧ block_rewrite b body = body
    ∧ ops_since h1 h2
      = ReadText (block_target b) :: OpenW (block_target b)
        :: map (Write (block_target b)) (block_writes b body).
Proof.
  rewrite block_step_unfold. intros H1 Hst.
  destruct (rewrite_step_returned E _ _ _ _ H1) as (t & _ & Hbody & _).
  set (c := universal_newlines t) in *.
  assert (Hcr : CR ∉ block_rewrite b c)
    by apply block_rewrite_no_cr, universal_newlines_no_cr.
  assert (Hun : universal_newlines (block_rewrite b c) = block_rewrite b c)
    by by apply universal_newlines_id.
  destruct (rewrite_step_ok E (block_target b) (block_writes b) h1 _ Hbody) as [h2 H2].
  { intros i Hi. apply Hst. rewrite block_writes_length in Hi. lia. }
  exists h2, (block_rewrite b c).
  destruct (rewrite_step_returned E _ _ _ _ H2) as (t' & Ht' & Hbody' & Hops).
  rewrite Hbody in Ht'. injection Ht' as <-.
  fold (block_rewrite b c) in Hbody', Hops. rewrite Hun in Hbody', Hops.
  fold (block_rewrite b (block_rewrite b c)) in Hbody'.
  rewrite block_rewrite_idem in Hbody'.
  split_and!; [done..|apply block_rewrite_idem|by apply ops_since_app].
Qed.

Lemma block_step_twice_witness :
  exists h2 body,
    block_step quiet BbrBlock (block_step quiet BbrBlock (boot (one_file sysctl_conf []))).2
      = (Return tt, h2)
    ∧ files (cur (block_step quiet BbrBlock (boot (one_file sysctl_conf []))).2)
        !! sysctl_conf = Some (Regular body)
    ∧ files (cur h2) !! sysctl_conf = Some (Regular body)
    ∧ block_rewrite BbrBlock body = body
    ∧ ops_since (block_step quiet BbrBlock (boot (one_file sysctl_conf []))).2 h2
      = ReadText sysctl_conf :: OpenW sysctl_conf
        :: map (Write sysctl_conf) (bbr_writes body).
Proof.
  apply (block_step_twice quiet BbrBlock (boot (one_file sysctl_conf []))).
  - vm_compute. reflexivity.
  - intros i _. reflexivity.
Defined.

(** C2 (as stated) fails on an empty /etc/sysctl.conf: the second application
    keeps the bytes but opens the file and writes to it again. *)
Lemma second_application_writes :
  ¬ second_application_silent quiet BbrBlock (boot (one_file sysctl_conf [])).
Proof.
  intros H.
  set (h1 := (block_step quiet BbrBlock (boot (one_file sysctl_conf []))).2).
  set (h2 := (block_step quiet BbrBlock h1).2).
  assert (H1 : block_step quiet BbrBlock (boot (one_file sysctl_conf [])) = (Return tt, h1))
    by (vm_compute; reflexivity).
  assert (H2 : block_step quiet BbrBlock h1 = (Return tt, h2))
    by (vm_compute; reflexivity).
  destruct (H h1 h2 H1 H2) as [_ Hw].
  vm_compute in Hw. discriminate Hw.
Qed.


(** ** One block, however often the rewrite runs *)


Lemma count_none (P : text -> bool) ls :
  Forall (fun l => P l = false) ls -> length (filter P ls) = 0%nat.
Proof.
  induction 1 as [|l ls Hl _ IH]; [done|].
  rewrite filter_cons_False; [exact IH|]. rewrite Hl. by intros [].
Qed.

Lemma block_rewrite_with b c :
  block_rewrite b c = rewrite_with (block_scan b) (block_lines b) c.
Proof. by destruct b. Qed.

(** The facts the generic lemmas ask of a scan loop, for the two blocks. *)
Ltac scan_facts :=
  first [ exact bbr_scan_plain | exact bbr_scan_out | exact bbr_block_lines
        | exact ip_scan_plain | exact ip_scan_out | done ].

Lemma block_count b (P : text -> bool) c :
  length (filter P (split_nl (block_rewrite b c)))
  = (length (filter P (kept (block_scan b) c)) + length (filter P (block_lines b))
     + (if P [] then 1 else 0))%nat.
Proof.
  rewrite block_rewrite_with. destruct b as [|p].
  - apply (count_rewrite bbr_scan bbr_is_marker strip); scan_facts.
  - destruct (ip_block_facts p) as (? & ? & ?).
    apply (count_rewrite ip_scan ip_is_marker (fun l => l)); scan_facts.
Qed.

Lemma block_kept_plain b c :
  Forall (fun o => block_is_marker b (strip o) = false) (kept (block_scan b) c).
Proof.
  destruct b as [|p].
  - eapply Forall_impl;
      [apply (kept_plain bbr_scan bbr_is_marker strip); scan_facts|].
    by intros ? (? & _).
  - eapply Forall_impl;
      [apply (kept_plain ip_scan ip_is_marker (fun l => l)); scan_facts|].
    by intros ? (? & _).
Qed.

Lemma block_iter b c n :
  (1 <= n)%nat -> Nat.iter n (block_rewrite b) c = block_rewrite b c.
Proof.
  induction n as [|[|n] IH]; [lia|done|]. intros _.
  change (Nat.iter (S (S n)) (block_rewrite b) c)
    with (block_rewrite b (Nat.iter (S n) (block_rewrite b) c)).
  rewrite IH by lia. apply block_rewrite_idem.
Qed.

Lemma one_marker_line b c : marker_lines b (block_rewrite b c) = 1%nat.
Proof.
  unfold marker_lines, count_lines. rewrite block_count.
  rewrite count_none by apply block_kept_plain.
  by destruct b as [|[]].
Qed.

Lemma block_directive_once b d :
  d ∈ directive_lines b ->
  d ≠ [] ∧ length (filter (fun l => bool_decide (strip l = d)) (block_lines b)) = 1%nat.
Proof.
  destruct b as [|[]]; simpl; intros H;
    repeat (apply elem_of_cons in H as [->|H]; [by vm_compute|]);
    by apply elem_of_nil in H.
Qed.





(** ** Which old lines the scan of [enable_bbr] removes *)


Lemma bbr_scan_unmarked pre rest :
  Forall (fun l => bbr_is_marker (strip l) = false) pre ->
  bbr_scan false (pre ++ rest) = map strip pre ++ bbr_scan false rest.
Proof.
  induction 1 as [|l pre Hl _ IH]; [done|].
  simpl app. rewrite bbr_scan_plain by done. by rewrite IH.
Qed.

Lemma bbr_scan_directives ds rest :
  Forall (fun l => bbr_is_directive (strip l) = true) ds ->
  bbr_scan true (ds ++ rest) = bbr_scan true rest.
Proof.
  induction 1 as [|l ds Hl _ IH]; [done|].
  simpl app. rewrite bbr_scan_cons, Hl. simpl. rewrite IH.
  by destruct (bbr_is_marker (strip l)).
Qed.

(** C4 (as amended): the scan removes a marker line (any line holding
    [# BBR Configuration] or the older Chinese marker) together with the
    directive lines right under it, and it keeps every line of a part of the
    file that has no marker line, directive lines included.  After the rewrite
    the file has one marker line, and one tcp_congestion_control line more
    than the scan has kept. *)
Theorem bbr_scan_removes_marked_block pre m ds rest :
  Forall (fun l => bbr_is_marker (strip l) = false) pre ->
  bbr_is_marker (strip m) = true ->
  Forall (fun l => bbr_is_directive (strip l) = true) ds ->
  bbr_scan false (pre ++ m :: ds ++ rest) = map strip pre ++ bbr_scan true rest
  ∧ bbr_scan false pre = map strip pre
  ∧ (forall c, marker_lines BbrBlock (bbr_rewrite c) = 1%nat)
  ∧ (forall c, count_lines is_cc_line (bbr_rewrite c)
               = S (length (filter is_cc_line (bbr_scan false (split_nl c))))).
Proof.
  intros Hpre Hm Hds. split_and!.
  - rewrite bbr_scan_unmarked by done. f_equal.
    rewrite bbr_scan_cons, Hm. by apply bbr_scan_directives.
  - rewrite <- (app_nil_r pre) at 1. rewrite bbr_scan_unmarked by done.
    by rewrite app_nil_r.
  - intros c. apply (one_marker_line BbrBlock).
  - intros c. unfold count_lines.
    change (bbr_rewrite c) with (block_rewrite BbrBlock c).
    rewrite (block_count BbrBlock is_cc_line c).
    change (length (filter is_cc_line (block_lines BbrBlock))) with 1%nat.
    change (is_cc_line []) with false.
    unfold kept. simpl block_scan.
    destruct (bbr_scan false (split_nl c)); simpl; lia.
Qed.

Lemma bbr_scan_removes_marked_block_witness :
  bbr_scan false
    ([lit "vm.swappiness=10"] ++ lit "# BBR Configuration"
       :: [bbr_qdisc_line; bbr_cc_line] ++ [[]])
    = map strip [lit "vm.swappiness=10"] ++ bbr_scan true [[]]
  ∧ bbr_scan false [lit "vm.swappiness=10"] = map strip [lit "vm.swappiness=10"]
  ∧ (forall c, marker_lines BbrBlock (bbr_rewrite c) = 1%nat)
  ∧ (forall c, count_lines is_cc_line (bbr_rewrite c)
               = S (length (filter is_cc_line (bbr_scan false (split_nl c))))).
Proof.
  apply (bbr_scan_removes_marked_block [lit "vm.swappiness=10"]
           (lit "# BBR Configuration") [bbr_qdisc_line; bbr_cc_line] [[]]).
  - repeat constructor.
  - reflexivity.
  - repeat constructor.
Defined.

(** C4 (as stated) fails on the pair of lines that [enable_bbr] of
    install_alpine.py leaves in /etc/sysctl.conf: both lines stay, and the
    file ends up with two tcp_congestion_control lines. *)
Lemma unmarked_pair_is_kept : ¬ legacy_removed alpine_bbr_lines.
Proof. intros [_ H]. vm_compute in H. discriminate H. Qed.


(** ** [ConfigManager] *)

Section ConfigManagerFacts.
Variable E : environment.

Lemma suffix_differs (p s : text) : s ≠ [] -> p ++ s ≠ p.
Proof.
  intros Hs Heq. apply (f_equal length) in Heq. rewrite length_app in Heq.
  destruct s; [done|]. simpl in Heq. lia.
Qed.

Lemma seen_since_record h o1 s1 :
  seen_since h (record o1 s1 h) = [s1].
Proof. unfold seen_since, record. simpl. by rewrite drop_app_length. Qed.

Lemma seen_since_record2 h o1 s1 o2 s2 :
  seen_since h (record o2 s2 (record o1 s1 h)) = [s1; s2].
Proof.
  unfold seen_since, record. simpl. rewrite <- app_assoc. by rewrite drop_app_length.
Qed.

Lemma seen_since_record3 h o1 s1 o2 s2 o3 s3 :
  seen_since h (record o3 s3 (record o2 s2 (record o1 s1 h))) = [s1; s2; s3].
Proof.
  unfold seen_since, record. simpl. rewrite <- !app_assoc. by rewrite drop_app_length.
Qed.

(** C9: [atomic_write] always returns; when it returns [True] the path holds
    the new content, when it returns [False] the path is as it was; and in
    every state on the way the path holds either what it held before or the
    whole new content.  Only the sibling [.tmp] file is ever partly written. *)
Theorem atomic_write_all_or_nothing path content h :
  exists r h',
    atomic_write E path content h = (Return r, h')
    ∧ (if r then files (cur h') !! path = Some (Regular content)
       else files (cur h') !! path = files (cur h) !! path)
    ∧ forall s, s ∈ seen_since h h' ->
        files s !! path = files (cur h) !! path
        ∨ files s !! path = Some (Regular content).
Proof.
  assert (Htmp : path ++ lit ".tmp" ≠ path) by by apply suffix_differs.
  unfold atomic_write, try_except, bind, open_w, any_exception, ret.
  destruct (status E (tick h) =? 0)%Z eqn:H0; simpl.
  2:{ eexists false, _. split_and!; [done..|].
      intros s. rewrite seen_since_record. intros ->%list_elem_of_singleton. by left. }
  unfold write. rewrite tick_record.
  destruct (status E (S (tick h)) =? 0)%Z eqn:H1; simpl.
  2:{ eexists false, _. split_and!; [done| |].
      - unfold append_to. simpl. rewrite lookup_insert_eq. simpl.
        by rewrite !lookup_insert_ne.
      - intros s. rewrite seen_since_record2.
        intros Hs. set_unfold in Hs. destruct_or! Hs; try done; subst s; left; simpl.
        + by rewrite lookup_insert_ne.
        + unfold append_to. simpl. rewrite lookup_insert_eq. simpl.
          by rewrite !lookup_insert_ne. }
  unfold os_replace. rewrite !tick_record.
  assert (Hw : append_to (path ++ lit ".tmp") content
                 (Sys (<[path ++ lit ".tmp" := Regular []]> (files (cur h))) (swaps (cur h)))
               = Sys (<[path ++ lit ".tmp" := Regular content]> (files (cur h)))
                     (swaps (cur h))) by apply append_to_insert.
  rewrite Hw. clear Hw.
  destruct (status E (S (S (tick h))) =? 0)%Z eqn:H2; simpl.
  - rewrite lookup_insert_eq.
    eexists true, _. split_and!; [done| |].
    + simpl. by rewrite lookup_insert_eq.
    + intros s. rewrite seen_since_record3.
      intros Hs. set_unfold in Hs. destruct Hs as [Hs|[Hs|[Hs|[]]]]; subst s; simpl.
      * left. by rewrite lookup_insert_ne.
      * left. by rewrite lookup_insert_ne.
      * right. by rewrite lookup_insert_eq.
  - eexists false, _. split_and!; [done| |].
    + simpl. by rewrite lookup_insert_ne.
    + intros s. rewrite seen_since_record3.
      intros Hs. set_unfold in Hs. destruct Hs as [Hs|[Hs|[Hs|[]]]]; subst s; left; simpl;
        by rewrite lookup_insert_ne.
Qed.

Lemma create_backup_some path h0 b h1 :
  create_backup E path h0 = (Return (Some b), h1) ->
  exists f,
    files (cur h0) !! path = Some f
    ∧ b = path ++ lit ".bak." ++ strftime (localtime E (tick h0))
    ∧ cur h1 = Sys (<[b := f]> (files (cur h0))) (swaps (cur h0)).
Proof.
  unfold create_backup, bind at 1, path_exists, exists_.
  destruct (files (cur h0) !! path) as [f|] eqn:Hf.
  2:{ rewrite bool_decide_eq_false_2 by (by intros [? ?]). simpl. unfold ret. congruence. }
  rewrite bool_decide_eq_true_2 by eauto. simpl.
  unfold bind at 1, datetime_now, try_except, bind, run, shell, any_exception, ret.
  rewrite tick_record. simpl.
  destruct (status E (S (tick h0)) =? 0)%Z eqn:Hs; simpl.
  - rewrite Hf. simpl. intros [= <- <-]. exists f. by split_and!.
  - rewrite Hs. simpl. intros [= ? ?].
Qed.

Lemma restore_backup_true b p h h1 :
  restore_backup E b p h = (Return true, h1) ->
  exists f,
    files (cur h) !! b = Some f
    ∧ b ≠ p
    ∧ h1 = record (Sh (Mv b p))
             (Sys (<[p := f]> (delete b (files (cur h))))
                  (map (rename_area b p) (swaps (cur h)))) h.
Proof.
  unfold restore_backup, bind at 1, path_exists, exists_.
  destruct (files (cur h) !! b) as [f|] eqn:Hf.
  2:{ rewrite bool_decide_eq_false_2 by (by intros [? ?]). simpl. unfold ret. congruence. }
  rewrite bool_decide_eq_true_2 by eauto. simpl.
  unfold try_except, bind, run, shell, any_exception, ret.
  destruct (status E (tick h) =? 0)%Z eqn:Hs; simpl.
  - rewrite Hf. destruct (decide (b = p)) as [->|Hne].
    + rewrite bool_decide_eq_true_2 by done. simpl. intros [= ?].
    + rewrite bool_decide_eq_false_2 by done. simpl. intros [= <-]. by exists f.
  - rewrite Hs. simpl. intros [= ?].
Qed.

Lemma restore_backup_ok b p h f :
  files (cur h) !! b = Some f -> b ≠ p -> status E (tick h) = 0%Z ->
  restore_backup E b p h
  = (Return true,
     record (Sh (Mv b p))
       (Sys (<[p := f]> (delete b (files (cur h))))
            (map (rename_area b p) (swaps (cur h)))) h).
Proof.
  intros Hf Hne Hs.
  unfold restore_backup, bind at 1, path_exists, exists_.
  rewrite Hf, bool_decide_eq_true_2 by eauto. simpl.
  unfold try_except, bind, run, shell, any_exception, ret.
  rewrite Hs. simpl. rewrite Hf, bool_decide_eq_false_2 by done. done.
Qed.

Lemma restore_backup_absent b p h :
  files (cur h) !! b = None -> restore_backup E b p h = (Return false, h).
Proof.
  intros Hf. unfold restore_backup, bind at 1, path_exists, exists_.
  rewrite Hf, bool_decide_eq_false_2 by (by intros [? ?]). done.
Qed.


(** C7 (as amended): [restore_backup] moves the backup file onto the path
    with one [mv]; afterwards the path holds the payload and the backup file
    is gone.  A second restore finds no backup, returns [False] and changes
    nothing, so the path holds after two restores what it held after one. *)
Theorem restore_moves_backup backup path h h1 :
  restore_backup E backup path h = (Return true, h1) ->
  files (cur h1) !! path = files (cur h) !! backup
  ∧ is_Some (files (cur h) !! backup)
  ∧ files (cur h1) !! backup = None
  ∧ ops_since h h1 = [Sh (Mv backup path)]
  ∧ restore_backup E backup path h1 = (Return false, h1).
Proof.
  intros (f & Hf & Hne & ->)%restore_backup_true.
  assert (Hgone : files (cur (record (Sh (Mv backup path))
            (Sys (<[path := f]> (delete backup (files (cur h))))
                 (map (rename_area backup path) (swaps (cur h)))) h)) !! backup = None).
  { simpl. rewrite lookup_insert_ne by done. apply lookup_delete_eq. }
  split_and!.
  - simpl. by rewrite lookup_insert_eq.
  - by rewrite Hf.
  - exact Hgone.
  - by apply ops_since_app.
  - by apply restore_backup_absent.
Qed.

(** Two backups of the same path, whatever happens between them as long as
    the first backup file is left alone. *)
Lemma lit_inj s1 s2 : lit s1 = lit s2 -> s1 = s2.
Proof.
  unfold lit. intros H.
  rewrite <- (String.string_of_list_ascii_of_string s1),
          <- (String.string_of_list_ascii_of_string s2).
  f_equal. revert H.
  generalize (String.list_ascii_of_string s1) (String.list_ascii_of_string s2).
  induction l as [|a l IH]; intros [|b l']; simpl; try done.
  intros [= Hab Hl]. f_equal; [|by apply IH].
  rewrite <- (Ascii.ascii_N_embedding a), <- (Ascii.ascii_N_embedding b). by rewrite Hab.
Qed.

Lemma str_int_inj t1 t2 : str_int t1 = str_int t2 -> t1 = t2.
Proof. unfold str_int. intros H%lit_inj. by apply (inj pretty). Qed.

(** C8 (as amended): a backup of [path] is named [path.bak.<timestamp>], the
    timestamp being the local time to the second ([create_backup]) or the
    epoch second (the backups of [config_sshd] and its siblings).  Two backups
    have distinct names exactly when their timestamps differ, and then both
    stay on disk; two backups made within the same second share one name, and
    the later copy replaces the earlier one. *)
Theorem backup_names path h0 b1 h1 h1' b2 h2 :
  create_backup E path h0 = (Return (Some b1), h1) ->
  create_backup E path h1' = (Return (Some b2), h2) ->
  files (cur h1') !! b1 = files (cur h1) !! b1 ->
  b1 = path ++ lit ".bak." ++ strftime (localtime E (tick h0))
  ∧ b2 = path ++ lit ".bak." ++ strftime (localtime E (tick h1'))
  ∧ ((strftime (localtime E (tick h0)) ≠ strftime (localtime E (tick h1'))
      ∧ b1 ≠ b2
      ∧ files (cur h2) !! b1 = files (cur h0) !! path
      ∧ files (cur h2) !! b2 = files (cur h1') !! path)
     ∨ (strftime (localtime E (tick h0)) = strftime (localtime E (tick h1'))
        ∧ b1 = b2
        ∧ files (cur h2) !! b1 = files (cur h1') !! path))
  ∧ (forall p t1 t2, p ++ lit ".bak." ++ str_int t1 = p ++ lit ".bak." ++ str_int t2
                     <-> t1 = t2).
Proof.
  intros H1 H2 Hkeep.
  destruct (create_backup_some _ _ _ _ H1) as (f1 & Hf1 & Hb1 & Hc1).
  destruct (create_backup_some _ _ _ _ H2) as (f2 & Hf2 & Hb2 & Hc2).
  split_and!; [done|done| |].
  - destruct (decide (strftime (localtime E (tick h0))
                      = strftime (localtime E (tick h1')))) as [Heq|Hne].
    + right. assert (Hb12 : b1 = b2) by by rewrite Hb1, Hb2, Heq.
      split_and!; [done|done|]. rewrite Hb12, Hc2, Hf2. simpl. apply lookup_insert_eq.
    + left. assert (Hbne : b1 ≠ b2).
      { rewrite Hb1, Hb2. intros Heq. by apply app_inv_head, app_inv_head in Heq. }
      split_and!; [done|done| |].
      * rewrite Hc2. simpl. rewrite lookup_insert_ne by done.
        rewrite Hkeep, Hc1, Hf1. simpl. apply lookup_insert_eq.
      * rewrite Hc2, Hf2. simpl. apply lookup_insert_eq.
  - intros p t1 t2. split; [|by intros ->].
    intros Heq. by apply app_inv_head, app_inv_head, str_int_inj in Heq.
Qed.

End ConfigManagerFacts.



Lemma restore_moves_backup_witness :
  files (cur (restore_backup quiet (lit "/etc/gai.conf.bak.1") gai_conf
                (boot (one_file (lit "/etc/gai.conf.bak.1") (lit "label ::/0 1")))).2)
    !! gai_conf
  = files (cur (boot (one_file (lit "/etc/gai.conf.bak.1") (lit "label ::/0 1"))))
      !! lit "/etc/gai.conf.bak.1"
  ∧ is_Some (files (cur (boot (one_file (lit "/etc/gai.conf.bak.1") (lit "label ::/0 1"))))
               !! lit "/etc/gai.conf.bak.1")
  ∧ files (cur (restore_backup quiet (lit "/etc/gai.conf.bak.1") gai_conf
                  (boot (one_file (lit "/etc/gai.conf.bak.1") (lit "label ::/0 1")))).2)
      !! lit "/etc/gai.conf.bak.1" = None
  ∧ ops_since (boot (one_file (lit "/etc/gai.conf.bak.1") (lit "label ::/0 1")))
      (restore_backup quiet (lit "/etc/gai.conf.bak.1") gai_conf
         (boot (one_file (lit "/etc/gai.conf.bak.1") (lit "label ::/0 1")))).2
    = [Sh (Mv (lit "/etc/gai.conf.bak.1") gai_conf)]
  ∧ restore_backup quiet (lit "/etc/gai.conf.bak.1") gai_conf
      (restore_backup quiet (lit "/etc/gai.conf.bak.1") gai_conf
         (boot (one_file (lit "/etc/gai.conf.bak.1") (lit "label ::/0 1")))).2
    = (Return false,
       (restore_backup quiet (lit "/etc/gai.conf.bak.1") gai_conf
          (boot (one_file (lit "/etc/gai.conf.bak.1") (lit "label ::/0 1")))).2).
Proof.
  apply (restore_moves_backup quiet (lit "/etc/gai.conf.bak.1") gai_conf
           (boot (one_file (lit "/etc/gai.conf.bak.1") (lit "label ::/0 1")))).
  vm_compute. reflexivity.
Defined.

(** C7 (as stated) fails: the restore is an [mv], so the backup is not there
    any more afterwards, and [atomic_write] is not involved. *)
Lemma restore_is_a_move :
  ¬ restore_copies quiet (lit "/etc/gai.conf.bak.1") gai_conf
      (boot (one_file (lit "/etc/gai.conf.bak.1") (lit "label ::/0 1"))).
Proof.
  intros H.
  set (h1 := (restore_backup quiet (lit "/etc/gai.conf.bak.1") gai_conf
                (boot (one_file (lit "/etc/gai.conf.bak.1") (lit "label ::/0 1")))).2).
  assert (H1 : restore_backup quiet (lit "/etc/gai.conf.bak.1") gai_conf
                 (boot (one_file (lit "/etc/gai.conf.bak.1") (lit "label ::/0 1")))
               = (Return true, h1)) by (vm_compute; reflexivity).
  destruct (H h1 H1) as (_ & Hb & _). vm_compute in Hb. discriminate Hb.
Qed.

(** A second of the clock in which two backups are made. *)
Lemma backup_names_witness :
  let h0 := boot (one_file gai_conf (lit "label ::/0 1")) in
  let h1 := (create_backup quiet gai_conf h0).2 in
  let h1' := (atomic_write quiet gai_conf (lit "precedence ::/0 1") h1).2 in
  let h2 := (create_backup quiet gai_conf h1').2 in
  let b := gai_conf ++ lit ".bak.20240102030405" in
  b = gai_conf ++ lit ".bak." ++ strftime (localtime quiet (tick h0))
  ∧ b = gai_conf ++ lit ".bak." ++ strftime (localtime quiet (tick h1'))
  ∧ ((strftime (localtime quiet (tick h0)) ≠ strftime (localtime quiet (tick h1'))
      ∧ b ≠ b
      ∧ files (cur h2) !! b = files (cur h0) !! gai_conf
      ∧ files (cur h2) !! b = files (cur h1') !! gai_conf)
     ∨ (strftime (localtime quiet (tick h0)) = strftime (localtime quiet (tick h1'))
        ∧ b = b
        ∧ files (cur h2) !! b = files (cur h1') !! gai_conf))
  ∧ (forall p t1 t2, p ++ lit ".bak." ++ str_int t1 = p ++ lit ".bak." ++ str_int t2
                     <-> t1 = t2).
Proof.
  intros h0 h1 h1' h2 b.
  apply (backup_names quiet gai_conf h0 b h1 h1' b h2).
  - vm_compute. reflexivity.
  - vm_compute. reflexivity.
  - vm_compute. reflexivity.
Defined.

(** C8 (as stated) fails when the two backups fall in one second: they have
    the same name, and the first backup is lost to the second. *)
Lemma same_second_backups_collide :
  ¬ backups_never_collide quiet gai_conf (lit "precedence ::/0 1")
      (boot (one_file gai_conf (lit "label ::/0 1"))).
Proof.
  intros H.
  set (r := backup_twice quiet gai_conf (lit "precedence ::/0 1")
              (boot (one_file gai_conf (lit "label ::/0 1")))).
  assert (Hr : r = (Return (Some (gai_conf ++ lit ".bak.20240102030405"),
                            Some (gai_conf ++ lit ".bak.20240102030405")), r.2))
    by (vm_compute; reflexivity).
  destruct (H _ _ _ Hr) as [Hne _]. by apply Hne.
Qed.


(** ** The port loops *)

Section PortLoop.
Variable E : environment.
Local Arguments Nat.mul : simpl never.
Local Arguments Z.add : simpl never.
Local Arguments Z.sub : simpl never.

Lemma rounds_S t k :
  rounds E t (S k) = rounds E t k ++ [RandInt 60000 65535; ConnectEx (draw E t k)].
Proof.
  unfold rounds. rewrite seq_S, map_app, concat_app. done.
Qed.

Lemma length_rounds t k : length (rounds E t k) = (2 * k)%nat.
Proof.
  induction k as [|k IH]; [done|]. rewrite rounds_S, length_app, IH. simpl. lia.
Qed.

Lemma tick_after_rounds h k : tick (after_rounds E h k) = (tick h + 2 * k)%nat.
Proof. unfold tick, after_rounds. simpl. by rewrite length_app, length_rounds. Qed.

Local Abbreviation drawn := (Observe.drawn E).

Lemma tick_drawn h r : tick (drawn h r) = (tick h + 2 * r + 1)%nat.
Proof. unfold Observe.drawn. rewrite tick_record, tick_after_rounds. lia. Qed.

Lemma replicate_two_more {A} (x : A) k :
  replicate (2 * S k) x = replicate (2 * k) x ++ [x; x].
Proof. replace (2 * S k)%nat with (2 * k + 2)%nat by lia. by rewrite replicate_add. Qed.

Lemma probed_drawn h r :
  record (ConnectEx (draw E (tick h) r)) (cur h) (drawn h r) = after_rounds E h (S r).
Proof.
  unfold Observe.drawn, record, after_rounds. cbn [cur ops seen vars]. f_equal.
  - rewrite rounds_S. by rewrite <- !app_assoc.
  - rewrite replicate_two_more. by rewrite <- !app_assoc.
Qed.

Lemma cur_drawn h r : cur (drawn h r) = cur h.
Proof. done. Qed.

Lemma while_port_taken_spec fuel : forall h r port h',
  while_port_taken E fuel (draw E (tick h) r) (drawn h r) = (Return port, h')
  <-> exists k, (r <= k < r + fuel)%nat
        ∧ (forall j, (r <= j < k)%nat ->
             status E (tick h + 2 * j + 1) = 0%Z ∧ errno E (tick h + 2 * j + 1) = 0%Z)
        ∧ status E (tick h + 2 * k + 1) = 0%Z
        ∧ errno E (tick h + 2 * k + 1) ≠ 0%Z
        ∧ port = draw E (tick h) k
        ∧ h' = after_rounds E h (S k).
Proof.
  induction fuel as [|fuel IH]; intros h r port h'.
  { simpl. split; [done|]. intros (k & ? & _). lia. }
  simpl. unfold bind at 1, is_port_available, bind at 1, connect_ex.
  rewrite tick_drawn, cur_drawn.
  destruct (status E (tick h + 2 * r + 1) =? 0)%Z eqn:Hs; simpl.
  2:{ apply Z.eqb_neq in Hs. split; [done|].
      intros (k & Hk & Hj & Hsk & _).
      destruct (decide (k = r)) as [->|Hne]; [done|].
      destruct (Hj r) as [? _]; [lia|done]. }
  apply Z.eqb_eq in Hs. rewrite probed_drawn. unfold ret at 1.
  destruct (errno E (tick h + 2 * r + 1) =? 0)%Z eqn:He; simpl.
  - apply Z.eqb_eq in He.
    unfold bind at 1, randint. rewrite tick_after_rounds.
    replace (tick h + 2 * S r)%nat with (tick h + 2 * (S r))%nat by done.
    fold (draw E (tick h) (S r)).
    change (record (RandInt 60000 65535) (cur (after_rounds E h (S r)))
              (after_rounds E h (S r))) with (drawn h (S r)).
    rewrite IH. split.
    + intros (k & Hk & Hj & Hrest). exists k. split; [lia|]. split; [|done].
      intros j Hjk. destruct (decide (j = r)) as [->|Hne]; [done|]. apply Hj. lia.
    + intros (k & Hk & Hj & Hsk & Hek & Hrest).
      destruct (decide (k = r)) as [->|Hne]; [done|].
      exists k. split; [lia|]. split; [|done]. intros j Hjk. apply Hj. lia.
  - apply Z.eqb_neq in He. unfold ret. split.
    + intros [= <- <-]. exists r. split; [lia|]. split; [|done]. intros j Hj. lia.
    + intros (k & Hk & Hj & Hsk & Hek & -> & ->).
      destruct (decide (k = r)) as [->|Hne]; [done|].
      destruct (Hj r) as [_ ?]; [lia|done].
Qed.

Lemma draw_range t j : (60000 <= draw E t j <= 65535)%Z.
Proof.
  unfold draw.
  pose proof (Z.mod_pos_bound (entropy E (t + 2 * j)) (65535 - 60000 + 1)). lia.
Qed.

Lemma alpine_rounds_S t k :
  alpine_rounds E t (S k)
  = alpine_rounds E t k ++ [RandInt 60000 65500; Sh (netstat (alpine_draw E t k))].
Proof.
  unfold alpine_rounds. rewrite seq_S, map_app, concat_app. done.
Qed.

Lemma length_alpine_rounds t k : length (alpine_rounds E t k) = (2 * k)%nat.
Proof.
  induction k as [|k IH]; [done|]. rewrite alpine_rounds_S, length_app, IH. simpl. lia.
Qed.

Lemma run_query q h :
  run E (Query q) false h
  = (Return (Completed (status E (tick h)) (answer E (tick h))),
     record (Sh (Query q)) (cur h) h).
Proof.
  unfold run, shell. destruct (status E (tick h) =? 0)%Z eqn:Hs; [|done].
  apply Z.eqb_eq in Hs. simpl. by rewrite Hs.
Qed.

Lemma alpine_pick_port_S fuel :
  alpine_pick_port E (S fuel)
  = (port <- randint E 60000 65500 ;;
     r <- run E (netstat port) false ;;
     if negb (returncode r =? 0)%Z then ret port else alpine_pick_port E fuel).
Proof. reflexivity. Qed.

Lemma alpine_probed h r :
  record (Sh (netstat (alpine_draw E (tick h) r))) (cur h)
    (record (RandInt 60000 65500) (cur h) (alpine_after_rounds E h r))
  = alpine_after_rounds E h (S r).
Proof.
  unfold record, alpine_after_rounds. cbn [cur ops seen vars]. f_equal.
  - rewrite alpine_rounds_S. by rewrite <- !app_assoc.
  - rewrite replicate_two_more. by rewrite <- !app_assoc.
Qed.

Lemma alpine_pick_port_spec fuel : forall h r port h',
  alpine_pick_port E fuel (alpine_after_rounds E h r) = (Return port, h')
  <-> exists k, (r <= k < r + fuel)%nat
        ∧ (forall j, (r <= j < k)%nat -> status E (tick h + 2 * j + 1) = 0%Z)
        ∧ status E (tick h + 2 * k + 1) ≠ 0%Z
        ∧ port = alpine_draw E (tick h) k
        ∧ h' = alpine_after_rounds E h (S k).
Proof.
  induction fuel as [|fuel IH]; intros h r port h'.
  { simpl. split; [done|]. intros (k & ? & _). lia. }
  assert (Ht : tick (alpine_after_rounds E h r) = (tick h + 2 * r)%nat).
  { unfold tick, alpine_after_rounds. cbn [ops]. by rewrite length_app, length_alpine_rounds. }
  rewrite alpine_pick_port_S. unfold bind at 1, randint. rewrite Ht.
  fold (alpine_draw E (tick h) r).
  unfold bind at 1, netstat at 1. rewrite run_query. fold (netstat (alpine_draw E (tick h) r)).
  rewrite tick_record, Ht.
  replace (S (tick h + 2 * r)) with (tick h + 2 * r + 1)%nat by lia.
  change (cur (record (RandInt 60000 65500) (cur (alpine_after_rounds E h r))
                 (alpine_after_rounds E h r))) with (cur h).
  change (cur (alpine_after_rounds E h r)) with (cur h).
  rewrite alpine_probed. cbn [returncode].
  destruct (status E (tick h + 2 * r + 1) =? 0)%Z eqn:Hs; cbn [negb].
  - apply Z.eqb_eq in Hs. rewrite IH. split.
    + intros (k & Hk & Hj & Hrest). exists k. split; [lia|]. split; [|done].
      intros j Hjk. destruct (decide (j = r)) as [->|Hne]; [done|]. apply Hj. lia.
    + intros (k & Hk & Hj & Hsk & Hrest).
      destruct (decide (k = r)) as [->|Hne]; [done|].
      exists k. split; [lia|]. split; [|done]. intros j Hjk. apply Hj. lia.
  - apply Z.eqb_neq in Hs. unfold ret. split.
    + intros [= <- <-]. exists r. split; [lia|]. split; [|done]. intros j Hj. lia.
    + intros (k & Hk & Hj & Hsk & -> & ->).
      destruct (decide (k = r)) as [->|Hne]; [done|].
      specialize (Hj r). rewrite Hj in Hs; [done|lia].
Qed.


End PortLoop.

(** ** Stepping through a script *)

Section Stepping.
Variable E : environment.

Lemma bind_return {A B} (m : M A) (k : A -> M B) h a h1 :
  m h = (Return a, h1) -> (x <- m ;; k x) h = k a h1.
Proof. unfold bind. by intros ->. Qed.

Lemma bind_raise {A B} (m : M A) (k : A -> M B) h e h1 :
  m h = (Raise e, h1) -> (x <- m ;; k x) h = (Raise e, h1).
Proof. unfold bind. by intros ->. Qed.

Lemma try_return {A} (m : M A) handler h a h1 :
  m h = (Return a, h1) -> try_except m handler h = (Return a, h1).
Proof. unfold try_except. by intros ->. Qed.

Lemma try_raise {A} (m : M A) handler h e h1 k :
  m h = (Raise e, h1) -> handler e = Some k -> try_except m handler h = k h1.
Proof. unfold try_except. by intros -> ->. Qed.

Lemma run_exec c check h st out s' :
  status E (tick h) = 0%Z ->
  exec E (tick h) c (cur h) = (st, out, s') ->
  run E c check h
  = (if check && negb (st =? 0)%Z then Raise (CalledProcessError st)
     else Return (Completed st out),
     record (Sh c) s' h).
Proof.
  intros Hs He. unfold run, shell. rewrite Hs, He. simpl.
  by destruct (check && negb (st =? 0)%Z).
Qed.

Lemma run_done c check h out s' :
  status E (tick h) = 0%Z ->
  exec E (tick h) c (cur h) = (0%Z, out, s') ->
  run E c check h = (Return (Completed 0 out), record (Sh c) s' h).
Proof.
  intros Hs He. rewrite (run_exec _ _ _ _ _ _ Hs He). by rewrite andb_false_r.
Qed.

Lemma read_text_ok p h t :
  status E (tick h) = 0%Z -> files (cur h) !! p = Some (Regular t) ->
  read_text E p h = (Return (universal_newlines t), record (ReadText p) (cur h) h).
Proof. intros Hs Hp. unfold read_text. by rewrite Hs, Hp. Qed.

Lemma write_ok p data h :
  status E (tick h) = 0%Z ->
  write E p data h = (Return tt, record (Write p data) (append_to p data (cur h)) h).
Proof. intros Hs. unfold write. by rewrite Hs. Qed.

Lemma overwrite_ok p data h :
  status E (tick h) = 0%Z ->
  overwrite E p data h
  = (Return tt,
     record (Overwrite p data) (Sys (<[p := Regular data]> (files (cur h))) (swaps (cur h))) h).
Proof. intros Hs. unfold overwrite. by rewrite Hs. Qed.

Lemma swaps_append_to p data s : swaps (append_to p data s) = swaps s.
Proof. unfold append_to. by destruct (files s !! p) as [[| |]|]. Qed.

End Stepping.

(** ** The swap switch of [increase_swap] *)

Section SwapSwitch.
Variable E : environment.

Lemma split_ws_word w d rest :
  w ≠ [] -> Forall (fun c => isspace c = false) w -> isspace d = true ->
  split_ws (w ++ d :: rest) = w :: split_ws rest.
Proof.
  intros Hne Hw Hd. induction Hw as [|c w Hc Hw IH]; [done|].
  destruct w as [|c2 w].
  - simpl. by rewrite Hc, Hd.
  - change (split_ws ((c :: c2 :: w) ++ d :: rest))
      with (if isspace c then split_ws ((c2 :: w) ++ d :: rest)
            else if isspace c2 then [c] :: split_ws ((c2 :: w) ++ d :: rest)
                 else match split_ws ((c2 :: w) ++ d :: rest) with
                      | w' :: ws => (c :: w') :: ws
                      | [] => [[c]]
                      end).
    rewrite Hc. apply Forall_cons in Hw as [Hc2 _]. rewrite Hc2.
    by rewrite IH.
Qed.

Lemma strip_word w rest :
  w ≠ [] -> Forall (fun c => isspace c = false) w -> strip (w ++ rest) ≠ [].
Proof.
  intros Hne Hw. destruct Hw as [|c w Hc _]; [done|].
  unfold strip. simpl. rewrite Hc. simpl.
  by destruct (rstrip (w ++ rest)); [rewrite Hc|].
Qed.

(** What [swapon --show=NAME,TYPE --noheadings] prints when the first area
    is a file whose name is one word. *)
Lemma listing_tokens existing rest :
  existing ≠ [] -> Forall (fun c => isspace c = false) existing ->
  strip (swapon_listing ((existing, SwapFile) :: rest)) ≠ []
  ∧ split_ws (swapon_listing ((existing, SwapFile) :: rest)) !! 1%nat = Some (lit "file")
  ∧ split_ws (swapon_listing ((existing, SwapFile) :: rest)) !! 0%nat = Some existing.
Proof.
  intros Hne Hw. unfold swapon_listing. cbn [map concat fst snd swap_type_name].
  rewrite <- !app_assoc. split; [by apply strip_word|].
  change (lit " " ++ lit "file" ++ [NL] ++ concat
            (map (fun a => a.1 ++ lit " " ++ swap_type_name a.2 ++ [NL]) rest))
    with (32 :: lit "file" ++ NL ::
          concat (map (fun a => a.1 ++ lit " " ++ swap_type_name a.2 ++ [NL]) rest)).
  rewrite split_ws_word by done.
  rewrite (split_ws_word (lit "file")); [done|done| |done].
  by repeat constructor.
Qed.


Hypothesis let_through : forall i, status E i = 0%Z.

Lemma calm_refl h : calm h h.
Proof. exists [], []. by rewrite !app_nil_r. Qed.

Lemma calm_record o s' h : swaps s' = swaps (cur h) -> calm h (record o s' h).
Proof. intros Hs. exists [o], [s']. split_and!; try done. by constructor. Qed.

Lemma calm_trans h1 h2 h3 : calm h1 h2 -> calm h2 h3 -> calm h1 h3.
Proof.
  intros (o1 & ss1 & Ho1 & Hs1 & Hf1 & Hc1) (o2 & ss2 & Ho2 & Hs2 & Hf2 & Hc2).
  exists (o1 ++ o2), (ss1 ++ ss2). rewrite Ho2, Ho1, Hs2, Hs1, !app_assoc.
  split_and!; try done; [|congruence].
  apply Forall_app. split; [done|]. eapply Forall_impl; [exact Hf2|].
  intros s' Hs'. congruence.
Qed.

(** The update of /etc/fstab goes through and leaves the swap areas alone. *)
Lemma update_fstab_calm existing h t :
  files (cur h) !! fstab = Some (Regular t) ->
  exists h1, update_fstab E existing h = (Return tt, h1) ∧ calm h h1.
Proof.
  intros Hf. unfold update_fstab.
  erewrite bind_return by (by apply read_text_ok).
  set (h0 := record (ReadText fstab) (cur h) h).
  assert (H0 : calm h h0) by by apply calm_record.
  destruct (contains existing (universal_newlines t)); cbn [negb].
  - destruct (contains _ (universal_newlines t)); cbn [negb].
    + exists h0. by split.
    + rewrite overwrite_ok by done. eexists. split; [done|].
      eapply calm_trans; [exact H0|]. by apply calm_record.
  - rewrite write_ok by done. eexists. split; [done|].
    eapply calm_trans; [exact H0|]. apply calm_record. apply swaps_append_to.
Qed.

Lemma rename_others tmp existing (others : list (text * swap_type)) :
  tmp ∉ others.*1 -> map (rename_area tmp existing) others = others.
Proof.
  induction others as [|a l IH]; [done|]. cbn [fmap list_fmap map].
  intros [Ha Hl]%not_elem_of_cons. rewrite IH by done.
  unfold rename_area. by rewrite bool_decide_eq_false_2 by done.
Qed.

Lemma filter_names (P : text * swap_type -> Prop) `{!forall a, Decision (P a)} x l :
  x ∉ l.*1 -> x ∉ (filter P l).*1.
Proof.
  intros Hx Hin. apply Hx. apply list_elem_of_fmap in Hin as (a & -> & Ha).
  apply list_elem_of_fmap. exists a. split; [done|].
  by apply list_elem_of_filter in Ha as [_ ?].
Qed.


End SwapSwitch.





(** ** What a script keeps while it runs *)

Section Keeping.
Variable E : environment.
Variable p : text.
Variable P : host -> Prop.
Hypothesis P_framed : framed p P.
Hypothesis utilities : utilities_spare E p.

Lemma lookup_foldr_delete (m : gmap text file) ps :
  p ∉ ps -> foldr delete m ps !! p = m !! p.
Proof.
  induction ps as [|q ps IH]; [done|].
  intros [Hq Hps]%not_elem_of_cons. simpl. rewrite lookup_delete_ne by done. by apply IH.
Qed.

Lemma lookup_filter_glob (m : gmap text file) dir :
  under_glob dir p = false ->
  filter (fun kv : text * file => under_glob dir kv.1 = false) m !! p = m !! p.
Proof.
  intros Hg. destruct (m !! p) as [f|] eqn:Hm.
  - by apply map_lookup_filter_Some_2.
  - apply map_lookup_filter_None_2. by left.
Qed.

Lemma exec_spares n c : forall s,
  spares c p -> files (exec E n c s).2 !! p = files s !! p.
Proof.
  induction c as [src dst|src dst|q|ps|dir|pat d repl q|line q|size q|mode q|q|q|q|
                  |c1 IH1 c2 IH2|c1 IH1 c2 IH2|q|q]; intros s Hsp; simpl in Hsp.
  - simpl. destruct (files s !! src); [|done]. simpl. by rewrite lookup_insert_ne.
  - simpl. destruct Hsp as [Hs Hd]. destruct (files s !! src); [|done].
    destruct (bool_decide (src = dst)); [done|]. simpl.
    rewrite lookup_insert_ne by done. by rewrite lookup_delete_ne.
  - simpl. destruct (files s !! q); [done|]. simpl. by rewrite lookup_insert_ne.
  - simpl. by apply lookup_foldr_delete.
  - simpl. by apply lookup_filter_glob.
  - simpl. destruct (files s !! q) as [[| |]|]; try done. simpl. by rewrite lookup_insert_ne.
  - simpl. destruct (files s !! q) as [[| |]|]; try done; simpl; by rewrite lookup_insert_ne.
  - simpl. by rewrite lookup_insert_ne.
  - simpl. by destruct (exists_ s q).
  - simpl. by destruct (exists_ s q).
  - simpl. by destruct (exists_ s q && negb (active s q)).
  - simpl. by destruct (active s q).
  - done.
  - destruct Hsp as [H1 H2]. simpl.
    specialize (IH1 s H1). destruct (exec E n c1 s) as [[st out] s1]. simpl in IH1.
    destruct (st =? 0)%Z; [|done].
    specialize (IH2 s1 H2). destruct (exec E n c2 s1) as [[st2 out2] s2]. simpl in *.
    congruence.
  - destruct Hsp as [H1 H2]. simpl.
    specialize (IH1 s H1). destruct (exec E n c1 s) as [[st out] s1]. simpl in IH1.
    specialize (IH2 s1 H2). destruct (exec E n c2 s1) as [[st2 out2] s2]. simpl in *.
    congruence.
  - done.
  - simpl. apply utilities.
Qed.

Lemma shell_spares n c s : spares c p -> files (shell E n c s).2 !! p = files s !! p.
Proof.
  intros Hsp. unfold shell. destruct (status E n =? 0)%Z; [by apply exec_spares|].
  destruct c; try done. simpl. apply utilities.
Qed.

Lemma keeps_ret {A} (a : A) : keeps P (ret a).
Proof. intros h r h' HP [= <- <-]. done. Qed.

Lemma keeps_raise {A} e : keeps P (@raise A e).
Proof. intros h r h' HP [= <- <-]. done. Qed.

Lemma keeps_bind {A B} (m : M A) (k : A -> M B) :
  keeps P m -> (forall a, keeps P (k a)) -> keeps P (x <- m ;; k x).
Proof.
  intros Hm Hk h r h' HP. unfold bind.
  destruct (m h) as [[a|e|] h1] eqn:Hmh.
  - intros Hkh. eapply Hk; [|exact Hkh]. by eapply Hm.
  - intros [= <- <-]. by eapply Hm.
  - intros [= <- <-]. by eapply Hm.
Qed.

Lemma keeps_try {A} (m : M A) handler :
  keeps P m -> (forall e k, handler e = Some k -> keeps P k) ->
  keeps P (try_except m handler).
Proof.
  intros Hm Hk h r h' HP. unfold try_except.
  destruct (m h) as [[a|e|] h1] eqn:Hmh.
  - intros [= <- <-]. by eapply Hm.
  - destruct (handler e) as [k|] eqn:He.
    + intros Hkh. eapply Hk; [exact He| |exact Hkh]. by eapply Hm.
    + intros [= <- <-]. by eapply Hm.
  - intros [= <- <-]. by eapply Hm.
Qed.

Lemma keeps_run c check : spares c p -> keeps P (run E c check).
Proof.
  intros Hsp h r h' HP. unfold run.
  pose proof (shell_spares (tick h) c (cur h) Hsp) as Hf.
  destruct (shell E (tick h) c (cur h)) as [[st out] s']. simpl in Hf.
  destruct (check && negb (st =? 0)%Z); intros [= <- <-]; by apply P_framed.
Qed.

Lemma keeps_path_exists q : keeps P (path_exists q).
Proof. intros h r h' HP [= <- <-]. done. Qed.

Lemma keeps_get_var x : keeps P (get_var x).
Proof. intros h r h' HP [= <- <-]. done. Qed.

Lemma keeps_read_text q : keeps P (read_text E q).
Proof.
  intros h r h' HP. unfold read_text.
  destruct (negb _); [intros [= <- <-]; by apply P_framed|].
  destruct (files (cur h) !! q) as [[| |]|]; intros [= <- <-]; by apply P_framed.
Qed.

Lemma keeps_open_w q : q ≠ p -> keeps P (open_w E q).
Proof.
  intros Hq h r h' HP. unfold open_w.
  destruct (negb _); intros [= <- <-]; apply P_framed; try done.
  simpl. by rewrite lookup_insert_ne.
Qed.

Lemma keeps_open_a q : q ≠ p -> keeps P (open_a E q).
Proof.
  intros Hq h r h' HP. unfold open_a.
  destruct (negb _); [intros [= <- <-]; by apply P_framed|].
  destruct (files (cur h) !! q); intros [= <- <-]; apply P_framed; try done.
  simpl. by rewrite lookup_insert_ne.
Qed.

Lemma lookup_append_to q data s : q ≠ p -> files (append_to q data s) !! p = files s !! p.
Proof.
  intros Hq. unfold append_to.
  destruct (files s !! q) as [[| |]|]; simpl; by rewrite lookup_insert_ne.
Qed.

Lemma keeps_write q data : q ≠ p -> keeps P (write E q data).
Proof.
  intros Hq h r h' HP. unfold write.
  destruct (negb _); intros [= <- <-]; apply P_framed; try done;
    by apply lookup_append_to.
Qed.

Lemma keeps_os_chmod q : keeps P (os_chmod E q).
Proof.
  intros h r h' HP. unfold os_chmod.
  destruct (_ || _); intros [= <- <-]; by apply P_framed.
Qed.

Lemma keeps_makedirs q : q ≠ p -> keeps P (makedirs E q).
Proof.
  intros Hq h r h' HP. unfold makedirs.
  destruct (negb _); [intros [= <- <-]; by apply P_framed|].
  destruct (files (cur h) !! q); intros [= <- <-]; apply P_framed; try done.
  simpl. by rewrite lookup_insert_ne.
Qed.

Lemma keeps_sleep : keeps P sleep.
Proof. intros h r h' HP [= <- <-]. by apply P_framed. Qed.

Lemma keeps_run_all_checked cmds :
  Forall (fun c => spares c p) cmds -> keeps P (run_all_checked E cmds).
Proof.
  induction 1 as [|c cmds Hc _ IH]; [apply keeps_ret|].
  simpl. apply keeps_bind; [by apply keeps_run|]. intros _. exact IH.
Qed.

Lemma keeps_write_all q chunks : q ≠ p -> keeps P (write_all E q chunks).
Proof.
  intros Hq. induction chunks as [|d chunks IH]; [apply keeps_ret|].
  simpl. apply keeps_bind; [by apply keeps_write|]. intros _. exact IH.
Qed.

Lemma keeps_write_file q chunks : q ≠ p -> keeps P (write_file E q chunks).
Proof.
  intros Hq. apply keeps_bind; [by apply keeps_open_w|]. intros _.
  by apply keeps_write_all.
Qed.

Lemma keeps_check_bbr_enabled : keeps P (check_bbr_enabled E).
Proof.
  apply keeps_try.
  - repeat (apply keeps_bind; [by apply keeps_run|]; intros ?). apply keeps_ret.
  - intros e k [= <-]. apply keeps_ret.
Qed.

End Keeping.

(** ** Rollback in [config_sshd] and [enable_bbr] *)

Section Rollback.
Variable E : environment.

Lemma backed_up_framed b f named : framed b (backed_up b f named).
Proof. intros h o s' [Hf Hv] Hs. split; [simpl; by rewrite Hs|done]. Qed.

Lemma backup_name_differs target now : backup_name target now ≠ target.
Proof. unfold backup_name. apply suffix_differs. done. Qed.

Lemma backup_name_not_under_glob now :
  under_glob (lit "/etc/ssh/sshd_config.d") (backup_name sshd_config now) = false.
Proof. reflexivity. Qed.

Lemma config_commands_spare port now :
  Forall (fun c => spares c (backup_name sshd_config now)) (config_commands port).
Proof.
  pose proof (backup_name_differs sshd_config now) as Hne.
  repeat constructor; simpl;
    first [by intros Heq; apply Hne | apply backup_name_not_under_glob].
Qed.

Lemma keeps_config_sshd_mutate home fuel port now f named :
  utilities_spare E (backup_name sshd_config now) ->
  tx_paths_apart (SshdTx home fuel) now ->
  keeps (backed_up (backup_name sshd_config now) f named) (config_sshd_mutate E home port).
Proof.
  intros Hu [Hdir Hauth].
  pose proof (backed_up_framed (backup_name sshd_config now) f named) as Hfr.
  unfold config_sshd_mutate.
  apply keeps_bind; [by eapply keeps_run_all_checked, config_commands_spare|]. intros _.
  apply keeps_bind; [apply keeps_path_exists|]. intros have_dir.
  apply keeps_bind.
  { destruct have_dir; simpl; [apply keeps_ret|by eapply keeps_makedirs]. }
  intros _.
  apply keeps_bind; [by eapply keeps_run|]. intros _.
  apply keeps_bind; [apply keeps_path_exists|]. intros have_key.
  apply keeps_bind; [apply keeps_path_exists|]. intros have_pub.
  destruct (negb (have_key && have_pub)); [apply keeps_raise|].
  apply keeps_bind; [by eapply keeps_read_text|]. intros pub.
  apply keeps_bind; [apply keeps_path_exists|]. intros have_auth.
  apply keeps_bind.
  { destruct have_auth; [|apply keeps_ret].
    apply keeps_bind; [by eapply keeps_read_text|]. intros ?. apply keeps_ret. }
  intros known.
  apply keeps_bind.
  { destruct known; simpl; [apply keeps_ret|].
    apply keeps_bind; [by eapply keeps_open_a|]. intros _.
    apply keeps_bind; [by eapply keeps_write|]. intros _.
    by eapply keeps_os_chmod. }
  intros _.
  apply keeps_bind; [by eapply keeps_run|]. intros _.
  apply keeps_bind; [by eapply keeps_run|]. intros _.
  apply keeps_bind; [by eapply keeps_run|]. intros status.
  destruct (negb _); [apply keeps_raise|apply keeps_ret].
Qed.

Lemma keeps_enable_bbr_apply b f named :
  utilities_spare E b -> keeps (backed_up b f named) (enable_bbr_apply E).
Proof.
  intros Hu. pose proof (backed_up_framed b f named) as Hfr.
  unfold enable_bbr_apply.
  apply keeps_bind; [by eapply keeps_run|]. intros r1.
  destruct (negb _); [apply keeps_raise|].
  apply keeps_bind; [by eapply keeps_run|]. intros r2.
  destruct (negb _); [apply keeps_raise|].
  apply keeps_bind; [by eapply keeps_run|]. intros _.
  apply keeps_bind; [by eapply keeps_sleep|]. intros _.
  do 3 (apply keeps_bind; [by eapply keeps_run|]; intros _).
  apply keeps_bind; [by eapply keeps_check_bbr_enabled|]. intros enabled.
  destruct enabled; apply keeps_ret.
Qed.

Lemma keeps_enable_bbr_mutate now f named :
  utilities_spare E (backup_name sysctl_conf now) ->
  keeps (backed_up (backup_name sysctl_conf now) f named) (enable_bbr_mutate E).
Proof.
  intros Hu.
  pose proof (backed_up_framed (backup_name sysctl_conf now) f named) as Hfr.
  pose proof (backup_name_differs sysctl_conf now) as Hne.
  unfold enable_bbr_mutate, bbr_block_step, rewrite_step.
  apply keeps_bind.
  { apply keeps_bind; [by eapply keeps_read_text|]. intros content.
    eapply keeps_write_file; [done|]. by intros Heq. }
  intros _. by apply keeps_enable_bbr_apply.
Qed.

Lemma bind_returned {A B} (m : M A) (k : A -> M B) h b h' :
  (x <- m ;; k x) h = (Return b, h') ->
  exists a h1, m h = (Return a, h1) ∧ k a h1 = (Return b, h').
Proof.
  unfold bind. destruct (m h) as [[a|e|] h1]; [|done..]. intros Hk. by exists a, h1.
Qed.

Lemma run_cp_returned src dst h r hc :
  run E (Cp src dst) true h = (Return r, hc) ->
  exists f,
    files (cur h) !! src = Some f
    ∧ hc = record (Sh (Cp src dst)) (Sys (<[dst := f]> (files (cur h))) (swaps (cur h))) h.
Proof.
  unfold run, shell. destruct (status E (tick h) =? 0)%Z eqn:Hs.
  - simpl. destruct (files (cur h) !! src) as [f|]; simpl; [|done].
    intros [= _ <-]. by exists f.
  - simpl. rewrite Hs. done.
Qed.

Lemma run_utility q h :
  run E (Utility q) false h
  = (Return (Completed (status E (tick h)) (answer E (tick h))),
     record (Sh (Utility q)) (effect E (tick h) (cur h)) h).
Proof.
  unfold run, shell. destruct (status E (tick h) =? 0)%Z eqn:Hs; [|done].
  apply Z.eqb_eq in Hs. simpl. by rewrite Hs.
Qed.

Lemma run_mv_back b target f h :
  files (cur h) !! b = Some f -> b ≠ target -> status E (tick h) = 0%Z ->
  run E (Mv b target) false h
  = (Return (Completed 0 []),
     record (Sh (Mv b target))
       (Sys (<[target := f]> (delete b (files (cur h))))
            (map (rename_area b target) (swaps (cur h)))) h).
Proof.
  intros Hf Hne Hs. apply run_done; [done|]. simpl.
  by rewrite Hf, bool_decide_eq_false_2.
Qed.

Lemma prepare_names fuel h port b hp :
  config_sshd_prepare E fuel h = (Return (port, b), hp) ->
  vars hp !! "backup_file" = Some b.
Proof.
  unfold config_sshd_prepare.
  intros (installed & h1 & _ & H)%bind_returned.
  apply bind_returned in H as (? & h2 & _ & H).
  apply bind_returned in H as (port' & h3 & _ & H).
  apply bind_returned in H as (now & h4 & _ & H).
  apply bind_returned in H as (? & h5 & Hset & H).
  injection Hset as _ <-. injection H as _ <- <-.
  simpl. apply lookup_insert_eq.
Qed.

(** The [except CalledProcessError] clause of [config_sshd]. *)
Lemma sshd_handler_restores rc b f h1 k :
  config_sshd_handler E (CalledProcessError rc) = Some k ->
  backed_up b f true h1 -> b ≠ [] -> b ≠ sshd_config ->
  status E (tick h1) = 0%Z ->
  utilities_spare E sshd_config ->
  exists h',
    k h1 = (Return false, h')
    ∧ files (cur h') !! sshd_config = Some f
    ∧ ops h' = ops h1 ++ [Sh (Mv b sshd_config); Sh sshd_restart].
Proof.
  intros [= <-] [Hf Hv] Hne Hnt Hs Hu.
  erewrite bind_return by reflexivity. rewrite Hv.
  destruct b as [|c t]; [done|].
  erewrite bind_return by reflexivity.
  unfold exists_. rewrite bool_decide_eq_true_2 by (rewrite Hf; eauto).
  erewrite bind_return by (by apply run_mv_back).
  unfold sshd_restart at 1. erewrite bind_return by apply run_utility.
  eexists. split; [done|]. split.
  - cbn [cur record]. rewrite Hu. simpl. apply lookup_insert_eq.
  - cbn [ops record]. by rewrite <- app_assoc.
Qed.

(** The [except Exception] clause of [enable_bbr]. *)
Lemma bbr_handler_restores b f named h1 :
  backed_up b f named h1 -> b ≠ [] -> b ≠ sysctl_conf ->
  status E (tick h1) = 0%Z ->
  exists h',
    (restore_if_present E b sysctl_conf ;;; ret false) h1 = (Return false, h')
    ∧ files (cur h') !! sysctl_conf = Some f
    ∧ ops h' = ops h1 ++ [Sh (Mv b sysctl_conf)].
Proof.
  intros [Hf _] Hne Hnt Hs. destruct b as [|c t]; [done|].
  erewrite bind_return.
  2:{ unfold restore_if_present.
      erewrite bind_return by reflexivity.
      unfold exists_. rewrite bool_decide_eq_true_2 by (rewrite Hf; eauto).
      erewrite bind_return by (by apply run_mv_back). reflexivity. }
  eexists. split; [done|]. split; [|done].
  simpl. apply lookup_insert_eq.
Qed.

(** [enable_bbr_apply] ends with [True] or with an exception. *)
Lemma enable_bbr_apply_true h b h' :
  enable_bbr_apply E h = (Return b, h') -> b = true.
Proof.
  unfold enable_bbr_apply.
  intros (r1 & h1 & _ & H)%bind_returned.
  destruct (negb _); [done|].
  apply bind_returned in H as (r2 & h2 & _ & H).
  destruct (negb _); [done|].
  do 5 (apply bind_returned in H as (? & ? & _ & H)).
  apply bind_returned in H as (enabled & ? & _ & H).
  destruct enabled; by injection H as <- _.
Qed.

Lemma backup_name_nonempty target now : backup_name target now ≠ [].
Proof.
  unfold backup_name. intros H.
  apply app_eq_nil in H as [_ H]. apply app_eq_nil in H as [H _]. discriminate H.
Qed.

(** C5 (as amended): once the backup copy of the target is made, a failure
    of the rest of the [try] block that the operation has an [except] clause
    with a restore for (in [config_sshd] a shell command run with
    [check=True] that exits non-zero, such as [sshd -t]; in [enable_bbr] any
    exception) ends in that clause: the backup is moved back onto the target,
    which then holds what it held before the copy, [config_sshd] runs
    [systemctl restart sshd] once more, and the operation returns [False].
    The last check of [enable_bbr] is no such failure: the steps after the
    write never return [False]. *)
Theorem transaction_rolls_back tx h0 port now hp hc e h1 :
  tx_backed_up E tx h0 port now hp hc ->
  tx_mutate E tx port hc = (Raise e, h1) ->
  tx_catches tx e = true ->
  status E (tick h1) = 0%Z ->
  utilities_spare E (backup_name (tx_target tx) now) ->
  utilities_spare E (tx_target tx) ->
  tx_paths_apart tx now ->
  exists h',
    tx_run E tx h0 = (Return false, h')
    ∧ is_Some (files (cur hp) !! tx_target tx)
    ∧ files (cur h') !! tx_target tx = files (cur hp) !! tx_target tx
    ∧ ops h'
      = ops h1 ++ Sh (Mv (backup_name (tx_target tx) now) (tx_target tx))
                  :: tx_compensation tx
    ∧ forall h, (enable_bbr_apply E h).1 ≠ Return false.
Proof.
  intros Hback Hmut Hcatch Hs Hub Hut Hapart.
  assert (Hlast : forall h, (enable_bbr_apply E h).1 ≠ Return false).
  { intros h Hr. destruct (enable_bbr_apply E h) as [r h''] eqn:Hrun. simpl in Hr.
    subst r. by apply enable_bbr_apply_true in Hrun. }
  destruct tx as [home fuel|]; simpl in *.
  - destruct Hback as (h00 & r & H00 & Hprep & Hcp).
    destruct (run_cp_returned _ _ _ _ _ Hcp) as (f & Hf & ->).
    assert (Hhc : backed_up (backup_name sshd_config now) f true
                    (record (Sh (Cp sshd_config (backup_name sshd_config now)))
                       (Sys (<[backup_name sshd_config now := f]> (files (cur hp)))
                            (swaps (cur hp))) hp)).
    { split; [simpl; apply lookup_insert_eq|]. simpl. by eapply prepare_names. }
    pose proof (keeps_config_sshd_mutate home fuel port now f true Hub Hapart
                  _ _ _ Hhc Hmut) as Hh1.
    destruct e as [rc| |]; try done.
    destruct (sshd_handler_restores rc _ f h1 _ eq_refl Hh1) as (h' & Hk & Hfile & Hops);
      [apply backup_name_nonempty|apply backup_name_differs|done..|].
    exists h'. split_and!; [|by rewrite Hf|by rewrite Hf|done|done].
    assert (Hbody : config_sshd_body E home fuel h00 = (Raise (CalledProcessError rc), h1)).
    { unfold config_sshd_body. erewrite bind_return by exact Hprep.
      erewrite bind_return by exact Hcp. exact Hmut. }
    unfold config_sshd. erewrite bind_return by exact H00.
    by rewrite (try_raise _ _ _ _ _ _ Hbody eq_refl).
  - destruct Hback as (ha & hb & hl & r & Hcheck & Htime & Hprobe & Hcreate & Hcp).
    destruct (run_cp_returned _ _ _ _ _ Hcp) as (f & Hf & ->).
    assert (Hhc : backed_up (backup_name sysctl_conf now) f false
                    (record (Sh (Cp sysctl_conf (backup_name sysctl_conf now)))
                       (Sys (<[backup_name sysctl_conf now := f]> (files (cur hp)))
                            (swaps (cur hp))) hp)).
    { split; [simpl; apply lookup_insert_eq|done]. }
    pose proof (keeps_enable_bbr_mutate now f false Hub _ _ _ Hhc Hmut) as Hh1.
    destruct (bbr_handler_restores _ f false h1 Hh1) as (h' & Hk & Hfile & Hops);
      [apply backup_name_nonempty|apply backup_name_differs|done|].
    exists h'. split_and!; [|by rewrite Hf|by rewrite Hf|done|done].
    assert (Hbody : enable_bbr_body E (backup_name sysctl_conf now) hb = (Raise e, h1)).
    { unfold enable_bbr_body. erewrite bind_return by exact Hprobe. cbn [negb].
      erewrite bind_return by exact Hcreate.
      erewrite bind_return by exact Hcp. exact Hmut. }
    unfold enable_bbr. erewrite bind_return by exact Hcheck. cbn [negb].
    erewrite bind_return by exact Htime.
    by rewrite (try_raise _ _ _ _ _ _ Hbody eq_refl).
Qed.

End Rollback.

(** [sshd -t] rejects the edited file: the file is put back. *)
Lemma transaction_rolls_back_witness :
  let tx := SshdTx (lit "/root") 5 in
  let h0 := boot sshd_host in
  let hp := (config_sshd_prepare sshd_t_fails 5 (set_var "backup_file" [] h0).2).2 in
  let hc := (run sshd_t_fails (Cp sshd_config (backup_name sshd_config 1700000000)) true hp).2 in
  let h1 := (config_sshd_mutate sshd_t_fails (lit "/root") 60000 hc).2 in
  exists h',
    tx_run sshd_t_fails tx h0 = (Return false, h')
    ∧ is_Some (files (cur hp) !! tx_target tx)
    ∧ files (cur h') !! tx_target tx = files (cur hp) !! tx_target tx
    ∧ ops h'
      = ops h1 ++ Sh (Mv (backup_name (tx_target tx) 1700000000) (tx_target tx))
                  :: tx_compensation tx
    ∧ forall h, (enable_bbr_apply sshd_t_fails h).1 ≠ Return false.
Proof.
  intros tx h0 hp hc h1.
  apply (transaction_rolls_back sshd_t_fails tx h0 60000 1700000000 hp hc
           (CalledProcessError 255) h1).
  - exists (set_var "backup_file" [] h0).2, (Completed 0 []).
    split_and!; vm_compute; reflexivity.
  - vm_compute. reflexivity.
  - reflexivity.
  - vm_compute. reflexivity.
  - intros n s. reflexivity.
  - intros n s. reflexivity.
  - split; intros H; vm_compute in H; discriminate H.
Defined.

(** C5 (as stated) fails for [enable_bbr]: when the check at the end does not
    see bbr, the operation returns [True] and the file stays rewritten. *)
Lemma failed_check_is_reported_as_success :
  ¬ failed_validation_rolls_back quiet (one_file sysctl_conf (lit "vm.swappiness=10" ++ [NL])).
Proof.
  intros H.
  set (r := enable_bbr quiet (boot (one_file sysctl_conf (lit "vm.swappiness=10" ++ [NL])))).
  destruct (H (fun _ => eq_refl) r.1 r.2 (surjective_pairing r)) as [Hr _].
  vm_compute in Hr. discriminate Hr.
Qed.


(** * Further properties *)
Import Survey.

(** ** More on the text functions *)

Lemma join_split s : join_nl (split_nl s) = s.
Proof.
  induction s as [|c s IH]; [done|]. simpl.
  pose proof (split_nl_nonempty s) as Hne.
  destruct (N.eqb_spec c NL) as [->|Hc].
  - destruct (split_nl s) as [|l ls] eqn:Hs; [done|].
    change (join_nl ([] :: l :: ls)) with ([] ++ NL :: join_nl (l :: ls)).
    by rewrite IH.
  - destruct (split_nl s) as [|l ls] eqn:Hs; [done|].
    rewrite <- IH. by destruct ls.
Qed.

Lemma startswith_app p s : startswith p (p ++ s) = true.
Proof. induction p as [|c p IH]; [done|]. simpl. by rewrite N.eqb_refl, IH. Qed.

Lemma contains_here p s : startswith p s = true -> contains p s = true.
Proof. intros H. destruct s; simpl in *; by rewrite H. Qed.

Lemma contains_cons p c s : contains p s = true -> contains p (c :: s) = true.
Proof. intros H. simpl. rewrite H. apply orb_true_r. Qed.

Lemma contains_app p a b : contains p (a ++ p ++ b) = true.
Proof.
  induction a as [|c a IH]; [apply contains_here, (startswith_app p b)|].
  by apply contains_cons.
Qed.

Lemma contains_app_r p a b : contains p b = true -> contains p (a ++ b) = true.
Proof. intros H. induction a as [|c a IH]; [done|]. by apply contains_cons. Qed.

(** ** The scan loops keep what is not theirs *)

Lemma ip_scan_sublist s ls : ip_scan s ls `sublist_of` ls.
Proof.
  revert s. induction ls as [|raw rest IH]; intros s; [done|].
  rewrite ip_scan_cons.
  destruct (ip_is_marker (strip raw)); [by apply sublist_cons|].
  match goal with |- context [if ?b then _ else raw :: _] => destruct b end.
  - match goal with |- context [if ?b then _ else _] => destruct b end.
    + by apply sublist_skip.
    + by apply sublist_cons.
  - by apply sublist_skip.
Qed.

(** X1: the scan loop of [configure_ip_priority] only deletes lines: what it
    keeps is kept as it was and in the same order, and every line that is
    not a marker, a precedence or label line, a comment or a blank line is
    kept, inside a block or not. *)
Theorem ip_scan_only_drops_its_own s ls :
  ip_scan s ls `sublist_of` ls
  ∧ filter (fun l => negb (ip_droppable l)) (ip_scan s ls)
    = filter (fun l => negb (ip_droppable l)) ls.
Proof.
  split; [apply ip_scan_sublist|].
  revert s. induction ls as [|raw rest IH]; intros s; [done|].
  rewrite ip_scan_cons.
  destruct (ip_droppable raw) eqn:Hd.
  - rewrite (filter_cons_False _ raw) by (rewrite Hd; simpl; tauto).
    unfold ip_droppable in Hd.
    destruct (ip_is_marker (strip raw)) eqn:Hm; [apply IH|]. cbn [orb] in Hd. rewrite Hd.
    destruct s; cbn [andb].
    + destruct (is_empty (strip raw)), (startswith (lit "#") (strip raw)),
        (startswith (lit "precedence") (strip raw)),
        (startswith (lit "label") (strip raw)); try done; apply IH.
    + rewrite filter_cons_False; [apply IH|].
      unfold ip_droppable. rewrite Hm. cbn [orb]. rewrite Hd. simpl. tauto.
  - rewrite (filter_cons_True _ raw) by (by rewrite Hd).
    assert (Hd' := Hd). unfold ip_droppable in Hd.
    destruct (ip_is_marker (strip raw)); [done|]. cbn [orb] in Hd. rewrite Hd, andb_false_r.
    rewrite filter_cons_True by (by rewrite Hd'). f_equal. apply IH.
Qed.

(** X2: the scan loop of [enable_bbr] keeps every line stripped of the
    blanks around it, in the same order, and deletes nothing but marker
    lines, the two directives and blank lines. *)
Theorem bbr_scan_only_drops_its_own s ls :
  bbr_scan s ls `sublist_of` map strip ls
  ∧ filter (fun l => negb (bbr_droppable l)) (bbr_scan s ls)
    = filter (fun l => negb (bbr_droppable l)) (map strip ls).
Proof.
  split.
  - revert s. induction ls as [|raw rest IH]; intros s; [done|].
    rewrite bbr_scan_cons. cbn [map].
    destruct (bbr_is_marker (strip raw)); [by apply sublist_cons|].
    destruct (s && bbr_is_directive (strip raw)); [by apply sublist_cons|].
    destruct (s && _).
    + destruct (is_empty (strip raw)); cbn [app]; [by apply sublist_cons|by apply sublist_skip].
    + by apply sublist_skip.
  - revert s. induction ls as [|raw rest IH]; intros s; [done|].
    rewrite bbr_scan_cons. cbn [map].
    destruct (bbr_droppable (strip raw)) eqn:Hd.
    + rewrite (filter_cons_False _ (strip raw)) by (rewrite Hd; simpl; tauto).
      unfold bbr_droppable in Hd.
      destruct (bbr_is_marker (strip raw)) eqn:Hm; [apply IH|].
      destruct (bbr_is_directive (strip raw)) eqn:Hdir.
      * destruct s; cbn [andb]; [apply IH|].
        rewrite filter_cons_False; [apply IH|].
        unfold bbr_droppable. rewrite Hm, Hdir. simpl. tauto.
      * cbn [orb] in Hd. rewrite Hd, andb_false_r. cbn [orb].
        destruct s; cbn [andb app]; [apply IH|].
        rewrite filter_cons_False; [apply IH|].
        unfold bbr_droppable. rewrite Hm, Hdir, Hd. simpl. tauto.
    + rewrite (filter_cons_True _ (strip raw)) by (by rewrite Hd).
      assert (Hd' := Hd). unfold bbr_droppable in Hd.
      destruct (bbr_is_marker (strip raw)); [done|].
      destruct (bbr_is_directive (strip raw)); [done|].
      cbn [orb] in Hd. rewrite Hd, andb_false_r. cbn [orb].
      destruct (s && _); cbn [app];
        (rewrite filter_cons_True by (by rewrite Hd')); f_equal; apply IH.
Qed.

(** X3: a change of the preferred family replaces the block:
    [configure_ip_priority] for one family, applied to a file that it wrote
    for the other one, writes what it would have written on the file before
    both. *)
Theorem ip_priority_switch p q c : ip_rewrite q (ip_rewrite p c) = ip_rewrite q c.
Proof.
  rewrite (ip_rewrite_with q (ip_rewrite p c)), (ip_rewrite_with q c), (ip_rewrite_with p c).
  rewrite (rewrite_with_eq ip_scan (ip_block_lines q)).
  destruct (ip_block_facts p) as (? & ? & ?).
  rewrite (scan_rewrite ip_scan ip_is_marker (fun l => l) (ip_block_lines p));
    [|apply ip_scan_plain|apply ip_scan_out|done..].
  by rewrite join_kept.
Qed.

(** The scan of [enable_bbr] on two pieces of a file. *)
Lemma bbr_scan_app a : forall s, exists s', forall b,
  bbr_scan s (a ++ b) = bbr_scan s a ++ bbr_scan s' b.
Proof.
  induction a as [|raw a IH]; intros s; [by exists s|].
  destruct (IH true) as (st & Ht). destruct (IH false) as (sf & Hf).
  destruct (IH s) as (ss & Hs).
  cbn [app]. setoid_rewrite bbr_scan_cons.
  destruct (bbr_is_marker (strip raw)); [by exists st|].
  destruct (s && bbr_is_directive (strip raw)); [by exists ss|].
  exists sf. intros b. rewrite Hf.
  destruct (s && _); [|done]. by rewrite app_assoc.
Qed.


(** ** Commands that are run without [check] *)

Lemma run_unchecked E c h :
  run E c false h
  = (Return (Completed (shell E (tick h) c (cur h)).1.1 (shell E (tick h) c (cur h)).1.2),
     record (Sh c) (shell E (tick h) c (cur h)).2 h).
Proof. unfold run. by destruct (shell E (tick h) c (cur h)) as [[st out] s']. Qed.

Lemma query_unchecked E q h :
  run E (Query q) false h
  = (Return (Completed (status E (tick h)) (answer E (tick h))),
     record (Sh (Query q)) (cur h) h).
Proof.
  unfold run, shell. destruct (status E (tick h) =? 0)%Z eqn:Hs; [|done].
  apply Z.eqb_eq in Hs. simpl. by rewrite Hs.
Qed.

(** ** [enable_bbr] of install_debian.py and of install_alpine.py *)

Lemma older_check_eq E h :
  InstallDebian.check_bbr_enabled E h
  = (Return (contains (lit "bbr") (answer E (tick h))
             && contains (lit "fq") (answer E (S (tick h)))),
     record (Sh (Query (lit "sysctl net.core.default_qdisc"))) (cur h)
       (record (Sh (Query (lit "sysctl net.ipv4.tcp_congestion_control"))) (cur h) h)).
Proof.
  unfold InstallDebian.check_bbr_enabled.
  apply try_return.
  erewrite bind_return by apply query_unchecked.
  erewrite bind_return by apply query_unchecked.
  by rewrite tick_record.
Qed.

(** X5: [enable_bbr] of install_debian.py returns [True] only when its check
    has just passed: the last two commands of the run are the two [sysctl]
    queries, and they printed [bbr] and [fq]. *)
Theorem older_enable_bbr_true E h h' :
  InstallDebian.enable_bbr E h = (Return true, h') ->
  ops h' = take (tick h' - 2) (ops h')
           ++ [ Sh (Query (lit "sysctl net.ipv4.tcp_congestion_control"));
                Sh (Query (lit "sysctl net.core.default_qdisc")) ]
  ∧ contains (lit "bbr") (answer E (tick h' - 2)) = true
  ∧ contains (lit "fq") (answer E (tick h' - 1)) = true.
Proof.
  assert (Hend : forall h0 : host,
    let h2 := record (Sh (Query (lit "sysctl net.core.default_qdisc"))) (cur h0)
                (record (Sh (Query (lit "sysctl net.ipv4.tcp_congestion_control")))
                   (cur h0) h0) in
    contains (lit "bbr") (answer E (tick h0)) && contains (lit "fq") (answer E (S (tick h0)))
    = true ->
    ops h2 = take (tick h2 - 2) (ops h2)
             ++ [ Sh (Query (lit "sysctl net.ipv4.tcp_congestion_control"));
                  Sh (Query (lit "sysctl net.core.default_qdisc")) ]
    ∧ contains (lit "bbr") (answer E (tick h2 - 2)) = true
    ∧ contains (lit "fq") (answer E (tick h2 - 1)) = true).
  { intros h0 h2 [Hb Hf]%andb_true_iff. subst h2. rewrite !tick_record.
    replace (S (S (tick h0)) - 2)%nat with (tick h0) by lia.
    replace (S (S (tick h0)) - 1)%nat with (S (tick h0)) by lia.
    split_and!; [|done..]. cbn [ops record]. rewrite <- app_assoc.
    unfold tick. by rewrite take_app_length. }
  unfold InstallDebian.enable_bbr.
  erewrite bind_return by apply older_check_eq.
  destruct (contains (lit "bbr") (answer E (tick h)) && _) eqn:Hfirst.
  { intros [= <-]. by apply Hend. }
  unfold bind at 1, time_time, try_except.
  match goal with |- context [match ?b ?x with _ => _ end] =>
    destruct (b x) as [[r|e|] h1] eqn:Hbody end.
  - intros [= -> ->].
    apply bind_returned in Hbody as (? & ? & _ & Hbody).
    apply bind_returned in Hbody as (? & ? & _ & Hbody).
    apply bind_returned in Hbody as (? & ? & _ & Hbody).
    apply bind_returned in Hbody as (res & h5 & _ & Hbody).
    destruct (negb _); [done|].
    rewrite (bind_return _ _ _ _ _ (older_check_eq E h5)) in Hbody.
    destruct (contains (lit "bbr") (answer E (tick h5)) && _) eqn:Hlast; [|done].
    injection Hbody as <-. by apply Hend.
  - unfold any_exception. rewrite (bind_return _ _ _ _ _ (run_unchecked E _ h1)). done.
  - done.
Qed.

Lemma older_enable_bbr_true_witness :
  let h' := (InstallDebian.enable_bbr (prints (lit "bbr fq")) (boot (Sys ∅ []))).2 in
  ops h' = take (tick h' - 2) (ops h')
           ++ [ Sh (Query (lit "sysctl net.ipv4.tcp_congestion_control"));
                Sh (Query (lit "sysctl net.core.default_qdisc")) ]
  ∧ contains (lit "bbr") (answer (prints (lit "bbr fq")) (tick h' - 2)) = true
  ∧ contains (lit "fq") (answer (prints (lit "bbr fq")) (tick h' - 1)) = true.
Proof.
  intros h'.
  apply (older_enable_bbr_true (prints (lit "bbr fq")) (boot (Sys ∅ [])) h').
  reflexivity.
Defined.

Lemma count_lines_app P a b :
  count_lines P (a ++ NL :: b) = (count_lines P a + count_lines P b)%nat.
Proof. unfold count_lines. by rewrite split_nl_app, filter_app, length_app. Qed.

(** X6: every run of [enable_bbr] of install_alpine.py that returns [True]
    has appended its two lines to /etc/sysctl.conf once more (utilities
    leaving the file alone): the file has one more line that sets
    [net.ipv4.tcp_congestion_control] than before. *)
Theorem alpine_enable_bbr_appends E h h' t :
  utilities_spare E sysctl_conf ->
  files (cur h) !! sysctl_conf = Some (Regular t) ->
  InstallAlpine.enable_bbr E h = (Return true, h') ->
  files (cur h') !! sysctl_conf = Some (Regular (t ++ alpine_bbr_lines))
  ∧ count_lines is_cc_line (t ++ alpine_bbr_lines) = S (count_lines is_cc_line t).
Proof.
  intros Hu Hf Hrun0. split.
  2:{ unfold alpine_bbr_lines. rewrite count_lines_app.
      match goal with |- (_ + ?n)%nat = _ => assert (Hc : n = 1%nat) by (by vm_compute) end.
      rewrite Hc. lia. }
  revert Hrun0. unfold InstallAlpine.enable_bbr, try_except.
  match goal with |- context [match ?b ?x with _ => _ end] =>
    destruct (b x) as [[r|e|] h1] eqn:Hbody end; [|done..].
  intros [= -> ->].
  apply bind_returned in Hbody as ([] & h2 & Hopen & Hbody).
  apply bind_returned in Hbody as ([] & h3 & Hwrite & Hbody).
  apply bind_returned in Hbody as (res & h4 & Hrun & Hbody).
  injection Hbody as <-.
  unfold open_a in Hopen. destruct (negb _); [done|]. rewrite Hf in Hopen.
  injection Hopen as <-.
  unfold write in Hwrite. destruct (negb _); [done|]. injection Hwrite as <-.
  unfold run, shell in Hrun. rewrite !tick_record in Hrun.
  destruct (status E (S (S (tick h))) =? 0)%Z eqn:Hs; simpl in Hrun.
  - injection Hrun as _ <-. cbn [cur record]. rewrite Hu.
    unfold append_to. rewrite Hf. simpl. apply lookup_insert_eq.
  - by rewrite Hs in Hrun.
Qed.

Lemma alpine_enable_bbr_appends_witness :
  let t := lit "vm.swappiness=10" ++ [NL] in
  let h' := (InstallAlpine.enable_bbr quiet (boot (one_file sysctl_conf t))).2 in
  files (cur h') !! sysctl_conf = Some (Regular (t ++ alpine_bbr_lines))
  ∧ count_lines is_cc_line (t ++ alpine_bbr_lines) = S (count_lines is_cc_line t).
Proof.
  intros t h'.
  apply (alpine_enable_bbr_appends quiet (boot (one_file sysctl_conf t)) h' t).
  - intros n s. reflexivity.
  - by vm_compute.
  - reflexivity.
Defined.

(** ** [ConfigManager]: what is left alone *)

(** X7: [atomic_write] changes no file but the path and its [.tmp]
    sibling, however it ends; when it returns [True] the [.tmp] file is gone. *)
Theorem atomic_write_frame E path content h :
  (forall q, q ≠ path -> q ≠ path ++ lit ".tmp" ->
     files (cur (atomic_write E path content h).2) !! q = files (cur h) !! q)
  ∧ ((atomic_write E path content h).1 = Return true ->
     files (cur (atomic_write E path content h).2) !! (path ++ lit ".tmp") = None).
Proof.
  assert (Htmp : path ++ lit ".tmp" ≠ path) by by apply suffix_differs.
  unfold atomic_write, try_except, bind, open_w, any_exception, ret.
  destruct (status E (tick h) =? 0)%Z eqn:H0; simpl; [|done].
  unfold write. rewrite tick_record.
  destruct (status E (S (tick h)) =? 0)%Z eqn:H1; simpl.
  2:{ split; [|done]. intros q Hq Hqt. rewrite lookup_append_to by done.
      simpl. by rewrite lookup_insert_ne. }
  unfold os_replace. rewrite !tick_record.
  rewrite append_to_insert.
  destruct (status E (S (S (tick h))) =? 0)%Z eqn:H2; simpl.
  - rewrite lookup_insert_eq. simpl. split.
    + intros q Hq Hqt. rewrite lookup_insert_ne by done.
      rewrite lookup_delete_ne by done. by rewrite lookup_insert_ne.
    + intros _. rewrite lookup_insert_ne by done. apply lookup_delete_eq.
  - split; [|done]. intros q Hq Hqt. by rewrite lookup_insert_ne.
Qed.



(** ** [increase_swap]: creating the swap file *)

Lemma listing_tokens_any existing ty rest :
  existing ≠ [] -> Forall (fun c => isspace c = false) existing ->
  strip (swapon_listing ((existing, ty) :: rest)) ≠ []
  ∧ split_ws (swapon_listing ((existing, ty) :: rest)) !! 1%nat = Some (swap_type_name ty)
  ∧ split_ws (swapon_listing ((existing, ty) :: rest)) !! 0%nat = Some existing.
Proof.
  intros Hne Hw. unfold swapon_listing. cbn [map concat fst snd].
  rewrite <- !app_assoc. split; [by apply strip_word|].
  change (lit " " ++ swap_type_name ty ++ [NL] ++ concat
            (map (fun a => a.1 ++ lit " " ++ swap_type_name a.2 ++ [NL]) rest))
    with (32 :: swap_type_name ty ++ NL ::
          concat (map (fun a => a.1 ++ lit " " ++ swap_type_name a.2 ++ [NL]) rest)).
  rewrite split_ws_word by done.
  rewrite (split_ws_word (swap_type_name ty)); [done| | |done].
  - by destruct ty.
  - destruct ty; by repeat constructor.
Qed.

Section CreateSwap.
Variable E : environment.

(** The five commands of [create_swapfile], when they are let through on a
    host where /swapfile is not in use and /etc/fstab is a text. *)
Lemma create_swapfile_ok size h t :
  (forall i, (tick h <= i < tick h + 5)%nat -> status E i = 0%Z) ->
  swap_file ∉ (swaps (cur h)).*1 ->
  files (cur h) !! fstab = Some (Regular t) ->
  let s1 := Sys (<[swap_file := Allocated size]> (files (cur h))) (swaps (cur h)) in
  let s4 := Sys (files s1) (swaps (cur h) ++ [(swap_file, SwapFile)]) in
  let s5 := Sys (<[fstab := Regular (t ++ (swap_file ++ lit " none swap sw 0 0") ++ [NL])]>
                   (files s1)) (swaps s4) in
  create_swapfile E size h
  = (Return tt,
     Host s5
       (ops h ++ [ Sh (Fallocate size swap_file); Sh (Chmod (lit "600") swap_file);
                   Sh (Mkswap swap_file); Sh (Swapon swap_file);
                   Sh (Echo (swap_file ++ lit " none swap sw 0 0") fstab) ])
       (seen h ++ [s1; s1; s1; s4; s5]) (vars h)).
Proof.
  intros Hst Hfree Hfstab s1 s4 s5.
  unfold create_swapfile. cbn [run_each].
  set (h1 := record (Sh (Fallocate size swap_file)) s1 h).
  set (h2 := record (Sh (Chmod (lit "600") swap_file)) s1 h1).
  set (h3 := record (Sh (Mkswap swap_file)) s1 h2).
  set (h4 := record (Sh (Swapon swap_file)) s4 h3).
  set (h5 := record (Sh (Echo (swap_file ++ lit " none swap sw 0 0") fstab)) s5 h4).
  assert (T1 : tick h1 = (tick h + 1)%nat) by (subst h1; rewrite tick_record; lia).
  assert (T2 : tick h2 = (tick h + 2)%nat) by (subst h2; rewrite tick_record; lia).
  assert (T3 : tick h3 = (tick h + 3)%nat) by (subst h3; rewrite tick_record; lia).
  assert (T4 : tick h4 = (tick h + 4)%nat) by (subst h4; rewrite tick_record; lia).
  assert (Hthere : exists_ s1 swap_file = true).
  { unfold exists_. subst s1. cbn [files]. rewrite lookup_insert_eq.
    by rewrite bool_decide_eq_true_2 by eauto. }
  assert (R1 : run E (Fallocate size swap_file) false h = (Return (Completed 0 []), h1)).
  { apply run_done; [apply Hst; lia|done]. }
  assert (R2 : run E (Chmod (lit "600") swap_file) false h1 = (Return (Completed 0 []), h2)).
  { apply run_done; [apply Hst; lia|]. cbn [exec]. change (cur h1) with s1. by rewrite Hthere. }
  assert (R3 : run E (Mkswap swap_file) false h2 = (Return (Completed 0 []), h3)).
  { apply run_done; [apply Hst; lia|]. cbn [exec]. change (cur h2) with s1. by rewrite Hthere. }
  assert (R4 : run E (Swapon swap_file) false h3 = (Return (Completed 0 []), h4)).
  { apply run_done; [apply Hst; lia|]. cbn [exec]. change (cur h3) with s1.
    rewrite Hthere. unfold active. by rewrite bool_decide_eq_false_2 by done. }
  assert (R5 : run E (Echo (swap_file ++ lit " none swap sw 0 0") fstab) false h4
               = (Return (Completed 0 []), h5)).
  { apply run_done; [apply Hst; lia|]. cbn [exec]. change (cur h4) with s4.
    subst s4 s1. cbn [files]. rewrite lookup_insert_ne by done. by rewrite Hfstab. }
  erewrite bind_return by exact R1. cbn [returncode Z.eqb negb].
  erewrite bind_return by exact R2. cbn [returncode Z.eqb negb].
  erewrite bind_return by exact R3. cbn [returncode Z.eqb negb].
  erewrite bind_return by exact R4. cbn [returncode Z.eqb negb].
  erewrite bind_return by exact R5. cbn [returncode Z.eqb negb].
  unfold ret. f_equal. subst h5 h4 h3 h2 h1. unfold record. cbn [cur ops seen vars].
  by rewrite <- !app_assoc.
Qed.

(** X10: on a host without an active swap area, and when nothing fails,
    [increase_swap] returns [True] after the detection and the five commands
    of [create_swapfile]; /swapfile is then allocated with the size asked
    for and is the one active area, and /etc/fstab has got the text
    [/swapfile none swap sw 0 0] and a newline at its end. *)
Theorem increase_swap_creates size s t :
  (forall i, (i < 6)%nat -> status E i = 0%Z) ->
  swaps s = [] ->
  files s !! fstab = Some (Regular t) ->
  exists h',
    increase_swap E size (boot s) = (Return true, h')
    ∧ ops h' = [ Sh SwaponShow; Sh (Fallocate size swap_file);
                 Sh (Chmod (lit "600") swap_file); Sh (Mkswap swap_file);
                 Sh (Swapon swap_file);
                 Sh (Echo (swap_file ++ lit " none swap sw 0 0") fstab) ]
    ∧ swaps (cur h') = [(swap_file, SwapFile)]
    ∧ files (cur h') !! swap_file = Some (Allocated size)
    ∧ files (cur h') !! fstab
      = Some (Regular (t ++ lit "/swapfile none swap sw 0 0" ++ [NL])).
Proof.
  intros Hst Hsw Hfstab.
  set (h1 := record (Sh SwaponShow) s (boot s)).
  assert (R1 : run E SwaponShow false (boot s)
               = (Return (Completed 0 (swapon_listing (swaps s))), h1)).
  { apply run_done; [apply (Hst 0%nat); lia|done]. }
  pose proof (create_swapfile_ok size h1 t) as R2.
  eexists. split.
  { unfold increase_swap. apply try_return.
    erewrite bind_return by exact R1. cbn [returncode stdout]. rewrite Hsw.
    change (is_empty (strip (swapon_listing []))) with true. cbn [Z.eqb negb orb].
    erewrite bind_return; [reflexivity|]. apply R2.
    - intros i Hi. apply Hst. subst h1. rewrite tick_record in Hi.
      change (tick (boot s)) with 0%nat in Hi. lia.
    - cbn [cur h1 record]. rewrite Hsw. by inversion 1.
    - done. }
  subst h1. cbn [cur ops swaps files record boot app]. rewrite Hsw. split_and!; [done|done| |].
  - cbn [files]. rewrite lookup_insert_ne by done. by rewrite lookup_insert_eq.
  - cbn [files]. by rewrite lookup_insert_eq.
Qed.


End CreateSwap.

(** ** [increase_swap]: the clean-up after a failure *)

Section Locals.
Variable E : environment.
Variable P : host -> Prop.
Hypothesis P_locals : forall h o s', P h -> P (record o s' h).

Lemma keeps_run_locals c check : keeps P (run E c check).
Proof.
  intros h r h' HP. unfold run.
  destruct (shell E (tick h) c (cur h)) as [[st out] s'].
  destruct (check && negb (st =? 0)%Z); intros [= <- <-]; by apply P_locals.
Qed.

Lemma keeps_read_text_locals q : keeps P (read_text E q).
Proof.
  intros h r h' HP. unfold read_text.
  destruct (negb _); [intros [= <- <-]; by apply P_locals|].
  destruct (files (cur h) !! q) as [[| |]|]; intros [= <- <-]; by apply P_locals.
Qed.

Lemma keeps_write_locals q data : keeps P (write E q data).
Proof.
  intros h r h' HP. unfold write. destruct (negb _); intros [= <- <-]; by apply P_locals.
Qed.

Lemma keeps_overwrite_locals q data : keeps P (overwrite E q data).
Proof.
  intros h r h' HP. unfold overwrite. destruct (negb _); intros [= <- <-]; by apply P_locals.
Qed.

Lemma keeps_run_each_locals msg cmds : keeps P (run_each E msg cmds).
Proof.
  induction cmds as [|c cmds IH]; [apply keeps_ret|].
  simpl. apply keeps_bind; [apply keeps_run_locals|]. intros r.
  destruct (negb _); [apply keeps_raise|exact IH].
Qed.

Lemma keeps_update_fstab_locals existing : keeps P (update_fstab E existing).
Proof.
  unfold update_fstab. apply keeps_bind; [apply keeps_read_text_locals|]. intros content.
  destruct (negb _); [apply keeps_write_locals|].
  destruct (negb _); [apply keeps_overwrite_locals|apply keeps_ret].
Qed.

End Locals.

Lemma lookup_foldr_delete_in (m : gmap text file) ps p :
  p ∈ ps -> foldr delete m ps !! p = None.
Proof.
  induction ps as [|q ps IH]; [by inversion 1|]. simpl.
  destruct (decide (p = q)) as [->|Hne]; [intros _; apply lookup_delete_eq|].
  intros [?|H]%elem_of_cons; [done|]. rewrite lookup_delete_ne by done. by apply IH.
Qed.

Lemma swapoff_names E n p q s :
  q ∉ (swaps s).*1 -> q ∉ (swaps (exec E n (Swapoff p) s).2).*1.
Proof.
  intros Hq. cbn [exec]. destruct (active s p); [|done]. cbn [snd swaps].
  by apply filter_names.
Qed.

Lemma swapoff_gone E n p s : p ∉ (swaps (exec E n (Swapoff p) s).2).*1.
Proof.
  cbn [exec]. unfold active. destruct (decide (p ∈ (swaps s).*1)) as [Hin|Hout].
  - rewrite bool_decide_eq_true_2 by done. cbn [snd swaps].
    intros (a & -> & Ha)%list_elem_of_fmap. by apply list_elem_of_filter in Ha as [Hne _].
  - by rewrite bool_decide_eq_false_2.
Qed.

Lemma exec_semi_state E n c1 c2 s :
  (exec E n (Semi c1 c2) s).2 = (exec E n c2 (exec E n c1 s).2).2.
Proof.
  cbn [exec]. destruct (exec E n c1 s) as [[st out] s1]. cbn [snd].
  by destruct (exec E n c2 s1) as [[st2 out2] s2].
Qed.

Section SwapCleanup.
Variable E : environment.

Lemma swap_cleanup_steps existing h :
  vars h !! "existing_file" = Some existing -> existing ≠ [] ->
  exists h', swap_cleanup E h = (Return false, h') ∧ tick h' = S (S (tick h)).
Proof.
  intros Hv Hne. destruct existing as [|c w]; [done|].
  unfold swap_cleanup.
  erewrite bind_return by reflexivity. rewrite Hv.
  erewrite bind_return by reflexivity.
  cbn [truthy app map semi_all].
  rewrite (bind_return _ _ _ _ _ (bind_return _ _ _ _ _ (run_unchecked E _ h))).
  unfold ret at 1.
  rewrite (bind_return _ _ _ _ _ (run_unchecked E _ _)).
  eexists. split; [reflexivity|]. by rewrite !tick_record.
Qed.

(** The [except] clause of [increase_swap], once [existing_file] is bound. *)
Lemma swap_cleanup_removes existing h :
  vars h !! "existing_file" = Some existing -> existing ≠ [] ->
  status E (tick h) = 0%Z -> status E (S (tick h)) = 0%Z ->
  exists h',
    swap_cleanup E h = (Return false, h')
    ∧ tick h' = S (S (tick h))
    ∧ active (cur h') existing = false
    ∧ files (cur h') !! existing = None
    ∧ files (cur h') !! swap_file = None
    ∧ exists others,
        ops h' = ops h ++ [ Sh (Semi (Swapoff existing) (Swapoff swap_file));
                            Sh (Rm (swap_file :: existing :: others)) ].
Proof.
  intros Hv Hne Hs0 Hs1. destruct existing as [|c w]; [done|].
  unfold swap_cleanup.
  erewrite bind_return by reflexivity. rewrite Hv.
  erewrite bind_return by reflexivity.
  cbn [truthy app map semi_all].
  set (stop := Semi (Swapoff (c :: w)) (Swapoff swap_file)).
  rewrite (bind_return _ _ _ _ _ (bind_return _ _ _ _ _ (run_unchecked E stop h))).
  unfold ret at 1.
  set (h1 := record (Sh stop) (shell E (tick h) stop (cur h)).2 h).
  rewrite (bind_return _ _ _ _ _ (run_unchecked E _ h1)).
  eexists. split; [reflexivity|].
  assert (Hoff : (c :: w) ∉ (swaps (cur h1)).*1).
  { subst h1. cbn [cur record]. unfold shell. rewrite Hs0. cbn [Z.eqb].
    subst stop. rewrite exec_semi_state. apply swapoff_names, swapoff_gone. }
  assert (Ht1 : tick h1 = S (tick h)) by apply tick_record.
  unfold shell. rewrite Ht1, Hs1. cbn [Z.eqb exec snd fst cur record files swaps].
  split_and!.
  - by rewrite tick_record, Ht1.
  - unfold active. by rewrite bool_decide_eq_false_2.
  - apply lookup_foldr_delete_in. set_solver.
  - apply lookup_foldr_delete_in. set_solver.
  - eexists. subst h1. cbn [ops record]. rewrite <- app_assoc. reflexivity.
Qed.

(** X12: when [increase_swap] returns [False] on a host where the detection
    found a swap area, the clean-up has switched that area off and has run
    [rm -f] on its path (a swap file that was to be resized, or the device of
    a partition), along with /swapfile: once the two clean-up commands are let
    through, the old area is neither active nor on disk. *)
Theorem failed_swap_removes_existing size existing ty rest s h' :
  swaps s = (existing, ty) :: rest ->
  existing ≠ [] ->
  Forall (fun c => isspace c = false) existing ->
  status E 0 = 0%Z ->
  increase_swap E size (boot s) = (Return false, h') ->
  status E (tick h' - 2) = 0%Z ->
  status E (tick h' - 1) = 0%Z ->
  active (cur h') existing = false
  ∧ files (cur h') !! existing = None
  ∧ exists others,
      drop (tick h' - 2) (ops h')
      = [ Sh (Semi (Swapoff existing) (Swapoff swap_file));
          Sh (Rm (swap_file :: existing :: others)) ].
Proof.
  intros Hsw Hne Hword Hs0 Hrun Hc1 Hc2.
  destruct (listing_tokens_any existing ty rest Hne Hword) as (Hstrip & Htype & Hname).
  set (h1 := record (Sh SwaponShow) s (boot s)).
  assert (R1 : run E SwaponShow false (boot s)
               = (Return (Completed 0 (swapon_listing (swaps s))), h1)).
  { by apply run_done. }
  set (h1v := Host (cur h1) (ops h1) (seen h1) (<["existing_file" := existing]> (vars h1))).
  set (P := fun h : host => vars h !! "existing_file" = Some existing).
  assert (HP : forall h o s', P h -> P (record o s' h)) by done.
  revert Hrun. unfold increase_swap, try_except.
  erewrite bind_return by exact R1. cbn [returncode stdout]. rewrite Hsw.
  destruct (strip (swapon_listing ((existing, ty) :: rest))) eqn:Hst'; [done|].
  cbn [is_empty orb negb Z.eqb]. rewrite Htype, Hname.
  erewrite bind_return by reflexivity. fold h1v.
  match goal with |- match ?b h1v with _ => _ end = _ -> _ =>
    assert (Hkeep : keeps P b -> P (b h1v).2)
      by (intros K; by apply (K h1v _ _ eq_refl (surjective_pairing (b h1v))));
    destruct (b h1v) as [[r|e|] h2] eqn:Hbody end; cbn [fst snd] in Hkeep.
  - (* the rest of the body never returns [False] *)
    intros [= -> ->]. exfalso. clear Hkeep.
    apply bind_returned in Hbody as (? & ? & _ & Hbody).
    apply bind_returned in Hbody as (chk & ? & _ & Hbody).
    by destruct (negb _).
  - unfold any_exception. intros Hclean.
    assert (HP2 : P h2).
    { apply Hkeep. clear Hkeep Hbody Hclean.
      apply keeps_bind.
      { destruct (bool_decide _); [by apply keeps_run_each_locals|].
        destruct (bool_decide _); [|apply keeps_ret].
        unfold resize_swap_file.
        apply keeps_bind.
        { intros h r h0 Hh [= <- <-]. unfold P in *. cbn [vars].
          by rewrite lookup_insert_ne. }
        intros _.
        do 5 (apply keeps_bind; [by apply keeps_run_locals|]; intros _).
        by apply keeps_update_fstab_locals. }
      intros _. apply keeps_bind; [by apply keeps_run_locals|]. intros chk.
      destruct (negb _); [apply keeps_raise|apply keeps_ret]. }
    destruct (swap_cleanup_steps existing h2 HP2 Hne) as (h3 & Hrun3 & Hi).
    rewrite Hrun3 in Hclean. injection Hclean as <-. rewrite Hi in Hc1, Hc2.
    replace (S (S (tick h2)) - 2)%nat with (tick h2) in Hc1 by lia.
    replace (S (S (tick h2)) - 1)%nat with (S (tick h2)) in Hc2 by lia.
    destruct (swap_cleanup_removes existing h2 HP2 Hne Hc1 Hc2)
      as (h4 & Hrun4 & _ & Hoff & Hgone & _ & others & Hops).
    rewrite Hrun3 in Hrun4. injection Hrun4 as <-.
    split_and!; [done|done|]. exists others.
    replace (tick h3 - 2)%nat with (length (ops h2)).
    + by rewrite Hops, drop_app_length.
    + unfold tick. rewrite Hops, length_app. simpl. lia.
  - done.
Qed.

End SwapCleanup.

(** ** Exceptions never leave the operations *)

Section Settling.
Variable E : environment.

Lemma halts_ret {A} (a : A) : halts (ret a).
Proof. by intros h. Qed.

Lemma halts_raise {A} e : halts (@raise A e).
Proof. by intros h. Qed.

Lemma halts_bind {A B} (m : M A) (k : A -> M B) :
  halts m -> (forall a, halts (k a)) -> halts (x <- m ;; k x).
Proof.
  intros Hm Hk h. unfold bind. specialize (Hm h).
  destruct (m h) as [[a|e|] h1]; [apply Hk|done|done].
Qed.

Lemma halts_try {A} (m : M A) handler :
  halts m -> (forall e k, handler e = Some k -> halts k) -> halts (try_except m handler).
Proof.
  intros Hm Hk h. unfold try_except. specialize (Hm h).
  destruct (m h) as [[a|e|] h1]; [done| |done].
  destruct (handler e) as [k|] eqn:He; [by eapply Hk|done].
Qed.

Lemma settles_halts {A} (m : M A) : settles m -> halts m.
Proof. intros Hm h. by destruct (Hm h) as (a & h' & ->). Qed.

Lemma settles_ret {A} (a : A) : settles (ret a).
Proof. intros h. by exists a, h. Qed.

Lemma settles_bind {A B} (m : M A) (k : A -> M B) :
  settles m -> (forall a, settles (k a)) -> settles (x <- m ;; k x).
Proof.
  intros Hm Hk h. destruct (Hm h) as (a & h1 & Hr). unfold bind. rewrite Hr. apply Hk.
Qed.

(** [try: ... except Exception: ...] with a handler that returns. *)
Lemma settles_try {A} (m : M A) (k : M A) :
  halts m -> settles k -> settles (try_except m (any_exception k)).
Proof.
  intros Hm Hk h. unfold try_except. specialize (Hm h).
  destruct (m h) as [[a|e|] h1]; [by exists a, h1| |done]. apply Hk.
Qed.

Lemma settles_run c : settles (run E c false).
Proof. intros h. rewrite run_unchecked. by eexists _, _. Qed.

Lemma halts_run c check : halts (run E c check).
Proof.
  intros h. unfold run. destruct (shell E (tick h) c (cur h)) as [[st out] s'].
  by destruct (check && negb (st =? 0)%Z).
Qed.

Lemma settles_path_exists q : settles (path_exists q).
Proof. intros h. by eexists _, _. Qed.

Lemma settles_get_var x : settles (get_var x).
Proof. intros h. by eexists _, _. Qed.

Lemma settles_set_var x v : settles (set_var x v).
Proof. intros h. by eexists _, _. Qed.

Lemma settles_time_time : settles (time_time E).
Proof. intros h. by eexists _, _. Qed.

Lemma settles_sleep : settles sleep.
Proof. intros h. by eexists _, _. Qed.

Lemma halts_read_text q : halts (read_text E q).
Proof.
  intros h. unfold read_text. destruct (negb _); [done|].
  by destruct (files (cur h) !! q) as [[| |]|].
Qed.

Lemma halts_open_w q : halts (open_w E q).
Proof. intros h. unfold open_w. by destruct (negb _). Qed.

Lemma halts_write q data : halts (write E q data).
Proof. intros h. unfold write. by destruct (negb _). Qed.

Lemma halts_overwrite q data : halts (overwrite E q data).
Proof. intros h. unfold overwrite. by destruct (negb _). Qed.

Lemma halts_write_all q chunks : halts (write_all E q chunks).
Proof.
  induction chunks as [|d chunks IH]; [apply halts_ret|].
  simpl. apply halts_bind; [apply halts_write|]. intros _. exact IH.
Qed.

Lemma halts_write_file q chunks : halts (write_file E q chunks).
Proof. apply halts_bind; [apply halts_open_w|]. intros _. apply halts_write_all. Qed.

Lemma halts_rewrite_step q w : halts (rewrite_step E q w).
Proof. apply halts_bind; [apply halts_read_text|]. intros ?. apply halts_write_file. Qed.

Lemma halts_run_each msg cmds : halts (run_each E msg cmds).
Proof.
  induction cmds as [|c cmds IH]; [apply halts_ret|].
  simpl. apply halts_bind; [apply halts_run|]. intros r.
  destruct (negb _); [apply halts_raise|exact IH].
Qed.

Lemma settles_check_bbr_enabled : settles (check_bbr_enabled E).
Proof.
  apply settles_try; [|apply settles_ret].
  repeat (apply halts_bind; [apply halts_run|]; intros ?). apply halts_ret.
Qed.

Lemma settles_restore_if_present b target : settles (restore_if_present E b target).
Proof.
  unfold restore_if_present. destruct b as [|c b]; [apply settles_ret|].
  apply settles_bind; [apply settles_path_exists|]. intros present.
  destruct present; [|apply settles_ret].
  apply settles_bind; [apply settles_run|]. intros _. apply settles_ret.
Qed.

Lemma settles_swap_cleanup : settles (swap_cleanup E).
Proof.
  unfold swap_cleanup.
  apply settles_bind; [apply settles_get_var|]. intros existing.
  apply settles_bind; [apply settles_get_var|]. intros tmp.
  apply settles_bind.
  { destruct (map Swapoff _); [apply settles_ret|].
    apply settles_bind; [apply settles_run|]. intros _. apply settles_ret. }
  intros _. apply settles_bind; [apply settles_run|]. intros _. apply settles_ret.
Qed.

Ltac halting :=
  repeat first
    [ apply halts_ret | apply halts_raise | apply halts_run | apply halts_read_text
    | apply halts_write | apply halts_overwrite | apply halts_write_file
    | apply halts_rewrite_step | apply halts_run_each
    | apply settles_halts;
      first [ apply settles_set_var | apply settles_path_exists | apply settles_sleep
            | apply settles_check_bbr_enabled | apply settles_time_time ]
    | apply halts_bind; [|intros ?]
    | match goal with
      | |- halts (if ?b then _ else _) => destruct b
      | |- halts (match ?x with _ => _ end) => destruct x
      end ].


End Settling.

(** ** The edits of [config_sshd] *)

Lemma lit_cons a s : lit (String a s) = Ascii.N_of_ascii a :: lit s.
Proof. reflexivity. Qed.

Lemma pretty_N_go_chars (Q : N -> Prop) :
  (forall d, Q (Ascii.N_of_ascii (pretty_N_char d))) ->
  forall x s, Forall Q (lit s) -> Forall Q (lit (pretty_N_go x s)).
Proof.
  intros Hd x. induction (N.lt_wf_0 x) as [x _ IH]. intros s Hs.
  destruct (decide (x = 0)) as [->|Hx]; [by rewrite pretty_N_go_0|].
  rewrite pretty_N_go_step by lia. apply IH.
  - apply N.div_lt; lia.
  - rewrite lit_cons. by constructor.
Qed.

(** [str(n)] is made of digits and, at most, a sign. *)
Lemma str_int_chars (Q : N -> Prop) z :
  (forall c, 48 <= c <= 57 -> Q c) -> Q 45 -> Forall Q (str_int z).
Proof.
  intros Hdigit Hdash.
  assert (Hd : forall d, Q (Ascii.N_of_ascii (pretty_N_char d))).
  { intros d. apply Hdigit. unfold pretty_N_char.
    repeat case_match; vm_compute; split; discriminate. }
  assert (Hn : forall n : N, Forall Q (lit (pretty n))).
  { intros n. unfold pretty, pretty_N. case_decide.
    - repeat constructor. apply Hdigit. vm_compute. split; discriminate.
    - apply pretty_N_go_chars; [done|constructor]. }
  unfold str_int. destruct z as [|p|p].
  - repeat constructor. apply Hdigit. vm_compute. split; discriminate.
  - apply Hn.
  - change (pretty (Z.neg p)) with (String (Ascii.ascii_of_N 45) (pretty (N.pos p))).
    rewrite lit_cons. constructor; [done|apply Hn].
Qed.

Lemma str_int_line z : NL ∉ str_int z.
Proof.
  intros Hin.
  pose proof (str_int_chars (fun c => c ≠ NL) z) as H.
  rewrite Forall_forall in H. eapply H; [| |exact Hin|done].
  - intros c Hc ->. vm_compute in Hc. destruct Hc as [Hc _]. by apply Hc.
  - done.
Qed.

Lemma startswith_prefix p l : startswith p l = true -> exists r, l = p ++ r.
Proof.
  revert l. induction p as [|c p IH]; intros l; [by exists l|].
  destruct l as [|d l]; [done|]. simpl.
  intros [Hc Hp]%andb_true_iff. apply N.eqb_eq in Hc as ->.
  destruct (IH _ Hp) as (r & ->). by exists r.
Qed.

Lemma sed_line_nl pat d repl l : NL ∉ repl -> NL ∉ l -> NL ∉ sed_line pat d repl l.
Proof.
  intros Hr Hl. unfold sed_line. destruct (startswith pat l); [|done].
  destruct d; [done|]. intros [H|H]%elem_of_app; [done|].
  apply Hl. by eapply subseteq_drop.
Qed.

Lemma sed_subst_join pat d repl ls :
  ls ≠ [] -> Forall (fun l => NL ∉ l) ls ->
  sed_subst pat d repl (join_nl ls) = join_nl (map (sed_line pat d repl) ls).
Proof. intros Hne Hls. unfold sed_subst. by rewrite split_join. Qed.

Section SshdEdits.
Variable E : environment.

Lemma run_all_checked_app cmds1 cmds2 h h1 :
  run_all_checked E cmds1 h = (Return tt, h1) ->
  run_all_checked E (cmds1 ++ cmds2) h = run_all_checked E cmds2 h1.
Proof.
  revert h. induction cmds1 as [|c cmds1 IH]; intros h; [by intros [= <-]|].
  simpl. intros (r & h0 & Hc & Hrest)%bind_returned.
  erewrite bind_return by exact Hc. by apply IH.
Qed.

(** The [sed] commands of a list, let through one after the other, edit the
    file line by line. *)
Lemma run_seds_ok p cmds : forall h ls,
  Forall (sed_on p) cmds ->
  ls ≠ [] -> Forall (fun l => NL ∉ l) ls ->
  files (cur h) !! p = Some (Regular (join_nl ls)) ->
  (forall i, (tick h <= i < tick h + length cmds)%nat -> status E i = 0%Z) ->
  exists h',
    run_all_checked E cmds h = (Return tt, h')
    ∧ files (cur h') !! p = Some (Regular (join_nl (map (sed_lines cmds) ls)))
    ∧ tick h' = (tick h + length cmds)%nat.
Proof.
  induction cmds as [|c cmds IH]; intros h ls Hcmds Hne Hls Hf Hst.
  { exists h. split_and!; [done| |simpl; lia]. by rewrite map_id. }
  apply Forall_cons in Hcmds as [Hc Hcmds].
  destruct c as [| | | | |pat d repl q| | | | | | | | | | |]; try done.
  destruct Hc as [-> Hrepl].
  set (h1 := record (Sh (Sed pat d repl p))
               (Sys (<[p := Regular (sed_subst pat d repl (join_nl ls))]> (files (cur h)))
                    (swaps (cur h))) h).
  assert (R : run E (Sed pat d repl p) true h = (Return (Completed 0 []), h1)).
  { apply run_done; [apply Hst; simpl; lia|]. cbn [exec]. by rewrite Hf. }
  destruct (IH h1 (map (sed_line pat d repl) ls)) as (h' & Hrun & Hfile & Htick).
  - done.
  - by destruct ls.
  - apply Forall_forall. intros l (l0 & -> & Hl0)%list_elem_of_fmap.
    apply sed_line_nl; [done|]. by apply (proj1 (Forall_forall _ _) Hls).
  - subst h1. cbn [cur record files]. rewrite lookup_insert_eq. by rewrite sed_subst_join.
  - intros i Hi. apply Hst. subst h1. rewrite tick_record in Hi. simpl. lia.
  - exists h'. split_and!.
    + simpl. erewrite bind_return by exact R. exact Hrun.
    + rewrite Hfile. do 2 f_equal. rewrite map_map. done.
    + rewrite Htick. subst h1. rewrite tick_record. simpl. lia.
Qed.

(** X14: the nine commands of [config_sshd], when they are let through, edit
    /etc/ssh/sshd_config line by line, each line by the seven substitutions
    in their order, and then append the line [AllowUsers root]. *)
Theorem config_commands_edit port h t :
  (forall i, (tick h <= i < tick h + 9)%nat -> status E i = 0%Z) ->
  files (cur h) !! sshd_config = Some (Regular t) ->
  exists h',
    run_all_checked E (config_commands port) h = (Return tt, h')
    ∧ files (cur h') !! sshd_config
      = Some (Regular (join_nl (map (sed_lines (config_commands port)) (split_nl t))
                       ++ lit "AllowUsers root" ++ [NL])).
Proof.
  intros Hst Hf.
  destruct (run_seds_ok sshd_config (take 7 (config_commands port)) h (split_nl t))
    as (h7 & Hrun & Hfile & Htick).
  - pose proof (str_int_line port) as Hport.
    repeat constructor; try (by apply (bool_decide_unpack _)).
    intros [H|H]%elem_of_app; [|done]. revert H. by apply (bool_decide_unpack _).
  - apply split_nl_nonempty.
  - apply Forall_forall. intros l. apply split_nl_lines.
  - by rewrite join_split.
  - intros i Hi. apply Hst. simpl in Hi. lia.
  - change (config_commands port)
      with (take 7 (config_commands port)
            ++ [Echo (lit "AllowUsers root") sshd_config;
                RmGlob (lit "/etc/ssh/sshd_config.d")]) at 1.
    rewrite (run_all_checked_app _ _ _ _ Hrun).
    set (s8 := Sys (<[sshd_config :=
                        Regular (join_nl (map (sed_lines (take 7 (config_commands port)))
                                            (split_nl t)) ++ lit "AllowUsers root" ++ [NL])]>
                      (files (cur h7))) (swaps (cur h7))).
    set (h8 := record (Sh (Echo (lit "AllowUsers root") sshd_config)) s8 h7).
    assert (R8 : run E (Echo (lit "AllowUsers root") sshd_config) true h7
                 = (Return (Completed 0 []), h8)).
    { apply run_done; [apply Hst; simpl in Htick; lia|]. cbn [exec]. by rewrite Hfile. }
    eexists. split.
    + cbn [run_all_checked]. erewrite bind_return by exact R8.
      erewrite bind_return; [reflexivity|].
      apply run_done; [apply Hst; subst h8; rewrite tick_record; simpl in Htick; lia|].
      reflexivity.
    + cbn [cur record files]. rewrite lookup_filter_glob by reflexivity.
      subst h8 s8. cbn [cur record files]. by rewrite lookup_insert_eq.
Qed.

End SshdEdits.

(** X15: of the lines of sshd_config, [config_sshd] turns one that starts
    with [#Port] into [Port <port>], and leaves one that starts with [Port]
    as it is: a port that is already set is not changed. *)
Theorem sshd_port_line port l :
  (startswith (lit "#Port") l = true ->
   sed_lines (config_commands port) l = lit "Port " ++ str_int port)
  ∧ (startswith (lit "Port") l = true -> sed_lines (config_commands port) l = l).
Proof.
  split.
  - intros H. cbn [sed_lines config_commands]. unfold sed_line at 7. rewrite H. reflexivity.
  - intros (r & ->)%startswith_prefix. reflexivity.
Qed.

Lemma sshd_port_line_witness :
  sed_lines (config_commands 60022) (lit "#Port 22") = lit "Port " ++ str_int 60022
  ∧ sed_lines (config_commands 60022) (lit "Port 2222") = lit "Port 2222".
Proof.
  split.
  - apply (proj1 (sshd_port_line 60022 (lit "#Port 22"))). reflexivity.
  - apply (proj2 (sshd_port_line 60022 (lit "Port 2222"))). reflexivity.
Defined.

(** ** The update of /etc/fstab *)

Lemma contains_prefix p q s : contains (p ++ q) s = true -> contains p s = true.
Proof.
  assert (Hsw : forall s, startswith (p ++ q) s = true -> startswith p s = true).
  { clear s. induction p as [|c p IH]; intros s; [done|].
    destruct s as [|d s]; [done|]. simpl.
    intros [-> Hp]%andb_true_iff. simpl. by apply IH. }
  induction s as [|c s IH]; simpl.
  - rewrite !orb_false_r. apply Hsw.
  - intros [H|H]%orb_true_iff; [by rewrite (Hsw _ H)|].
    rewrite (IH H). apply orb_true_r.
Qed.

Lemma contains_replace old new s :
  old ≠ [] -> contains old s = true -> contains new (replace old new s) = true.
Proof.
  intros Hne. unfold replace. induction s as [|c s IH].
  - destruct old; [done|]. done.
  - change (replace_go old new 0 (c :: s))
      with (if startswith old (c :: s) then new ++ replace_go old new (length old - 1) s
            else c :: replace_go old new 0 s).
    destruct (startswith old (c :: s)) eqn:Hs.
    + intros _. apply contains_here, startswith_app.
    + intros H. apply contains_cons, IH.
      simpl in H. simpl in Hs. by rewrite Hs in H.
Qed.

Lemma replace_chars old new c : forall s skip,
  c ∈ replace_go old new skip s -> c ∈ new ∨ c ∈ s.
Proof.
  induction s as [|d s IH]; intros skip; [by inversion 1|].
  destruct skip as [|k].
  - change (replace_go old new 0 (d :: s))
      with (if startswith old (d :: s) then new ++ replace_go old new (length old - 1) s
            else d :: replace_go old new 0 s).
    destruct (startswith old (d :: s)).
    + intros [H|H]%elem_of_app; [by left|].
      destruct (IH _ H); [by left|right; by right].
    + intros [->|H]%elem_of_cons; [right; by left|].
      destruct (IH _ H); [by left|right; by right].
  - simpl. intros H. destruct (IH _ H); [by left|right; by right].
Qed.

Section Fstab.
Variable E : environment.

(** X16: when the update of /etc/fstab in [increase_swap] returns, the file
    has the text [<file> none swap sw 0 0] in it, and the update is
    idempotent: run once more, it reads the file and writes nothing. *)
Theorem update_fstab_once existing h t h1 :
  existing ≠ [] -> CR ∉ existing -> CR ∉ t ->
  files (cur h) !! fstab = Some (Regular t) ->
  update_fstab E existing h = (Return tt, h1) ->
  exists t',
    files (cur h1) !! fstab = Some (Regular t')
    ∧ contains (existing ++ lit " none swap sw 0 0") t' = true
    ∧ (status E (tick h1) = 0%Z ->
       update_fstab E existing h1 = (Return tt, record (ReadText fstab) (cur h1) h1)).
Proof.
  intros Hne Hcr Ht Hf Hrun.
  set (entry := existing ++ lit " none swap sw 0 0") in *.
  assert (Hentry : CR ∉ entry).
  { subst entry. intros [H|H]%elem_of_app; [done|]. revert H. by apply (bool_decide_unpack _). }
  assert (Hagain : forall (h2 : host) t',
    files (cur h2) !! fstab = Some (Regular t') -> CR ∉ t' -> contains entry t' = true ->
    status E (tick h2) = 0%Z ->
    update_fstab E existing h2 = (Return tt, record (ReadText fstab) (cur h2) h2)).
  { intros h2 t' Hf2 Hcr2 Hin Hs. unfold update_fstab.
    erewrite bind_return by (by apply read_text_ok).
    rewrite universal_newlines_id by done. fold entry.
    by rewrite (contains_prefix _ _ _ Hin), Hin. }
  revert Hrun. unfold update_fstab.
  intros (content & h0 & Hread & Hrest)%bind_returned.
  unfold read_text in Hread. destruct (negb _); [done|]. rewrite Hf in Hread.
  injection Hread as <- <-. rewrite universal_newlines_id in Hrest by done.
  fold entry in Hrest.
  destruct (contains existing t) eqn:Hex; cbn [negb] in Hrest.
  - destruct (contains entry t) eqn:Hen; cbn [negb] in Hrest.
    + injection Hrest as <-. exists t. split_and!; [done|done|].
      intros Hs. by apply (Hagain _ t).
    + unfold overwrite in Hrest. destruct (negb _); [done|]. injection Hrest as <-.
      exists (replace existing entry t).
      assert (Hin : contains entry (replace existing entry t) = true)
        by by apply contains_replace.
      split_and!; [apply lookup_insert_eq|done|].
      intros Hs. apply (Hagain _ (replace existing entry t)); [apply lookup_insert_eq| |done..].
      intros [?|?]%replace_chars; done.
  - unfold write in Hrest. destruct (negb _); [done|]. injection Hrest as <-.
    exists (t ++ NL :: entry ++ [NL]).
    assert (Hfile : files (append_to fstab (NL :: entry ++ [NL])
                             (cur (record (ReadText fstab) (cur h) h))) !! fstab
                    = Some (Regular (t ++ NL :: entry ++ [NL]))).
    { unfold append_to. cbn [cur record]. rewrite Hf. apply lookup_insert_eq. }
    assert (Hin : contains entry (t ++ NL :: entry ++ [NL]) = true).
    { change (t ++ NL :: entry ++ [NL]) with (t ++ [NL] ++ entry ++ [NL]).
      rewrite app_assoc. apply contains_app. }
    split_and!; [done|done|].
    intros Hs. apply (Hagain _ (t ++ NL :: entry ++ [NL])); [done| |done..].
    intros [H|[H|[H|H]%elem_of_app]%elem_of_cons]%elem_of_app; try done.
    by apply list_elem_of_singleton in H.
Qed.

End Fstab.

(** ** [configure_ip_priority] and [enable_bbr]: commit or roll back *)

Lemma ip_expected_written p c : contains (ip_expected p) (ip_rewrite p c) = true.
Proof.
  unfold ip_rewrite, ip_writes. cbn [concat]. apply contains_app_r. by destruct p.
Qed.

Section Commit.
Variable E : environment.

Lemma check_bbr_enabled_eq h :
  check_bbr_enabled E h
  = (Return (contains (lit "bbr") (answer E (S (S (tick h))))
             && contains (lit "bbr") (answer E (tick h))
             && contains (lit "fq") (answer E (S (tick h)))),
     record (Sh (Query (lit "sysctl net.ipv4.tcp_available_congestion_control"))) (cur h)
       (record (Sh (Query (lit "sysctl net.core.default_qdisc"))) (cur h)
          (record (Sh (Query (lit "sysctl net.ipv4.tcp_congestion_control"))) (cur h) h))).
Proof.
  unfold check_bbr_enabled. apply try_return.
  do 3 (erewrite bind_return by apply query_unchecked).
  by rewrite !tick_record.
Qed.

Lemma restore_if_present_eq b target h :
  b ≠ [] ->
  restore_if_present E b target h
  = if exists_ (cur h) b then (run E (Mv b target) false ;;; ret tt) h else (Return tt, h).
Proof.
  intros Hne. destruct b as [|c b]; [done|].
  unfold restore_if_present, bind at 1, path_exists. by destruct (exists_ _ _).
Qed.

Lemma halts_ip_body p b : halts (configure_ip_priority_body E p b).
Proof.
  unfold configure_ip_priority_body, ip_block_step.
  repeat first
    [ apply halts_ret | apply halts_run | apply halts_read_text | apply halts_write_file
    | apply halts_rewrite_step | apply settles_halts, settles_path_exists
    | apply halts_bind; [|intros ?]
    | match goal with |- halts (if ?b then _ else _) => destruct b end ].
Qed.

(** The steps of [configure_ip_priority] after the backup copy. *)
Lemma ip_body_returned p b h r h' :
  configure_ip_priority_body E p b h = (Return r, h') ->
  r = true ∧ exists c, files (cur h') !! gai_conf = Some (Regular (ip_rewrite p c)).
Proof.
  unfold configure_ip_priority_body.
  intros (present & h1 & _ & H)%bind_returned.
  apply bind_returned in H as (? & h2 & _ & H).
  apply bind_returned in H as (? & h3 & _ & H).
  apply bind_returned in H as ([] & h4 & Hstep & H).
  apply bind_returned in H as (new_content & h5 & Hread & H).
  apply rewrite_step_returned in Hstep as (t & _ & Hfile & _).
  change (concat (ip_writes p (universal_newlines t)))
    with (ip_rewrite p (universal_newlines t)) in Hfile.
  unfold read_text in Hread. destruct (negb _); [done|]. rewrite Hfile in Hread.
  injection Hread as <- <-.
  rewrite universal_newlines_id in H
    by apply (block_rewrite_no_cr (IpBlock p)), universal_newlines_no_cr.
  rewrite ip_expected_written in H. injection H as <- <-.
  split; [done|]. by exists (universal_newlines t).
Qed.

(** X17: the check at the end of [configure_ip_priority] cannot fail: when
    the steps of the [try] block return, they return [True], and
    /etc/gai.conf holds a rewritten file with the line that is looked for. *)
Theorem ip_validation_passes p b h :
  (configure_ip_priority_body E p b h).1 ≠ Return false
  ∧ forall c, contains (ip_expected p) (ip_rewrite p c) = true.
Proof.
  split; [|apply ip_expected_written].
  destruct (configure_ip_priority_body E p b h) as [r h'] eqn:Hrun. simpl.
  intros ->. by apply ip_body_returned in Hrun as [? _].
Qed.


End Commit.

Section BbrCommit.
Variable E : environment.

Lemma enable_bbr_started h :
  contains (lit "bbr") (answer E (S (S (tick h))))
  && contains (lit "bbr") (answer E (tick h))
  && contains (lit "fq") (answer E (S (tick h))) = false ->
  exists h3,
    check_bbr_enabled E h = (Return false, h3)
    ∧ cur h3 = cur h ∧ tick h3 = (tick h + 3)%nat
    ∧ ops h3 = ops h ++ [ Sh (Query (lit "sysctl net.ipv4.tcp_congestion_control"));
                          Sh (Query (lit "sysctl net.core.default_qdisc"));
                          Sh (Query (lit "sysctl net.ipv4.tcp_available_congestion_control")) ].
Proof.
  intros Hoff. eexists. rewrite check_bbr_enabled_eq, Hoff. split_and!; [done|done| |].
  - rewrite !tick_record. lia.
  - cbn [ops record]. by rewrite <- !app_assoc.
Qed.

(** X19: when BBR is not in use, the kernel does not list it and
    [modprobe tcp_bbr] fails, [enable_bbr] returns [False] after six
    operations that only read (five queries and the clock) and that
    [modprobe]: no backup is made and no file is written by the script. *)
Theorem enable_bbr_without_module h :
  contains (lit "bbr") (answer E (S (S (tick h))))
  && contains (lit "bbr") (answer E (tick h))
  && contains (lit "fq") (answer E (S (tick h))) = false ->
  contains (lit "bbr") (answer E (tick h + 5)) = false ->
  status E (tick h + 6) ≠ 0%Z ->
  exists h',
    enable_bbr E h = (Return false, h')
    ∧ ops_since h h'
      = [ Sh (Query (lit "sysctl net.ipv4.tcp_congestion_control"));
          Sh (Query (lit "sysctl net.core.default_qdisc"));
          Sh (Query (lit "sysctl net.ipv4.tcp_available_congestion_control"));
          Clock;
          Sh (Query (lit "uname -r"));
          Sh (Query (lit "sysctl net.ipv4.tcp_available_congestion_control"));
          Sh (Utility (lit "modprobe tcp_bbr")) ]
    ∧ cur h' = effect E (tick h + 6) (cur h).
Proof.
  intros Hoff Hnone Hfail.
  destruct (enable_bbr_started h Hoff) as (h3 & Hcheck & Hcur & Htick & Hops).
  unfold enable_bbr. erewrite bind_return by exact Hcheck. cbn iota.
  erewrite bind_return by reflexivity.
  set (h4 := record Clock (cur h3) h3).
  assert (T4 : tick h4 = (tick h + 4)%nat) by (subst h4; rewrite tick_record; lia).
  set (h5 := record (Sh (Query (lit "uname -r"))) (cur h4) h4).
  assert (T5 : tick h5 = (tick h + 5)%nat) by (subst h5; rewrite tick_record; lia).
  set (h6 := record (Sh (Query (lit "sysctl net.ipv4.tcp_available_congestion_control")))
               (cur h5) h5).
  assert (T6 : tick h6 = (tick h + 6)%nat) by (subst h6; rewrite tick_record; lia).
  set (h7 := record (Sh (Utility (lit "modprobe tcp_bbr")))
               (effect E (tick h + 6) (cur h6)) h6).
  assert (Hprobe : enable_bbr_probe E h4 = (Return false, h7)).
  { unfold enable_bbr_probe.
    erewrite bind_return by apply query_unchecked. fold h5.
    erewrite bind_return by apply query_unchecked. fold h6.
    cbn [stdout]. rewrite T5, Hnone. cbn [negb].
    erewrite bind_return by apply run_utility. cbn [returncode]. rewrite T6.
    by destruct (Z.eqb_spec (status E (tick h + 6)) 0). }
  exists h7. split.
  { apply try_return. unfold enable_bbr_body. by erewrite bind_return by exact Hprobe. }
  split.
  - apply ops_since_app. subst h7 h6 h5 h4. cbn [ops record]. rewrite Hops.
    by rewrite <- !app_assoc.
  - subst h7 h6 h5 h4. cbn [cur record]. by rewrite Hcur.
Qed.

(** X20: when [enable_bbr] has had to configure BBR and returns [True],
    /etc/sysctl.conf (a text [t] at the start) holds the rewrite of [t], and
    the backup of this run is still there and holds [t]; the utilities that
    the script calls are taken to leave the two files alone. *)
Theorem enable_bbr_commits h t h' :
  utilities_spare E sysctl_conf ->
  utilities_spare E (backup_name sysctl_conf (epoch E (tick h + 3))) ->
  files (cur h) !! sysctl_conf = Some (Regular t) ->
  contains (lit "bbr") (answer E (S (S (tick h))))
  && contains (lit "bbr") (answer E (tick h))
  && contains (lit "fq") (answer E (S (tick h))) = false ->
  enable_bbr E h = (Return true, h') ->
  files (cur h') !! sysctl_conf = Some (Regular (bbr_rewrite (universal_newlines t)))
  ∧ files (cur h') !! backup_name sysctl_conf (epoch E (tick h + 3)) = Some (Regular t).
Proof.
  intros Hus Hub Hf Hoff.
  set (b := backup_name sysctl_conf (epoch E (tick h + 3))) in *.
  assert (Hb : b ≠ sysctl_conf) by apply backup_name_differs.
  destruct (enable_bbr_started h Hoff) as (h3 & Hcheck & Hcur & Htick & _).
  unfold enable_bbr. erewrite bind_return by exact Hcheck. cbn iota.
  erewrite bind_return by reflexivity. rewrite Htick.
  change (lit "/etc/sysctl.conf.bak." ++ str_int (epoch E (tick h + 3))) with b. set (h4 := record Clock (cur h3) h3).
  unfold try_except.
  destruct (enable_bbr_body E b h4) as [[x|e|] h5] eqn:Hbody; [| |by intros [=]].
  2:{ unfold any_exception, bind at 1.
      by destruct (restore_if_present E b sysctl_conf h5) as [[[]|e'|] h6]; intros [=]. }
  intros [= -> ->].
  revert Hbody. unfold enable_bbr_body.
  intros (loaded & hl & Hprobe & H)%bind_returned.
  destruct loaded; [|done]. cbn [negb] in H.
  apply bind_returned in H as ([] & hm & Hcreate & H).
  apply bind_returned in H as (rc & hc & Hcp & H).
  assert (Hl : backed_up sysctl_conf (Regular t) false hl).
  { pose proof (backed_up_framed sysctl_conf (Regular t) false) as Hfr.
    assert (H4 : backed_up sysctl_conf (Regular t) false h4).
    { split; [|done]. cbn [cur h4 record]. by rewrite Hcur. }
    revert H4 Hprobe. generalize h4 (Return true : result bool) hl.
    unfold enable_bbr_probe.
    apply keeps_bind; [by eapply keeps_run|]. intros _.
    apply keeps_bind; [by eapply keeps_run|]. intros avail.
    destruct (negb _); [|apply keeps_ret].
    apply keeps_bind; [by eapply keeps_run|]. intros ?. apply keeps_ret. }
  destruct Hl as [Hfl _].
  unfold enable_bbr_create in Hcreate.
  rewrite (bind_return _ _ _ _ _
             (eq_refl : path_exists sysctl_conf hl = (Return _, hl))) in Hcreate.
  unfold exists_ in Hcreate. rewrite bool_decide_eq_true_2 in Hcreate by (rewrite Hfl; eauto).
  injection Hcreate as <-.
  apply run_cp_returned in Hcp as (f & Hf' & ->). rewrite Hfl in Hf'. injection Hf' as <-.
  revert H. unfold enable_bbr_mutate.
  intros ([] & hw & Hstep & Happly)%bind_returned.
  assert (Hw : backed_up b (Regular t) false hw).
  { pose proof (backed_up_framed b (Regular t) false) as Hfr.
    assert (Hc : backed_up b (Regular t) false
                   (record (Sh (Cp sysctl_conf b))
                      (Sys (<[b := Regular t]> (files (cur hl))) (swaps (cur hl))) hl)).
    { split; [apply lookup_insert_eq|done]. }
    revert Hc Hstep. generalize (Return tt : result unit).
    generalize (record (Sh (Cp sysctl_conf b))
                  (Sys (<[b := Regular t]> (files (cur hl))) (swaps (cur hl))) hl).
    intros h0 r0 Hc Hstep. revert Hc Hstep. generalize h0 r0 hw.
    unfold bbr_block_step, rewrite_step.
    apply keeps_bind; [by eapply keeps_read_text|]. intros content.
    eapply keeps_write_file; [done|]. by intros Heq. }
  apply rewrite_step_returned in Hstep as (t0 & Ht0 & Hfile & Hops).
  cbn [cur record files] in Ht0. rewrite lookup_insert_ne in Ht0 by done.
  rewrite Hfl in Ht0. injection Ht0 as <-.
  change (concat (bbr_writes (universal_newlines t)))
    with (bbr_rewrite (universal_newlines t)) in Hfile.
  split.
  - eapply (keeps_enable_bbr_apply E sysctl_conf _ false Hus hw _ h'); [|exact Happly].
    by split.
  - eapply (keeps_enable_bbr_apply E b _ false Hub hw _ h'); [exact Hw|exact Happly].
Qed.

End BbrCommit.

(** ** [config_shell] adds its lines once *)

Lemma config_content_starts nvim :
  exists rest,
    DebianInit.config_content nvim = NL :: DebianInit.config_marker ++ rest ∧ CR ∉ rest.
Proof.
  unfold DebianInit.config_content. eexists. split; [reflexivity|].
  destruct nvim; by apply (bool_decide_unpack _).
Qed.

Lemma config_marker_no_cr : CR ∉ DebianInit.config_marker.
Proof. by apply (bool_decide_unpack _). Qed.

Section ConfigShell.
Variable E : environment.

(** What the steps for one rc file leave when they return: the file as it
    was when it has the marker, the text that was read with the new lines
    behind it otherwise, and in both cases a copy of the file as it was. *)
Lemma config_rc_file_done rc content h h' t :
  files (cur h) !! rc = Some (Regular t) ->
  DebianInit.config_rc_file E rc content h = (Return tt, h') ->
  files (cur h') !! rc
  = Some (Regular (if contains DebianInit.config_marker (universal_newlines t) then t
                   else universal_newlines t ++ content))
  ∧ files (cur h') !! (rc ++ lit ".bak." ++ strftime (localtime E (tick h)))
    = Some (Regular t).
Proof.
  intros Hf.
  assert (Hbak : forall ts, rc ++ lit ".bak." ++ ts ≠ rc) by (intros ts; by apply suffix_differs).
  assert (Htmp : rc ++ lit ".tmp" ≠ rc) by by apply suffix_differs.
  assert (Hapart : forall ts, rc ++ lit ".bak." ++ ts ≠ rc ++ lit ".tmp").
  { intros ts Heq. apply app_inv_head in Heq. apply (f_equal (take 2)) in Heq.
    vm_compute in Heq. discriminate Heq. }
  unfold DebianInit.config_rc_file, bind at 1, path_exists, exists_.
  rewrite Hf, bool_decide_eq_true_2 by eauto. cbn [negb].
  intros (now & h1 & Hnow & H)%bind_returned. injection Hnow as <- <-.
  apply bind_returned in H as (? & hc & Hcp & H).
  apply run_cp_returned in Hcp as (f' & Hf' & ->).
  cbn [cur record] in Hf'. rewrite Hf in Hf'. injection Hf' as <-.
  apply bind_returned in H as (old & h3 & Hread & H).
  unfold read_text in Hread. destruct (negb _); [done|].
  cbn [cur record files] in Hread. rewrite lookup_insert_ne, Hf in Hread by apply Hbak.
  injection Hread as <- <-.
  destruct (contains DebianInit.config_marker (universal_newlines t)) eqn:Hm.
  { injection H as <-. cbn [cur record files]. rewrite lookup_insert_ne by apply Hbak.
    by rewrite lookup_insert_eq. }
  apply bind_returned in H as ([] & h4 & Hopen & H).
  unfold open_w in Hopen. destruct (negb _); [done|]. injection Hopen as <-.
  apply bind_returned in H as (old & h5 & Hread & H).
  unfold read_text in Hread. destruct (negb _); [done|].
  cbn [cur record files] in Hread.
  rewrite lookup_insert_ne, lookup_insert_ne, Hf in Hread by first [apply Hbak|done].
  injection Hread as <- <-.
  apply bind_returned in H as ([] & h6 & Hw1 & H).
  unfold write in Hw1. destruct (negb _); [done|]. injection Hw1 as <-.
  apply bind_returned in H as ([] & h7 & Hw2 & H).
  unfold write in Hw2. destruct (negb _); [done|]. injection Hw2 as <-.
  unfold os_replace in H. destruct (negb _); [done|].
  cbn [cur record] in H. rewrite !append_to_insert in H. cbn [files] in H.
  rewrite lookup_insert_eq in H. injection H as <-.
  cbn [cur record files]. rewrite lookup_insert_eq, ?app_nil_l. split; [done|].
  rewrite lookup_insert_ne by (intros Heq; symmetry in Heq; by apply Hbak in Heq).
  rewrite lookup_delete_ne by (intros Heq; symmetry in Heq; by apply Hapart in Heq).
  rewrite lookup_insert_ne by (intros Heq; symmetry in Heq; by apply Hapart in Heq).
  apply lookup_insert_eq.
Qed.

(** When the steps for one rc file return, the file is missing or has the
    marker in it. *)
Lemma config_rc_file_returned rc nvim h h' :
  DebianInit.config_rc_file E rc (DebianInit.config_content nvim) h = (Return tt, h') ->
  configured (files (cur h') !! rc).
Proof.
  destruct (config_content_starts nvim) as (rest & Hcc & Hrest).
  destruct (files (cur h) !! rc) as [f|] eqn:Hf.
  2:{ unfold DebianInit.config_rc_file, bind at 1, path_exists, exists_.
      rewrite Hf, bool_decide_eq_false_2 by (by intros [? ?]). cbn [negb].
      intros [= <-]. by rewrite Hf. }
  destruct f as [t| |].
  - intros [Hfile _]%(config_rc_file_done _ _ _ _ t Hf). rewrite Hfile.
    unfold configured.
    destruct (contains DebianInit.config_marker (universal_newlines t)) eqn:Hm; [done|].
    rewrite universal_newlines_id.
    + rewrite Hcc. apply contains_app_r, contains_cons, contains_here, startswith_app.
    + pose proof (universal_newlines_no_cr t). pose proof config_marker_no_cr.
      rewrite Hcc.
      intros [?|[?|[?|?]%elem_of_app]%elem_of_cons]%elem_of_app; done.
  - unfold DebianInit.config_rc_file, bind at 1, path_exists, exists_.
    rewrite Hf, bool_decide_eq_true_2 by eauto. cbn [negb].
    intros (now & h1 & Hnow & H)%bind_returned. injection Hnow as <- <-.
    apply bind_returned in H as (? & hc & Hcp & H).
    apply run_cp_returned in Hcp as (f' & Hf' & ->).
    apply bind_returned in H as (old & h3 & Hread & H).
    unfold read_text in Hread. destruct (negb _); [done|].
    cbn [cur record files] in Hread.
    rewrite lookup_insert_ne, Hf in Hread by (by apply suffix_differs). done.
  - unfold DebianInit.config_rc_file, bind at 1, path_exists, exists_.
    rewrite Hf, bool_decide_eq_true_2 by eauto. cbn [negb].
    intros (now & h1 & Hnow & H)%bind_returned. injection Hnow as <- <-.
    apply bind_returned in H as (? & hc & Hcp & H).
    apply run_cp_returned in Hcp as (f' & Hf' & ->).
    apply bind_returned in H as (old & h3 & Hread & H).
    unfold read_text in Hread. destruct (negb _); [done|].
    cbn [cur record files] in Hread.
    rewrite lookup_insert_ne, Hf in Hread by (by apply suffix_differs). done.
Qed.

(** Once the file is missing or has the marker, the steps leave it as it is,
    however they end. *)
Lemma config_rc_file_settled rc content f :
  configured f ->
  keeps (fun h => files (cur h) !! rc = f) (DebianInit.config_rc_file E rc content).
Proof.
  intros Hc h r h' HP.
  assert (Hbak : forall ts, rc ++ lit ".bak." ++ ts ≠ rc) by (intros ts; by apply suffix_differs).
  unfold DebianInit.config_rc_file, bind at 1, path_exists, exists_. rewrite HP.
  destruct f as [[t| |]|]; [|done|done|].
  2:{ rewrite bool_decide_eq_false_2 by (by intros [? ?]). cbn [negb]. by intros [= <- <-]. }
  rewrite bool_decide_eq_true_2 by eauto. cbn [negb].
  unfold bind at 1, datetime_now. unfold bind at 1, run, shell. rewrite !tick_record.
  cbn [cur record].
  destruct (status E (S (tick h)) =? 0)%Z eqn:Hs1.
  2:{ cbn [andb]. rewrite Hs1. cbn [negb]. by intros [= <- <-]. }
  cbn [exec]. rewrite HP. cbn [andb negb Z.eqb].
  unfold bind at 1, read_text. rewrite !tick_record. cbn [cur record files].
  rewrite lookup_insert_ne by apply Hbak. rewrite HP.
  destruct (negb (status E (S (S (tick h))) =? 0)%Z).
  { intros [= <- <-]. cbn [cur record files]. by rewrite lookup_insert_ne by apply Hbak. }
  simpl in Hc. rewrite Hc. intros [= <- <-]. cbn [cur record files].
  by rewrite lookup_insert_ne by apply Hbak.
Qed.

Lemma config_shell_settled home_dir current_shell f :
  utilities_spare E (rc_file home_dir current_shell) ->
  configured f ->
  keeps (fun h => files (cur h) !! rc_file home_dir current_shell = f)
        (DebianInit.config_shell E home_dir current_shell).
Proof.
  intros Hu Hc.
  assert (Hfr : framed (rc_file home_dir current_shell)
                  (fun h => files (cur h) !! rc_file home_dir current_shell = f)).
  { intros h o s' HP Hs. cbn [cur record]. by rewrite Hs. }
  unfold DebianInit.config_shell. apply keeps_try.
  2:{ intros e k [= <-]. apply keeps_ret. }
  apply keeps_bind; [by eapply keeps_run|]. intros _.
  apply keeps_bind; [by eapply keeps_run|]. intros nvim.
  unfold rc_file in *.
  destruct (contains (lit "zsh") current_shell).
  { apply keeps_bind; [|intros _; apply keeps_ret]. cbn [DebianInit.config_rc_files].
    apply keeps_bind; [by apply config_rc_file_settled|]. intros _. apply keeps_ret. }
  destruct (contains (lit "bash") current_shell); [|apply keeps_ret].
  apply keeps_bind; [|intros _; apply keeps_ret]. cbn [DebianInit.config_rc_files].
  apply keeps_bind; [by apply config_rc_file_settled|]. intros _. apply keeps_ret.
Qed.

(** X21: [config_shell] adds its lines to the rc file of the login shell at
    most once.  After a run that returned [True] the file is missing or has
    the marker in it, and a later run, however it ends, leaves the file as
    that run left it (the utilities that are called leaving it alone). *)
Theorem config_shell_appends_once home_dir current_shell h h1 h1' r h2 :
  utilities_spare E (rc_file home_dir current_shell) ->
  DebianInit.config_shell E home_dir current_shell h = (Return true, h1) ->
  files (cur h1') !! rc_file home_dir current_shell
  = files (cur h1) !! rc_file home_dir current_shell ->
  DebianInit.config_shell E home_dir current_shell h1' = (r, h2) ->
  configured (files (cur h1) !! rc_file home_dir current_shell)
  ∧ files (cur h2) !! rc_file home_dir current_shell
    = files (cur h1) !! rc_file home_dir current_shell.
Proof.
  intros Hu Hfirst Hsame Hsecond.
  assert (Hc : configured (files (cur h1) !! rc_file home_dir current_shell)).
  { revert Hfirst. unfold DebianInit.config_shell, try_except.
    match goal with |- match ?b h with _ => _ end = _ -> _ =>
      destruct (b h) as [[x|e|] h0] eqn:Hbody end; [|done..].
    intros [= -> ->].
    apply bind_returned in Hbody as (? & ? & _ & Hbody).
    apply bind_returned in Hbody as (nvim & h3 & _ & Hbody).
    unfold rc_file.
    destruct (contains (lit "zsh") current_shell).
    { apply bind_returned in Hbody as ([] & h4 & Hrc & Hbody). injection Hbody as <-.
      cbn [DebianInit.config_rc_files] in Hrc.
      apply bind_returned in Hrc as ([] & h5 & Hrc & Hret). injection Hret as <-.
      by eapply config_rc_file_returned. }
    destruct (contains (lit "bash") current_shell); [|done].
    apply bind_returned in Hbody as ([] & h4 & Hrc & Hbody). injection Hbody as <-.
    cbn [DebianInit.config_rc_files] in Hrc.
    apply bind_returned in Hrc as ([] & h5 & Hrc & Hret). injection Hret as <-.
    by eapply config_rc_file_returned. }
  split; [done|].
  by eapply (config_shell_settled home_dir current_shell _ Hu Hc h1' r h2).
Qed.

(** X22: a run of [config_shell] that returns [True] on an rc file without
    the marker (a text [t], the utilities leaving the file alone) has put
    behind the text of the file, as Python reads it, the lines of
    [config_content], and has left a copy of [t] under the name of the
    backup. *)
Theorem config_shell_adds home_dir current_shell h t h1 :
  utilities_spare E (rc_file home_dir current_shell) ->
  files (cur h) !! rc_file home_dir current_shell = Some (Regular t) ->
  contains DebianInit.config_marker (universal_newlines t) = false ->
  DebianInit.config_shell E home_dir current_shell h = (Return true, h1) ->
  files (cur h1) !! rc_file home_dir current_shell
  = Some (Regular (universal_newlines t
                   ++ DebianInit.config_content (status E (S (tick h)) =? 0)%Z))
  ∧ files (cur h1) !! (rc_file home_dir current_shell ++ lit ".bak."
                       ++ strftime (localtime E (tick h + 2)))
    = Some (Regular t).
Proof.
  intros Hu Hf Hm. unfold DebianInit.config_shell, try_except.
  match goal with |- match ?b h with _ => _ end = _ -> _ =>
    destruct (b h) as [[x|e|] h0] eqn:Hbody end; [|done..].
  intros [= -> ->].
  apply bind_returned in Hbody as (? & h2 & Htz & Hbody).
  rewrite (bind_return _ _ _ _ _ (query_unchecked E _ h2)) in Hbody.
  cbn [returncode] in Hbody.
  assert (Ht2 : tick h2 = S (tick h) ∧ files (cur h2) !! rc_file home_dir current_shell
                                      = Some (Regular t)).
  { revert Htz. unfold run, shell.
    destruct (status E (tick h) =? 0)%Z eqn:Hs; cbn [exec andb].
    - intros [= _ <-]. rewrite tick_record. split; [done|]. cbn [cur record]. by rewrite Hu.
    - by rewrite Hs. }
  destruct Ht2 as [Ht2 Hf2]. rewrite Ht2 in Hbody.
  set (h3 := record (Sh (Query (lit "command -v nvim"))) (cur h2) h2) in *.
  assert (Ht3 : tick h3 = (tick h + 2)%nat) by (subst h3; rewrite tick_record; lia).
  unfold rc_file in *.
  destruct (contains (lit "zsh") current_shell).
  { apply bind_returned in Hbody as ([] & h4 & Hrc & Hret). injection Hret as <-.
    cbn [DebianInit.config_rc_files] in Hrc.
    apply bind_returned in Hrc as ([] & h5 & Hrc & Hret). injection Hret as <-.
    apply (config_rc_file_done _ _ _ _ t) in Hrc; [|done].
    by rewrite Hm, Ht3 in Hrc. }
  destruct (contains (lit "bash") current_shell); [|done].
  apply bind_returned in Hbody as ([] & h4 & Hrc & Hret). injection Hret as <-.
  cbn [DebianInit.config_rc_files] in Hrc.
  apply bind_returned in Hrc as ([] & h5 & Hrc & Hret). injection Hret as <-.
  apply (config_rc_file_done _ _ _ _ t) in Hrc; [|done].
  by rewrite Hm, Ht3 in Hrc.
Qed.

End ConfigShell.

(** ** [increase_swap] of install_debian.py *)

Section OlderSwap.
Variable E : environment.

Lemma older_cleanup_raises h :
  vars h !! "tmp_file" = None ->
  exists e, InstallDebian.swap_cleanup E h = (Raise e, h).
Proof.
  intros Hv. unfold InstallDebian.swap_cleanup.
  erewrite bind_return by reflexivity. erewrite bind_return by reflexivity.
  rewrite Hv. exists (Exception_ "UnboundLocalError"). by destruct (vars h !! "existing_file").
Qed.

(** A [try] block that leaves [tmp_file] unbound and does not return
    [False] does not make the operation return [False]. *)
Lemma older_try_not_false (m : M bool) h h' :
  vars h !! "tmp_file" = None ->
  keeps (fun h => vars h !! "tmp_file" = None) m ->
  (forall h0 h1, m h0 ≠ (Return false, h1)) ->
  try_except m (any_exception (InstallDebian.swap_cleanup E)) h ≠ (Return false, h').
Proof.
  intros Hv Hkeep Hret. unfold try_except.
  destruct (m h) as [[x|e|] h1] eqn:Hm.
  - intros [= -> ->]. by eapply Hret.
  - unfold any_exception.
    destruct (older_cleanup_raises h1) as (e' & ->); [by eapply Hkeep|done].
  - done.
Qed.

Lemma try_bind_return {A B} (m : M A) (k : A -> M B) handler h a h1 :
  m h = (Return a, h1) ->
  try_except (x <- m ;; k x) handler h = try_except (k a) handler h1.
Proof. intros Hm. unfold try_except. by rewrite (bind_return _ _ _ _ _ Hm). Qed.

(** X23: [increase_swap] of install_debian.py returns [False] only when the
    detection went through and listed a swap file first.  In the other
    cases [tmp_file] is unbound when the [except] clause builds its command
    line, so that a failure leaves the function as an exception. *)
Theorem older_increase_swap_false size s h' :
  InstallDebian.increase_swap E size (boot s) = (Return false, h') ->
  status E 0 = 0%Z
  ∧ split_ws (swapon_listing (swaps s)) !! 1%nat = Some (lit "file").
Proof.
  set (P := fun h : host => vars h !! "tmp_file" = None).
  assert (HP : forall h o s', P h -> P (record o s' h)) by done.
  assert (Hcreate : keeps P (create_swapfile E size)) by by apply keeps_run_each_locals.
  assert (Hcheck : forall q, keeps P
            (check_result <- run E q false ;;
             if negb (returncode check_result =? 0)%Z
             then raise (Exception_ "swap check") else ret true)).
  { intros q. apply keeps_bind; [by apply keeps_run_locals|]. intros chk.
    destruct (negb _); [apply keeps_raise|apply keeps_ret]. }
  assert (Hcheck' : forall q h0 h1,
            (check_result <- run E q false ;;
             if negb (returncode check_result =? 0)%Z
             then raise (Exception_ "swap check") else ret true) h0 ≠ (Return false, h1)).
  { intros q h0 h1 (chk & ? & _ & H)%bind_returned. by destruct (negb _). }
  unfold InstallDebian.increase_swap.
  rewrite (try_bind_return _ _ _ _ _ _ (run_unchecked E SwaponShow (boot s))).
  set (h1 := record (Sh SwaponShow) _ (boot s)).
  assert (P1 : P h1) by done.
  unfold shell. change (tick (boot s)) with 0%nat. cbn [cur boot].
  destruct (status E 0 =? 0)%Z eqn:Hs; cbn [exec fst snd returncode stdout].
  2:{ rewrite Hs. cbn [negb orb]. intros Hrun. exfalso. revert Hrun.
      apply older_try_not_false; [done| |].
      - apply keeps_bind; [done|]. intros _. apply keeps_ret.
      - intros h0 h2 (? & ? & _ & [=])%bind_returned. }
  apply Z.eqb_eq in Hs. cbn [Z.eqb negb orb].
  destruct (is_empty (strip (swapon_listing (swaps s)))).
  { intros Hrun. exfalso. revert Hrun.
    apply older_try_not_false; [done| |].
    - apply keeps_bind; [done|]. intros _. apply keeps_ret.
    - intros h0 h2 (? & ? & _ & [=])%bind_returned. }
  destruct (split_ws (swapon_listing (swaps s)) !! 1%nat) as [ty|].
  2:{ intros Hrun. exfalso. revert Hrun.
      apply older_try_not_false; [done|apply keeps_raise|done]. }
  destruct (split_ws (swapon_listing (swaps s)) !! 0%nat) as [ex|].
  2:{ intros Hrun. exfalso. revert Hrun.
      apply older_try_not_false; [done|apply keeps_raise|done]. }
  destruct (decide (ty = lit "file")) as [->|Hty]; [done|].
  intros Hrun. exfalso. revert Hrun.
  rewrite (bool_decide_eq_false_2 (ty = lit "file")) by done.
  apply older_try_not_false; [done| |].
  - apply keeps_bind.
    { intros h r h0 Hh [= <- <-]. unfold P in *. cbn [vars]. by rewrite lookup_insert_ne. }
    intros _. apply keeps_bind; [|intros _; apply Hcheck].
    destruct (bool_decide _); [done|apply keeps_ret].
  - intros h0 h2 (? & ? & _ & H)%bind_returned.
    apply bind_returned in H as (? & ? & _ & H). by eapply Hcheck'.
Qed.

End OlderSwap.


(** ** [config_sshd]: what a run that returns [True] leaves behind *)

Section SshdCommit.
Variable E : environment.

Lemma run_checked_returned c h r h' :
  run E c true h = (Return r, h') ->
  status E (tick h) = 0%Z ∧ tick h' = S (tick h).
Proof.
  unfold run, shell. destruct (status E (tick h) =? 0)%Z eqn:Hs.
  - apply Z.eqb_eq in Hs. destruct (exec E (tick h) c (cur h)) as [[st out] s'].
    destruct (true && negb (st =? 0)%Z); [done|]. intros [= _ <-].
    by rewrite tick_record.
  - assert (Hc : (let '(st, out, s') :=
                    match c with
                    | Utility _ => (status E (tick h), answer E (tick h),
                                    effect E (tick h) (cur h))
                    | Query _ => (status E (tick h), answer E (tick h), cur h)
                    | _ => (status E (tick h), [], cur h)
                    end in
                  if true && negb (st =? 0)%Z
                  then (Raise (CalledProcessError st), record (Sh c) s' h)
                  else (Return (Completed st out), record (Sh c) s' h))
                 = (Raise (CalledProcessError (status E (tick h))),
                    record (Sh c) (match c with
                                   | Utility _ => effect E (tick h) (cur h)
                                   | _ => cur h
                                   end) h)).
    { destruct c; cbn [andb]; by rewrite Hs. }
    rewrite Hc. done.
Qed.

Lemma run_all_checked_returned cmds : forall h h',
  run_all_checked E cmds h = (Return tt, h') ->
  forall i, (tick h <= i < tick h + length cmds)%nat -> status E i = 0%Z.
Proof.
  induction cmds as [|c cmds IH]; intros h h' Hrun i Hi; [simpl in Hi; lia|].
  simpl in Hrun. apply bind_returned in Hrun as (r & h1 & Hc & Hrest).
  apply run_checked_returned in Hc as [Hs Ht].
  destruct (decide (i = tick h)) as [->|Hne]; [done|].
  eapply IH; [exact Hrest|]. simpl in Hi. lia.
Qed.

Lemma run_sed_returned pat d repl p h r h' :
  run E (Sed pat d repl p) true h = (Return r, h') ->
  exists t, files (cur h) !! p = Some (Regular t).
Proof.
  intros Hrun. destruct (run_checked_returned _ _ _ _ Hrun) as [Hs _].
  revert Hrun. unfold run, shell. rewrite Hs. cbn [Z.eqb exec].
  destruct (files (cur h) !! p) as [[t| |]|]; try done. by exists t.
Qed.

(** X24: when [config_sshd] returns [True], the backup that the run named
    holds the text that /etc/ssh/sshd_config held when the copy was made,
    and the file holds that text edited line by line, with [AllowUsers root]
    appended; the utilities that are called, and the files under [~/.ssh],
    are taken to be apart from the two files. *)
Theorem config_sshd_commits home fuel h h' :
  utilities_spare E sshd_config ->
  (forall now, utilities_spare E (backup_name sshd_config now)) ->
  home ++ lit "/.ssh" ≠ sshd_config ->
  (home ++ lit "/.ssh") ++ lit "/authorized_keys" ≠ sshd_config ->
  (forall now, tx_paths_apart (SshdTx home fuel) now) ->
  config_sshd E home fuel h = (Return true, h') ->
  exists port now t,
    vars h' !! "backup_file" = Some (backup_name sshd_config now)
    ∧ files (cur h') !! backup_name sshd_config now = Some (Regular t)
    ∧ files (cur h') !! sshd_config
      = Some (Regular (join_nl (map (sed_lines (config_commands port)) (split_nl t))
                       ++ lit "AllowUsers root" ++ [NL])).
Proof.
  intros Hus Hub Hdir Hauth Hapart.
  unfold config_sshd. erewrite bind_return by reflexivity. unfold try_except.
  match goal with |- match config_sshd_body E home fuel ?h0 with _ => _ end = _ -> _ =>
    destruct (config_sshd_body E home fuel h0) as [[x|e|] h1] eqn:Hbody end; [| |done].
  2:{ destruct e as [rc| |]; cbn [config_sshd_handler]; [|by intros [=]..].
      unfold bind at 1, get_var.
      destruct (vars h1 !! "backup_file") as [[|c b]|]; [by intros [=]| |by intros [=]].
      unfold bind at 1, path_exists.
      destruct (exists_ (cur h1) (c :: b)); [|by intros [=]].
      rewrite (bind_return _ _ _ _ _ (run_unchecked E _ h1)).
      rewrite (bind_return _ _ _ _ _ (run_unchecked E _ _)). by intros [=]. }
  intros [= -> ->].
  revert Hbody. unfold config_sshd_body.
  intros ([port b] & hp & Hprep & H)%bind_returned.
  pose proof (prepare_names E fuel _ port b hp Hprep) as Hname.
  assert (Hb : exists now, b = backup_name sshd_config now).
  { revert Hprep. unfold config_sshd_prepare.
    intros (installed & ? & _ & H0)%bind_returned.
    apply bind_returned in H0 as (? & ? & _ & H0).
    apply bind_returned in H0 as (port' & ? & _ & H0).
    apply bind_returned in H0 as (now & ? & _ & H0).
    apply bind_returned in H0 as (? & ? & _ & H0).
    injection H0 as _ <- _. by exists now. }
  destruct Hb as (now & ->). cbn [fst snd] in H.
  apply bind_returned in H as (rc & hc & Hcp & Hmut).
  apply run_cp_returned in Hcp as (f & Hf & ->).
  set (hc := record _ _ hp) in *.
  assert (Hne : backup_name sshd_config now ≠ sshd_config) by apply backup_name_differs.
  assert (Hbak : backed_up (backup_name sshd_config now) f true hc).
  { split; [apply lookup_insert_eq|done]. }
  pose proof (keeps_config_sshd_mutate E home fuel port now f true (Hub now) (Hapart now)
                _ _ _ Hbak Hmut) as [Hbf Hbv].
  revert Hmut. unfold config_sshd_mutate.
  intros ([] & he & Hedit & Htail)%bind_returned.
  assert (Hreg : exists t, f = Regular t).
  { pose proof Hedit as Hfirst. cbn [config_commands run_all_checked] in Hfirst.
    apply bind_returned in Hfirst as (? & ? & Hsed & _).
    apply run_sed_returned in Hsed as (t & Ht). exists t.
    cbn [cur hc record files] in Ht. rewrite lookup_insert_ne, Hf in Ht by done.
    by injection Ht. }
  destruct Hreg as (t & ->).
  destruct (config_commands_edit E port hc t) as (he' & Hedit' & Hfile).
  { intros i Hi. eapply run_all_checked_returned; [exact Hedit|]. simpl. lia. }
  { cbn [cur hc record files]. by rewrite lookup_insert_ne. }
  rewrite Hedit in Hedit'. injection Hedit' as <-.
  exists port, now, t. split_and!; [done|done|].
  set (edited := join_nl (map (sed_lines (config_commands port)) (split_nl t))
                 ++ lit "AllowUsers root" ++ [NL]) in *.
  assert (He : backed_up sshd_config (Regular edited) false he) by done.
  pose proof (backed_up_framed sshd_config (Regular edited) false) as Hfr.
  cut (backed_up sshd_config (Regular edited) false h'); [by intros [? _]|].
  revert He Htail. generalize he (Return true : result bool) h'.
  apply keeps_bind; [apply keeps_path_exists|]. intros have_dir.
  apply keeps_bind.
  { destruct have_dir; simpl; [apply keeps_ret|by eapply keeps_makedirs]. }
  intros _.
  apply keeps_bind; [by eapply keeps_run|]. intros _.
  apply keeps_bind; [apply keeps_path_exists|]. intros have_key.
  apply keeps_bind; [apply keeps_path_exists|]. intros have_pub.
  destruct (negb (have_key && have_pub)); [apply keeps_raise|].
  apply keeps_bind; [by eapply keeps_read_text|]. intros pub.
  apply keeps_bind; [apply keeps_path_exists|]. intros have_auth.
  apply keeps_bind.
  { destruct have_auth; [|apply keeps_ret].
    apply keeps_bind; [by eapply keeps_read_text|]. intros ?. apply keeps_ret. }
  intros known.
  apply keeps_bind.
  { destruct known; simpl; [apply keeps_ret|].
    apply keeps_bind; [by eapply keeps_open_a|]. intros _.
    apply keeps_bind; [by eapply keeps_write|]. intros _.
    by eapply keeps_os_chmod. }
  intros _.
  apply keeps_bind; [by eapply keeps_run|]. intros _.
  apply keeps_bind; [by eapply keeps_run|]. intros _.
  apply keeps_bind; [by eapply keeps_run|]. intros status.
  destruct (negb _); [apply keeps_raise|apply keeps_ret].
Qed.

End SshdCommit.

(** ** Runs that meet the hypotheses *)

Lemma returned_eta {A} (x : result A * host) r : x.1 = r -> x = (r, x.2).
Proof. destruct x. simpl. by intros ->. Qed.

Lemma increase_swap_creates_witness :
  exists h',
    increase_swap quiet (lit "2G") (boot (one_file fstab (lit "# fstab" ++ [NL])))
    = (Return true, h')
    ∧ ops h' = [ Sh SwaponShow; Sh (Fallocate (lit "2G") swap_file);
                 Sh (Chmod (lit "600") swap_file); Sh (Mkswap swap_file);
                 Sh (Swapon swap_file);
                 Sh (Echo (swap_file ++ lit " none swap sw 0 0") fstab) ]
    ∧ swaps (cur h') = [(swap_file, SwapFile)]
    ∧ files (cur h') !! swap_file = Some (Allocated (lit "2G"))
    ∧ files (cur h') !! fstab
      = Some (Regular ((lit "# fstab" ++ [NL]) ++ lit "/swapfile none swap sw 0 0" ++ [NL])).
Proof.
  apply (increase_swap_creates quiet (lit "2G") (one_file fstab (lit "# fstab" ++ [NL]))
           (lit "# fstab" ++ [NL])).
  - intros i _. reflexivity.
  - reflexivity.
  - by vm_compute.
Defined.


Lemma failed_swap_removes_existing_witness :
  let h' := (increase_swap (fails_at 2) (lit "4G") (boot one_swap_file)).2 in
  active (cur h') swap_file = false
  ∧ files (cur h') !! swap_file = None
  ∧ exists others,
      drop (tick h' - 2) (ops h')
      = [ Sh (Semi (Swapoff swap_file) (Swapoff swap_file));
          Sh (Rm (swap_file :: swap_file :: others)) ].
Proof.
  intros h'.
  apply (failed_swap_removes_existing (fails_at 2) (lit "4G") swap_file SwapFile []
           one_swap_file h').
  - reflexivity.
  - discriminate.
  - by repeat constructor.
  - reflexivity.
  - apply (returned_eta (increase_swap (fails_at 2) (lit "4G") (boot one_swap_file))
             (Return false)).
    vm_compute. reflexivity.
  - vm_compute. reflexivity.
  - vm_compute. reflexivity.
Defined.

Lemma config_commands_edit_witness :
  exists h',
    run_all_checked quiet (config_commands 60022) (boot sshd_host) = (Return tt, h')
    ∧ files (cur h') !! sshd_config
      = Some (Regular (join_nl (map (sed_lines (config_commands 60022))
                                  (split_nl (lit "#Port 22" ++ NL
                                             :: lit "#PasswordAuthentication yes" ++ [NL])))
                       ++ lit "AllowUsers root" ++ [NL])).
Proof.
  apply (config_commands_edit quiet 60022 (boot sshd_host)).
  - intros i _. reflexivity.
  - by vm_compute.
Defined.

Lemma update_fstab_once_witness :
  let h := boot (one_file fstab (lit "# fstab" ++ [NL])) in
  let h1 := (update_fstab quiet swap_file h).2 in
  exists t',
    files (cur h1) !! fstab = Some (Regular t')
    ∧ contains (swap_file ++ lit " none swap sw 0 0") t' = true
    ∧ (status quiet (tick h1) = 0%Z ->
       update_fstab quiet swap_file h1 = (Return tt, record (ReadText fstab) (cur h1) h1)).
Proof.
  intros h h1.
  apply (update_fstab_once quiet swap_file h (lit "# fstab" ++ [NL]) h1).
  - discriminate.
  - by apply (bool_decide_unpack _).
  - by apply (bool_decide_unpack _).
  - by vm_compute.
  - apply (returned_eta (update_fstab quiet swap_file h) (Return tt)).
    vm_compute. reflexivity.
Defined.


Lemma enable_bbr_without_module_witness :
  exists h',
    enable_bbr (fails_at 6) (boot (Sys ∅ [])) = (Return false, h')
    ∧ ops_since (boot (Sys ∅ [])) h'
      = [ Sh (Query (lit "sysctl net.ipv4.tcp_congestion_control"));
          Sh (Query (lit "sysctl net.core.default_qdisc"));
          Sh (Query (lit "sysctl net.ipv4.tcp_available_congestion_control"));
          Clock;
          Sh (Query (lit "uname -r"));
          Sh (Query (lit "sysctl net.ipv4.tcp_available_congestion_control"));
          Sh (Utility (lit "modprobe tcp_bbr")) ]
    ∧ cur h' = effect (fails_at 6) (tick (boot (Sys ∅ [])) + 6) (cur (boot (Sys ∅ []))).
Proof.
  apply (enable_bbr_without_module (fails_at 6) (boot (Sys ∅ []))).
  - reflexivity.
  - reflexivity.
  - discriminate.
Defined.

Lemma enable_bbr_commits_witness :
  let t := lit "vm.swappiness=10" ++ [NL] in
  let h := boot (one_file sysctl_conf t) in
  let h' := (enable_bbr quiet h).2 in
  files (cur h') !! sysctl_conf = Some (Regular (bbr_rewrite (universal_newlines t)))
  ∧ files (cur h') !! backup_name sysctl_conf (epoch quiet (tick h + 3)) = Some (Regular t).
Proof.
  intros t h h'.
  apply (enable_bbr_commits quiet h t h').
  - intros n s. reflexivity.
  - intros n s. reflexivity.
  - by vm_compute.
  - reflexivity.
  - apply (returned_eta (enable_bbr quiet h) (Return true)). vm_compute. reflexivity.
Defined.

Lemma config_shell_appends_once_witness :
  let home := lit "/root" in
  let shell := lit "/bin/bash" in
  let h := boot (one_file (lit "/root/.bashrc") (lit "PS1=x" ++ [NL])) in
  let h1 := (DebianInit.config_shell quiet home shell h).2 in
  let h2 := (DebianInit.config_shell quiet home shell h1).2 in
  configured (files (cur h1) !! rc_file home shell)
  ∧ files (cur h2) !! rc_file home shell = files (cur h1) !! rc_file home shell.
Proof.
  intros home shell h h1 h2.
  apply (config_shell_appends_once quiet home shell h h1 h1
           (DebianInit.config_shell quiet home shell h1).1 h2).
  - intros n s. reflexivity.
  - apply (returned_eta (DebianInit.config_shell quiet home shell h) (Return true)).
    vm_compute. reflexivity.
  - reflexivity.
  - apply surjective_pairing.
Defined.

Lemma config_sshd_commits_witness :
  let E := prints (lit "active") in
  let h' := (config_sshd E (lit "/root") 5 (boot sshd_host)).2 in
  exists port now t,
    vars h' !! "backup_file" = Some (backup_name sshd_config now)
    ∧ files (cur h') !! backup_name sshd_config now = Some (Regular t)
    ∧ files (cur h') !! sshd_config
      = Some (Regular (join_nl (map (sed_lines (config_commands port)) (split_nl t))
                       ++ lit "AllowUsers root" ++ [NL])).
Proof.
  intros E h'.
  apply (config_sshd_commits E (lit "/root") 5 (boot sshd_host) h').
  - intros n s. reflexivity.
  - intros now n s. reflexivity.
  - intros H. apply (f_equal (take 2)) in H. vm_compute in H. discriminate H.
  - intros H. apply (f_equal (take 2)) in H. vm_compute in H. discriminate H.
  - intros now. split; intros H; apply (f_equal (take 2)) in H; vm_compute in H;
      discriminate H.
  - apply (returned_eta (config_sshd E (lit "/root") 5 (boot sshd_host)) (Return true)).
    vm_compute. reflexivity.
Defined.

Lemma older_increase_swap_false_witness :
  status (fails_at 2) 0 = 0%Z
  ∧ split_ws (swapon_listing (swaps one_swap_file)) !! 1%nat = Some (lit "file").
Proof.
  apply (older_increase_swap_false (fails_at 2) (lit "4G") one_swap_file
           (InstallDebian.increase_swap (fails_at 2) (lit "4G") (boot one_swap_file)).2).
  apply (returned_eta (InstallDebian.increase_swap (fails_at 2) (lit "4G")
                         (boot one_swap_file)) (Return false)).
  vm_compute. reflexivity.
Defined.

Lemma config_shell_adds_witness :
  let home := lit "/root" in
  let shell := lit "/bin/bash" in
  let t := lit "PS1=x" ++ [NL] in
  let h := boot (one_file (lit "/root/.bashrc") t) in
  let h1 := (DebianInit.config_shell quiet home shell h).2 in
  files (cur h1) !! rc_file home shell
  = Some (Regular (universal_newlines t
                   ++ DebianInit.config_content (status quiet (S (tick h)) =? 0)%Z))
  ∧ files (cur h1) !! (rc_file home shell ++ lit ".bak."
                       ++ strftime (localtime quiet (tick h + 2)))
    = Some (Regular t).
Proof.
  intros home shell t h h1.
  apply (config_shell_adds quiet home shell h t h1).
  - intros n s. reflexivity.
  - by vm_compute.
  - reflexivity.
  - apply (returned_eta (DebianInit.config_shell quiet home shell h) (Return true)).
    vm_compute. reflexivity.
Defined.

(** ** Where the block ends up, and what goes with an old block *)

(** X25: the file that [enable_bbr] or [configure_ip_priority] writes is
    made of the lines that the scan kept, then the lines of the block, then
    the newline that ends the file: the block is always last, and no kept
    line is a marker line. *)
Theorem block_is_last b c :
  split_nl (block_rewrite b c) = kept (block_scan b) c ++ block_lines b ++ [[]]
  ∧ Forall (fun l => block_is_marker b (strip l) = false) (kept (block_scan b) c).
Proof.
  split; [|apply block_kept_plain].
  rewrite block_rewrite_with. destruct b as [|p]; cbn [block_scan block_lines].
  - apply (split_rewrite bbr_scan bbr_is_marker strip); scan_facts.
  - destruct (ip_block_facts p) as (? & ? & ?).
    apply (split_rewrite ip_scan ip_is_marker (fun l => l)); scan_facts.
Qed.

Lemma ip_scan_drops s l rest :
  ip_droppable l = true -> (s = true ∨ ip_is_marker (strip l) = true) ->
  ip_scan s (l :: rest) = ip_scan true rest.
Proof.
  intros Hd Hs. rewrite ip_scan_cons. unfold ip_droppable in Hd.
  destruct (ip_is_marker (strip l)) eqn:Hm; [done|].
  destruct Hs as [->|?]; [|done]. cbn [orb] in Hd. rewrite Hd. cbn [andb].
  by destruct (is_empty (strip l)), (startswith (lit "#") (strip l)),
    (startswith (lit "precedence") (strip l)), (startswith (lit "label") (strip l)).
Qed.

(** X26: from a marker line on, the scan loop of [configure_ip_priority]
    drops every line up to the first one that is not a marker, a precedence
    or label line, a comment or a blank line: comments, blank lines and
    label lines that follow an old block go with it. *)
Theorem ip_scan_removes_marked_block s m ds l rest :
  ip_is_marker (strip m) = true ->
  Forall (fun d => ip_droppable d = true) ds ->
  ip_droppable l = false ->
  ip_scan s (m :: ds) = []
  ∧ ip_scan s (m :: ds ++ l :: rest) = l :: ip_scan false rest.
Proof.
  intros Hm Hds Hl.
  assert (Hgo : forall tail, ip_scan s (m :: ds ++ tail) = ip_scan true tail).
  { intros tail. rewrite ip_scan_drops; [|unfold ip_droppable; by rewrite Hm|by right].
    induction Hds as [|d ds Hd _ IH]; [done|].
    cbn [app]. rewrite ip_scan_drops; [done|done|by left]. }
  split.
  - by rewrite <- (app_nil_r ds), Hgo.
  - rewrite Hgo, ip_scan_cons. unfold ip_droppable in Hl.
    destruct (ip_is_marker (strip l)); [done|]. cbn [orb] in Hl. by rewrite Hl.
Qed.

Lemma ip_scan_removes_marked_block_witness :
  ip_scan false [ lit "# IP Priority Configuration - IPv6 Preferred";
                  lit "precedence ::/0          100"; []; lit "# a note"; lit "label ::1/128 0" ]
  = []
  ∧ ip_scan false ([ lit "# IP Priority Configuration - IPv6 Preferred";
                     lit "precedence ::/0          100"; []; lit "# a note";
                     lit "label ::1/128 0" ] ++ lit "scopev4 ::ffff:0.0.0.0/96 14" :: [[]])
    = lit "scopev4 ::ffff:0.0.0.0/96 14" :: ip_scan false [[]].
Proof.
  apply (ip_scan_removes_marked_block false
           (lit "# IP Priority Configuration - IPv6 Preferred")
           [lit "precedence ::/0          100"; []; lit "# a note"; lit "label ::1/128 0"]
           (lit "scopev4 ::ffff:0.0.0.0/96 14") [[]]).
  - reflexivity.
  - by repeat constructor.
  - reflexivity.
Defined.

(** ** The update of /etc/fstab deletes nothing *)

Lemma replace_go_skip old new : forall s k,
  replace_go old new k s = replace_go old new 0 (drop k s).
Proof.
  induction s as [|c s IH]; intros k; [by destruct k|].
  destruct k as [|k]; [done|]. simpl. apply IH.
Qed.

Lemma replace_extends old suffix s :
  old ≠ [] -> s `sublist_of` replace old (old ++ suffix) s.
Proof.
  intros Hne. unfold replace.
  assert (H : forall n (s : text), (length s < n)%nat ->
            s `sublist_of` replace_go old (old ++ suffix) 0 s).
  { clear s. induction n as [|n IH]; [lia|]. intros [|c s] Hlen; [done|].
    change (replace_go old (old ++ suffix) 0 (c :: s))
      with (if startswith old (c :: s)
            then (old ++ suffix) ++ replace_go old (old ++ suffix) (length old - 1) s
            else c :: replace_go old (old ++ suffix) 0 s).
    destruct (startswith old (c :: s)) eqn:Hs.
    - apply startswith_prefix in Hs as (r & Hr).
      destruct old as [|o old']; [done|]. injection Hr as -> ->.
      rewrite replace_go_skip.
      replace (length (o :: old') - 1)%nat with (length old') by (simpl; lia).
      rewrite drop_app_length.
      rewrite <- app_assoc. cbn [app]. apply sublist_skip, sublist_app; [done|].
      apply sublist_inserts_l, IH. simpl in Hlen. rewrite length_app in Hlen. lia.
    - apply sublist_skip, IH. simpl in Hlen. lia. }
  apply (H (S (length s))). lia.
Qed.

Section FstabKeeps.
Variable E : environment.

(** X27: the update of /etc/fstab in [increase_swap] deletes nothing: the
    text that the file held (one without carriage returns) is still there,
    in order, in the text that it holds when the update returns. *)
Theorem update_fstab_keeps_text existing h t h1 :
  existing ≠ [] -> CR ∉ t ->
  files (cur h) !! fstab = Some (Regular t) ->
  update_fstab E existing h = (Return tt, h1) ->
  exists t', files (cur h1) !! fstab = Some (Regular t') ∧ t `sublist_of` t'.
Proof.
  intros Hne Ht Hf. unfold update_fstab.
  intros (content & h0 & Hread & Hrest)%bind_returned.
  unfold read_text in Hread. destruct (negb _); [done|]. rewrite Hf in Hread.
  injection Hread as <- <-. rewrite universal_newlines_id in Hrest by done.
  destruct (contains existing t); cbn [negb] in Hrest.
  - destruct (contains _ t); cbn [negb] in Hrest.
    + injection Hrest as <-. by exists t.
    + unfold overwrite in Hrest. destruct (negb _); [done|]. injection Hrest as <-.
      eexists. split; [apply lookup_insert_eq|]. by apply replace_extends.
  - unfold write in Hrest. destruct (negb _); [done|]. injection Hrest as <-.
    eexists. split.
    + unfold append_to. cbn [cur record]. rewrite Hf. apply lookup_insert_eq.
    + by apply sublist_inserts_r.
Qed.

End FstabKeeps.

Lemma update_fstab_keeps_text_witness :
  let t := lit "/swapfile none swap defaults 0 0" ++ [NL] in
  let h := boot (one_file fstab t) in
  let h1 := (update_fstab quiet swap_file h).2 in
  exists t', files (cur h1) !! fstab = Some (Regular t') ∧ t `sublist_of` t'.
Proof.
  intros t h h1.
  apply (update_fstab_keeps_text quiet swap_file h t h1).
  - discriminate.
  - by apply (bool_decide_unpack _).
  - by vm_compute.
  - apply (returned_eta (update_fstab quiet swap_file h) (Return tt)).
    vm_compute. reflexivity.
Defined.
